(** * smart-policy-generator: the request handlers of [app.py]

    A shallow embedding of the Flask application in [src/app.py] and the
    properties of its specification.

    - Python [str] values are lists of Unicode code points; the case
      mappings of [str.lower] and [str.title] are those of the Unicode
      database of the interpreter.
    - The library calls the handlers make ([str.strip], [str.split],
      [textwrap.dedent], [dict.get], [requests.post], ...) are modelled by
      total functions; a call that can raise returns a [result].
    - The handlers run in a small reader/writer/error monad: the environment
      holds what the process reads (configuration, the stories file, the
      remote service, the clock), the trace records what it does (flashed
      messages, file reads, outbound requests). *)

From Stdlib Require Import List NArith ZArith Bool String Ascii Lia.
Import ListNotations.

Local Open Scope N_scope.
Local Open Scope list_scope.

(* ================================================================== *)
(** * The case data of the Unicode database *)

(** The case mappings and case properties of the interpreter's Unicode
    database (version 14.0.0, that of CPython 3.11), which [str.lower]
    and [str.title] read.
    The tables are sorted by code point.  A run [(first, last, image)]
    maps the code points [first .. last] to [image .. image + (last -
    first)]; a code point in no run is mapped to itself. *)

Module UnicodeData.

(** The simple lower-case mapping ([_PyUnicode_ToLowercase]). *)
Definition lower_table : list (N * N * N) :=
  [
   (65,90,97); (192,214,224); (216,222,248); (256,256,257); (258,258,259);
   (260,260,261); (262,262,263); (264,264,265); (266,266,267);
   (268,268,269); (270,270,271); (272,272,273); (274,274,275);
   (276,276,277); (278,278,279); (280,280,281); (282,282,283);
   (284,284,285); (286,286,287); (288,288,289); (290,290,291);
   (292,292,293); (294,294,295); (296,296,297); (298,298,299);
   (300,300,301); (302,302,303); (306,306,307); (308,308,309);
   (310,310,311); (313,313,314); (315,315,316); (317,317,318);
   (319,319,320); (321,321,322); (323,323,324); (325,325,326);
   (327,327,328); (330,330,331); (332,332,333); (334,334,335);
   (336,336,337); (338,338,339); (340,340,341); (342,342,343);
   (344,344,345); (346,346,347); (348,348,349); (350,350,351);
   (352,352,353); (354,354,355); (356,356,357); (358,358,359);
   (360,360,361); (362,362,363); (364,364,365); (366,366,367);
   (368,368,369); (370,370,371); (372,372,373); (374,374,375);
   (376,376,255); (377,377,378); (379,379,380); (381,381,382);
   (385,385,595); (386,386,387); (388,388,389); (390,390,596);
   (391,391,392); (393,394,598); (395,395,396); (398,398,477);
   (399,399,601); (400,400,603); (401,401,402); (403,403,608);
   (404,404,611); (406,406,617); (407,407,616); (408,408,409);
   (412,412,623); (413,413,626); (415,415,629); (416,416,417);
   (418,418,419); (420,420,421); (422,422,640); (423,423,424);
   (425,425,643); (428,428,429); (430,430,648); (431,431,432);
   (433,434,650); (435,435,436); (437,437,438); (439,439,658);
   (440,440,441); (444,444,445); (452,452,454); (453,453,454);
   (455,455,457); (456,456,457); (458,458,460); (459,459,460);
   (461,461,462); (463,463,464); (465,465,466); (467,467,468);
   (469,469,470); (471,471,472); (473,473,474); (475,475,476);
   (478,478,479); (480,480,481); (482,482,483); (484,484,485);
   (486,486,487); (488,488,489); (490,490,491); (492,492,493);
   (494,494,495); (497,497,499); (498,498,499); (500,500,501);
   (502,502,405); (503,503,447); (504,504,505); (506,506,507);
   (508,508,509); (510,510,511); (512,512,513); (514,514,515);
   (516,516,517); (518,518,519); (520,520,521); (522,522,523);
   (524,524,525); (526,526,527); (528,528,529); (530,530,531);
   (532,532,533); (534,534,535); (536,536,537); (538,538,539);
   (540,540,541); (542,542,543); (544,544,414); (546,546,547);
   (548,548,549); (550,550,551); (552,552,553); (554,554,555);
   (556,556,557); (558,558,559); (560,560,561); (562,562,563);
   (570,570,11365); (571,571,572); (573,573,410); (574,574,11366);
   (577,577,578); (579,579,384); (580,580,649); (581,581,652);
   (582,582,583); (584,584,585); (586,586,587); (588,588,589);
   (590,590,591); (880,880,881); (882,882,883); (886,886,887);
   (895,895,1011); (902,902,940); (904,906,941); (908,908,972);
   (910,911,973); (913,929,945); (931,939,963); (975,975,983);
   (984,984,985); (986,986,987); (988,988,989); (990,990,991);
   (992,992,993); (994,994,995); (996,996,997); (998,998,999);
   (1000,1000,1001); (1002,1002,1003); (1004,1004,1005); (1006,1006,1007);
   (1012,1012,952); (1015,1015,1016); (1017,1017,1010); (1018,1018,1019);
   (1021,1023,891); (1024,1039,1104); (1040,1071,1072); (1120,1120,1121);
   (1122,1122,1123); (1124,1124,1125); (1126,1126,1127); (1128,1128,1129);
   (1130,1130,1131); (1132,1132,1133); (1134,1134,1135); (1136,1136,1137);
   (1138,1138,1139); (1140,1140,1141); (1142,1142,1143); (1144,1144,1145);
   (1146,1146,1147); (1148,1148,1149); (1150,1150,1151); (1152,1152,1153);
   (1162,1162,1163); (1164,1164,1165); (1166,1166,1167); (1168,1168,1169);
   (1170,1170,1171); (1172,1172,1173); (1174,1174,1175); (1176,1176,1177);
   (1178,1178,1179); (1180,1180,1181); (1182,1182,1183); (1184,1184,1185);
   (1186,1186,1187); (1188,1188,1189); (1190,1190,1191); (1192,1192,1193);
   (1194,1194,1195); (1196,1196,1197); (1198,1198,1199); (1200,1200,1201);
   (1202,1202,1203); (1204,1204,1205); (1206,1206,1207); (1208,1208,1209);
   (1210,1210,1211); (1212,1212,1213); (1214,1214,1215); (1216,1216,1231);
   (1217,1217,1218); (1219,1219,1220); (1221,1221,1222); (1223,1223,1224);
   (1225,1225,1226); (1227,1227,1228); (1229,1229,1230); (1232,1232,1233);
   (1234,1234,1235); (1236,1236,1237); (1238,1238,1239); (1240,1240,1241);
   (1242,1242,1243); (1244,1244,1245); (1246,1246,1247); (1248,1248,1249);
   (1250,1250,1251); (1252,1252,1253); (1254,1254,1255); (1256,1256,1257);
   (1258,1258,1259); (1260,1260,1261); (1262,1262,1263); (1264,1264,1265);
   (1266,1266,1267); (1268,1268,1269); (1270,1270,1271); (1272,1272,1273);
   (1274,1274,1275); (1276,1276,1277); (1278,1278,1279); (1280,1280,1281);
   (1282,1282,1283); (1284,1284,1285); (1286,1286,1287); (1288,1288,1289);
   (1290,1290,1291); (1292,1292,1293); (1294,1294,1295); (1296,1296,1297);
   (1298,1298,1299); (1300,1300,1301); (1302,1302,1303); (1304,1304,1305);
   (1306,1306,1307); (1308,1308,1309); (1310,1310,1311); (1312,1312,1313);
   (1314,1314,1315); (1316,1316,1317); (1318,1318,1319); (1320,1320,1321);
   (1322,1322,1323); (1324,1324,1325); (1326,1326,1327); (1329,1366,1377);
   (4256,4293,11520); (4295,4295,11559); (4301,4301,11565);
   (5024,5103,43888); (5104,5109,5112); (7312,7354,4304); (7357,7359,4349);
   (7680,7680,7681); (7682,7682,7683); (7684,7684,7685); (7686,7686,7687);
   (7688,7688,7689); (7690,7690,7691); (7692,7692,7693); (7694,7694,7695);
   (7696,7696,7697); (7698,7698,7699); (7700,7700,7701); (7702,7702,7703);
   (7704,7704,7705); (7706,7706,7707); (7708,7708,7709); (7710,7710,7711);
   (7712,7712,7713); (7714,7714,7715); (7716,7716,7717); (7718,7718,7719);
   (7720,7720,7721); (7722,7722,7723); (7724,7724,7725); (7726,7726,7727);
   (7728,7728,7729); (7730,7730,7731); (7732,7732,7733); (7734,7734,7735);
   (7736,7736,7737); (7738,7738,7739); (7740,7740,7741); (7742,7742,7743);
   (7744,7744,7745); (7746,7746,7747); (7748,7748,7749); (7750,7750,7751);
   (7752,7752,7753); (7754,7754,7755); (7756,7756,7757); (7758,7758,7759);
   (7760,7760,7761); (7762,7762,7763); (7764,7764,7765); (7766,7766,7767);
   (7768,7768,7769); (7770,7770,7771); (7772,7772,7773); (7774,7774,7775);
   (7776,7776,7777); (7778,7778,7779); (7780,7780,7781); (7782,7782,7783);
   (7784,7784,7785); (7786,7786,7787); (7788,7788,7789); (7790,7790,7791);
   (7792,7792,7793); (7794,7794,7795); (7796,7796,7797); (7798,7798,7799);
   (7800,7800,7801); (7802,7802,7803); (7804,7804,7805); (7806,7806,7807);
   (7808,7808,7809); (7810,7810,7811); (7812,7812,7813); (7814,7814,7815);
   (7816,7816,7817); (7818,7818,7819); (7820,7820,7821); (7822,7822,7823);
   (7824,7824,7825); (7826,7826,7827); (7828,7828,7829); (7838,7838,223);
   (7840,7840,7841); (7842,7842,7843); (7844,7844,7845); (7846,7846,7847);
   (7848,7848,7849); (7850,7850,7851); (7852,7852,7853); (7854,7854,7855);
   (7856,7856,7857); (7858,7858,7859); (7860,7860,7861); (7862,7862,7863);
   (7864,7864,7865); (7866,7866,7867); (7868,7868,7869); (7870,7870,7871);
   (7872,7872,7873); (7874,7874,7875); (7876,7876,7877); (7878,7878,7879);
   (7880,7880,7881); (7882,7882,7883); (7884,7884,7885); (7886,7886,7887);
   (7888,7888,7889); (7890,7890,7891); (7892,7892,7893); (7894,7894,7895);
   (7896,7896,7897); (7898,7898,7899); (7900,7900,7901); (7902,7902,7903);
   (7904,7904,7905); (7906,7906,7907); (7908,7908,7909); (7910,7910,7911);
   (7912,7912,7913); (7914,7914,7915); (7916,7916,7917); (7918,7918,7919);
   (7920,7920,7921); (7922,7922,7923); (7924,7924,7925); (7926,7926,7927);
   (7928,7928,7929); (7930,7930,7931); (7932,7932,7933); (7934,7934,7935);
   (7944,7951,7936); (7960,7965,7952); (7976,7983,7968); (7992,7999,7984);
   (8008,8013,8000); (8025,8025,8017); (8027,8027,8019); (8029,8029,8021);
   (8031,8031,8023); (8040,8047,8032); (8072,8079,8064); (8088,8095,8080);
   (8104,8111,8096); (8120,8121,8112); (8122,8123,8048); (8124,8124,8115);
   (8136,8139,8050); (8140,8140,8131); (8152,8153,8144); (8154,8155,8054);
   (8168,8169,8160); (8170,8171,8058); (8172,8172,8165); (8184,8185,8056);
   (8186,8187,8060); (8188,8188,8179); (8486,8486,969); (8490,8490,107);
   (8491,8491,229); (8498,8498,8526); (8544,8559,8560); (8579,8579,8580);
   (9398,9423,9424); (11264,11311,11312); (11360,11360,11361);
   (11362,11362,619); (11363,11363,7549); (11364,11364,637);
   (11367,11367,11368); (11369,11369,11370); (11371,11371,11372);
   (11373,11373,593); (11374,11374,625); (11375,11375,592);
   (11376,11376,594); (11378,11378,11379); (11381,11381,11382);
   (11390,11391,575); (11392,11392,11393); (11394,11394,11395);
   (11396,11396,11397); (11398,11398,11399); (11400,11400,11401);
   (11402,11402,11403); (11404,11404,11405); (11406,11406,11407);
   (11408,11408,11409); (11410,11410,11411); (11412,11412,11413);
   (11414,11414,11415); (11416,11416,11417); (11418,11418,11419);
   (11420,11420,11421); (11422,11422,11423); (11424,11424,11425);
   (11426,11426,11427); (11428,11428,11429); (11430,11430,11431);
   (11432,11432,11433); (11434,11434,11435); (11436,11436,11437);
   (11438,11438,11439); (11440,11440,11441); (11442,11442,11443);
   (11444,11444,11445); (11446,11446,11447); (11448,11448,11449);
   (11450,11450,11451); (11452,11452,11453); (11454,11454,11455);
   (11456,11456,11457); (11458,11458,11459); (11460,11460,11461);
   (11462,11462,11463); (11464,11464,11465); (11466,11466,11467);
   (11468,11468,11469); (11470,11470,11471); (11472,11472,11473);
   (11474,11474,11475); (11476,11476,11477); (11478,11478,11479);
   (11480,11480,11481); (11482,11482,11483); (11484,11484,11485);
   (11486,11486,11487); (11488,11488,11489); (11490,11490,11491);
   (11499,11499,11500); (11501,11501,11502); (11506,11506,11507);
   (42560,42560,42561); (42562,42562,42563); (42564,42564,42565);
   (42566,42566,42567); (42568,42568,42569); (42570,42570,42571);
   (42572,42572,42573); (42574,42574,42575); (42576,42576,42577);
   (42578,42578,42579); (42580,42580,42581); (42582,42582,42583);
   (42584,42584,42585); (42586,42586,42587); (42588,42588,42589);
   (42590,42590,42591); (42592,42592,42593); (42594,42594,42595);
   (42596,42596,42597); (42598,42598,42599); (42600,42600,42601);
   (42602,42602,42603); (42604,42604,42605); (42624,42624,42625);
   (42626,42626,42627); (42628,42628,42629); (42630,42630,42631);
   (42632,42632,42633); (42634,42634,42635); (42636,42636,42637);
   (42638,42638,42639); (42640,42640,42641); (42642,42642,42643);
   (42644,42644,42645); (42646,42646,42647); (42648,42648,42649);
   (42650,42650,42651); (42786,42786,42787); (42788,42788,42789);
   (42790,42790,42791); (42792,42792,42793); (42794,42794,42795);
   (42796,42796,42797); (42798,42798,42799); (42802,42802,42803);
   (42804,42804,42805); (42806,42806,42807); (42808,42808,42809);
   (42810,42810,42811); (42812,42812,42813); (42814,42814,42815);
   (42816,42816,42817); (42818,42818,42819); (42820,42820,42821);
   (42822,42822,42823); (42824,42824,42825); (42826,42826,42827);
   (42828,42828,42829); (42830,42830,42831); (42832,42832,42833);
   (42834,42834,42835); (42836,42836,42837); (42838,42838,42839);
   (42840,42840,42841); (42842,42842,42843); (42844,42844,42845);
   (42846,42846,42847); (42848,42848,42849); (42850,42850,42851);
   (42852,42852,42853); (42854,42854,42855); (42856,42856,42857);
   (42858,42858,42859); (42860,42860,42861); (42862,42862,42863);
   (42873,42873,42874); (42875,42875,42876); (42877,42877,7545);
   (42878,42878,42879); (42880,42880,42881); (42882,42882,42883);
   (42884,42884,42885); (42886,42886,42887); (42891,42891,42892);
   (42893,42893,613); (42896,42896,42897); (42898,42898,42899);
   (42902,42902,42903); (42904,42904,42905); (42906,42906,42907);
   (42908,42908,42909); (42910,42910,42911); (42912,42912,42913);
   (42914,42914,42915); (42916,42916,42917); (42918,42918,42919);
   (42920,42920,42921); (42922,42922,614); (42923,42923,604);
   (42924,42924,609); (42925,42925,620); (42926,42926,618);
   (42928,42928,670); (42929,42929,647); (42930,42930,669);
   (42931,42931,43859); (42932,42932,42933); (42934,42934,42935);
   (42936,42936,42937); (42938,42938,42939); (42940,42940,42941);
   (42942,42942,42943); (42944,42944,42945); (42946,42946,42947);
   (42948,42948,42900); (42949,42949,642); (42950,42950,7566);
   (42951,42951,42952); (42953,42953,42954); (42960,42960,42961);
   (42966,42966,42967); (42968,42968,42969); (42997,42997,42998);
   (65313,65338,65345); (66560,66599,66600); (66736,66771,66776);
   (66928,66938,66967); (66940,66954,66979); (66956,66962,66995);
   (66964,66965,67003); (68736,68786,68800); (71840,71871,71872);
   (93760,93791,93792); (125184,125217,125218)
  ].

(** The simple title-case mapping ([_PyUnicode_ToTitlecase]). *)
Definition title_table : list (N * N * N) :=
  [
   (97,122,65); (181,181,924); (224,246,192); (248,254,216); (255,255,376);
   (257,257,256); (259,259,258); (261,261,260); (263,263,262);
   (265,265,264); (267,267,266); (269,269,268); (271,271,270);
   (273,273,272); (275,275,274); (277,277,276); (279,279,278);
   (281,281,280); (283,283,282); (285,285,284); (287,287,286);
   (289,289,288); (291,291,290); (293,293,292); (295,295,294);
   (297,297,296); (299,299,298); (301,301,300); (303,303,302);
   (305,305,73); (307,307,306); (309,309,308); (311,311,310);
   (314,314,313); (316,316,315); (318,318,317); (320,320,319);
   (322,322,321); (324,324,323); (326,326,325); (328,328,327);
   (331,331,330); (333,333,332); (335,335,334); (337,337,336);
   (339,339,338); (341,341,340); (343,343,342); (345,345,344);
   (347,347,346); (349,349,348); (351,351,350); (353,353,352);
   (355,355,354); (357,357,356); (359,359,358); (361,361,360);
   (363,363,362); (365,365,364); (367,367,366); (369,369,368);
   (371,371,370); (373,373,372); (375,375,374); (378,378,377);
   (380,380,379); (382,382,381); (383,383,83); (384,384,579);
   (387,387,386); (389,389,388); (392,392,391); (396,396,395);
   (402,402,401); (405,405,502); (409,409,408); (410,410,573);
   (414,414,544); (417,417,416); (419,419,418); (421,421,420);
   (424,424,423); (429,429,428); (432,432,431); (436,436,435);
   (438,438,437); (441,441,440); (445,445,444); (447,447,503);
   (452,452,453); (454,454,453); (455,455,456); (457,457,456);
   (458,458,459); (460,460,459); (462,462,461); (464,464,463);
   (466,466,465); (468,468,467); (470,470,469); (472,472,471);
   (474,474,473); (476,476,475); (477,477,398); (479,479,478);
   (481,481,480); (483,483,482); (485,485,484); (487,487,486);
   (489,489,488); (491,491,490); (493,493,492); (495,495,494);
   (497,497,498); (499,499,498); (501,501,500); (505,505,504);
   (507,507,506); (509,509,508); (511,511,510); (513,513,512);
   (515,515,514); (517,517,516); (519,519,518); (521,521,520);
   (523,523,522); (525,525,524); (527,527,526); (529,529,528);
   (531,531,530); (533,533,532); (535,535,534); (537,537,536);
   (539,539,538); (541,541,540); (543,543,542); (547,547,546);
   (549,549,548); (551,551,550); (553,553,552); (555,555,554);
   (557,557,556); (559,559,558); (561,561,560); (563,563,562);
   (572,572,571); (575,576,11390); (578,578,577); (583,583,582);
   (585,585,584); (587,587,586); (589,589,588); (591,591,590);
   (592,592,11375); (593,593,11373); (594,594,11376); (595,595,385);
   (596,596,390); (598,599,393); (601,601,399); (603,603,400);
   (604,604,42923); (608,608,403); (609,609,42924); (611,611,404);
   (613,613,42893); (614,614,42922); (616,616,407); (617,617,406);
   (618,618,42926); (619,619,11362); (620,620,42925); (623,623,412);
   (625,625,11374); (626,626,413); (629,629,415); (637,637,11364);
   (640,640,422); (642,642,42949); (643,643,425); (647,647,42929);
   (648,648,430); (649,649,580); (650,651,433); (652,652,581);
   (658,658,439); (669,669,42930); (670,670,42928); (837,837,921);
   (881,881,880); (883,883,882); (887,887,886); (891,893,1021);
   (940,940,902); (941,943,904); (945,961,913); (962,962,931);
   (963,971,931); (972,972,908); (973,974,910); (976,976,914);
   (977,977,920); (981,981,934); (982,982,928); (983,983,975);
   (985,985,984); (987,987,986); (989,989,988); (991,991,990);
   (993,993,992); (995,995,994); (997,997,996); (999,999,998);
   (1001,1001,1000); (1003,1003,1002); (1005,1005,1004); (1007,1007,1006);
   (1008,1008,922); (1009,1009,929); (1010,1010,1017); (1011,1011,895);
   (1013,1013,917); (1016,1016,1015); (1019,1019,1018); (1072,1103,1040);
   (1104,1119,1024); (1121,1121,1120); (1123,1123,1122); (1125,1125,1124);
   (1127,1127,1126); (1129,1129,1128); (1131,1131,1130); (1133,1133,1132);
   (1135,1135,1134); (1137,1137,1136); (1139,1139,1138); (1141,1141,1140);
   (1143,1143,1142); (1145,1145,1144); (1147,1147,1146); (1149,1149,1148);
   (1151,1151,1150); (1153,1153,1152); (1163,1163,1162); (1165,1165,1164);
   (1167,1167,1166); (1169,1169,1168); (1171,1171,1170); (1173,1173,1172);
   (1175,1175,1174); (1177,1177,1176); (1179,1179,1178); (1181,1181,1180);
   (1183,1183,1182); (1185,1185,1184); (1187,1187,1186); (1189,1189,1188);
   (1191,1191,1190); (1193,1193,1192); (1195,1195,1194); (1197,1197,1196);
   (1199,1199,1198); (1201,1201,1200); (1203,1203,1202); (1205,1205,1204);
   (1207,1207,1206); (1209,1209,1208); (1211,1211,1210); (1213,1213,1212);
   (1215,1215,1214); (1218,1218,1217); (1220,1220,1219); (1222,1222,1221);
   (1224,1224,1223); (1226,1226,1225); (1228,1228,1227); (1230,1230,1229);
   (1231,1231,1216); (1233,1233,1232); (1235,1235,1234); (1237,1237,1236);
   (1239,1239,1238); (1241,1241,1240); (1243,1243,1242); (1245,1245,1244);
   (1247,1247,1246); (1249,1249,1248); (1251,1251,1250); (1253,1253,1252);
   (1255,1255,1254); (1257,1257,1256); (1259,1259,1258); (1261,1261,1260);
   (1263,1263,1262); (1265,1265,1264); (1267,1267,1266); (1269,1269,1268);
   (1271,1271,1270); (1273,1273,1272); (1275,1275,1274); (1277,1277,1276);
   (1279,1279,1278); (1281,1281,1280); (1283,1283,1282); (1285,1285,1284);
   (1287,1287,1286); (1289,1289,1288); (1291,1291,1290); (1293,1293,1292);
   (1295,1295,1294); (1297,1297,1296); (1299,1299,1298); (1301,1301,1300);
   (1303,1303,1302); (1305,1305,1304); (1307,1307,1306); (1309,1309,1308);
   (1311,1311,1310); (1313,1313,1312); (1315,1315,1314); (1317,1317,1316);
   (1319,1319,1318); (1321,1321,1320); (1323,1323,1322); (1325,1325,1324);
   (1327,1327,1326); (1377,1414,1329); (5112,5117,5104); (7296,7296,1042);
   (7297,7297,1044); (7298,7298,1054); (7299,7300,1057); (7301,7301,1058);
   (7302,7302,1066); (7303,7303,1122); (7304,7304,42570);
   (7545,7545,42877); (7549,7549,11363); (7566,7566,42950);
   (7681,7681,7680); (7683,7683,7682); (7685,7685,7684); (7687,7687,7686);
   (7689,7689,7688); (7691,7691,7690); (7693,7693,7692); (7695,7695,7694);
   (7697,7697,7696); (7699,7699,7698); (7701,7701,7700); (7703,7703,7702);
   (7705,7705,7704); (7707,7707,7706); (7709,7709,7708); (7711,7711,7710);
   (7713,7713,7712); (7715,7715,7714); (7717,7717,7716); (7719,7719,7718);
   (7721,7721,7720); (7723,7723,7722); (7725,7725,7724); (7727,7727,7726);
   (7729,7729,7728); (7731,7731,7730); (7733,7733,7732); (7735,7735,7734);
   (7737,7737,7736); (7739,7739,7738); (7741,7741,7740); (7743,7743,7742);
   (7745,7745,7744); (7747,7747,7746); (7749,7749,7748); (7751,7751,7750);
   (7753,7753,7752); (7755,7755,7754); (7757,7757,7756); (7759,7759,7758);
   (7761,7761,7760); (7763,7763,7762); (7765,7765,7764); (7767,7767,7766);
   (7769,7769,7768); (7771,7771,7770); (7773,7773,7772); (7775,7775,7774);
   (7777,7777,7776); (7779,7779,7778); (7781,7781,7780); (7783,7783,7782);
   (7785,7785,7784); (7787,7787,7786); (7789,7789,7788); (7791,7791,7790);
   (7793,7793,7792); (7795,7795,7794); (7797,7797,7796); (7799,7799,7798);
   (7801,7801,7800); (7803,7803,7802); (7805,7805,7804); (7807,7807,7806);
   (7809,7809,7808); (7811,7811,7810); (7813,7813,7812); (7815,7815,7814);
   (7817,7817,7816); (7819,7819,7818); (7821,7821,7820); (7823,7823,7822);
   (7825,7825,7824); (7827,7827,7826); (7829,7829,7828); (7835,7835,7776);
   (7841,7841,7840); (7843,7843,7842); (7845,7845,7844); (7847,7847,7846);
   (7849,7849,7848); (7851,7851,7850); (7853,7853,7852); (7855,7855,7854);
   (7857,7857,7856); (7859,7859,7858); (7861,7861,7860); (7863,7863,7862);
   (7865,7865,7864); (7867,7867,7866); (7869,7869,7868); (7871,7871,7870);
   (7873,7873,7872); (7875,7875,7874); (7877,7877,7876); (7879,7879,7878);
   (7881,7881,7880); (7883,7883,7882); (7885,7885,7884); (7887,7887,7886);
   (7889,7889,7888); (7891,7891,7890); (7893,7893,7892); (7895,7895,7894);
   (7897,7897,7896); (7899,7899,7898); (7901,7901,7900); (7903,7903,7902);
   (7905,7905,7904); (7907,7907,7906); (7909,7909,7908); (7911,7911,7910);
   (7913,7913,7912); (7915,7915,7914); (7917,7917,7916); (7919,7919,7918);
   (7921,7921,7920); (7923,7923,7922); (7925,7925,7924); (7927,7927,7926);
   (7929,7929,7928); (7931,7931,7930); (7933,7933,7932); (7935,7935,7934);
   (7936,7943,7944); (7952,7957,7960); (7968,7975,7976); (7984,7991,7992);
   (8000,8005,8008); (8017,8017,8025); (8019,8019,8027); (8021,8021,8029);
   (8023,8023,8031); (8032,8039,8040); (8048,8049,8122); (8050,8053,8136);
   (8054,8055,8154); (8056,8057,8184); (8058,8059,8170); (8060,8061,8186);
   (8064,8071,8072); (8080,8087,8088); (8096,8103,8104); (8112,8113,8120);
   (8115,8115,8124); (8126,8126,921); (8131,8131,8140); (8144,8145,8152);
   (8160,8161,8168); (8165,8165,8172); (8179,8179,8188); (8526,8526,8498);
   (8560,8575,8544); (8580,8580,8579); (9424,9449,9398);
   (11312,11359,11264); (11361,11361,11360); (11365,11365,570);
   (11366,11366,574); (11368,11368,11367); (11370,11370,11369);
   (11372,11372,11371); (11379,11379,11378); (11382,11382,11381);
   (11393,11393,11392); (11395,11395,11394); (11397,11397,11396);
   (11399,11399,11398); (11401,11401,11400); (11403,11403,11402);
   (11405,11405,11404); (11407,11407,11406); (11409,11409,11408);
   (11411,11411,11410); (11413,11413,11412); (11415,11415,11414);
   (11417,11417,11416); (11419,11419,11418); (11421,11421,11420);
   (11423,11423,11422); (11425,11425,11424); (11427,11427,11426);
   (11429,11429,11428); (11431,11431,11430); (11433,11433,11432);
   (11435,11435,11434); (11437,11437,11436); (11439,11439,11438);
   (11441,11441,11440); (11443,11443,11442); (11445,11445,11444);
   (11447,11447,11446); (11449,11449,11448); (11451,11451,11450);
   (11453,11453,11452); (11455,11455,11454); (11457,11457,11456);
   (11459,11459,11458); (11461,11461,11460); (11463,11463,11462);
   (11465,11465,11464); (11467,11467,11466); (11469,11469,11468);
   (11471,11471,11470); (11473,11473,11472); (11475,11475,11474);
   (11477,11477,11476); (11479,11479,11478); (11481,11481,11480);
   (11483,11483,11482); (11485,11485,11484); (11487,11487,11486);
   (11489,11489,11488); (11491,11491,11490); (11500,11500,11499);
   (11502,11502,11501); (11507,11507,11506); (11520,11557,4256);
   (11559,11559,4295); (11565,11565,4301); (42561,42561,42560);
   (42563,42563,42562); (42565,42565,42564); (42567,42567,42566);
   (42569,42569,42568); (42571,42571,42570); (42573,42573,42572);
   (42575,42575,42574); (42577,42577,42576); (42579,42579,42578);
   (42581,42581,42580); (42583,42583,42582); (42585,42585,42584);
   (42587,42587,42586); (42589,42589,42588); (42591,42591,42590);
   (42593,42593,42592); (42595,42595,42594); (42597,42597,42596);
   (42599,42599,42598); (42601,42601,42600); (42603,42603,42602);
   (42605,42605,42604); (42625,42625,42624); (42627,42627,42626);
   (42629,42629,42628); (42631,42631,42630); (42633,42633,42632);
   (42635,42635,42634); (42637,42637,42636); (42639,42639,42638);
   (42641,42641,42640); (42643,42643,42642); (42645,42645,42644);
   (42647,42647,42646); (42649,42649,42648); (42651,42651,42650);
   (42787,42787,42786); (42789,42789,42788); (42791,42791,42790);
   (42793,42793,42792); (42795,42795,42794); (42797,42797,42796);
   (42799,42799,42798); (42803,42803,42802); (42805,42805,42804);
   (42807,42807,42806); (42809,42809,42808); (42811,42811,42810);
   (42813,42813,42812); (42815,42815,42814); (42817,42817,42816);
   (42819,42819,42818); (42821,42821,42820); (42823,42823,42822);
   (42825,42825,42824); (42827,42827,42826); (42829,42829,42828);
   (42831,42831,42830); (42833,42833,42832); (42835,42835,42834);
   (42837,42837,42836); (42839,42839,42838); (42841,42841,42840);
   (42843,42843,42842); (42845,42845,42844); (42847,42847,42846);
   (42849,42849,42848); (42851,42851,42850); (42853,42853,42852);
   (42855,42855,42854); (42857,42857,42856); (42859,42859,42858);
   (42861,42861,42860); (42863,42863,42862); (42874,42874,42873);
   (42876,42876,42875); (42879,42879,42878); (42881,42881,42880);
   (42883,42883,42882); (42885,42885,42884); (42887,42887,42886);
   (42892,42892,42891); (42897,42897,42896); (42899,42899,42898);
   (42900,42900,42948); (42903,42903,42902); (42905,42905,42904);
   (42907,42907,42906); (42909,42909,42908); (42911,42911,42910);
   (42913,42913,42912); (42915,42915,42914); (42917,42917,42916);
   (42919,42919,42918); (42921,42921,42920); (42933,42933,42932);
   (42935,42935,42934); (42937,42937,42936); (42939,42939,42938);
   (42941,42941,42940); (42943,42943,42942); (42945,42945,42944);
   (42947,42947,42946); (42952,42952,42951); (42954,42954,42953);
   (42961,42961,42960); (42967,42967,42966); (42969,42969,42968);
   (42998,42998,42997); (43859,43859,42931); (43888,43967,5024);
   (65345,65370,65313); (66600,66639,66560); (66776,66811,66736);
   (66967,66977,66928); (66979,66993,66940); (66995,67001,66956);
   (67003,67004,66964); (68800,68850,68736); (71872,71903,71840);
   (93792,93823,93760); (125218,125251,125184)
  ].

(** The code points whose title-case form has more than one character
    (the special casing [_PyUnicode_ToTitleFull] reads). *)
Definition title_special : list (N * list N) :=
  [
   (223,[83;115]); (329,[700;78]); (496,[74;780]); (912,[921;776;769]);
   (944,[933;776;769]); (1415,[1333;1410]); (7830,[72;817]);
   (7831,[84;776]); (7832,[87;778]); (7833,[89;778]); (7834,[65;702]);
   (8016,[933;787]); (8018,[933;787;768]); (8020,[933;787;769]);
   (8022,[933;787;834]); (8114,[8122;837]); (8116,[902;837]);
   (8118,[913;834]); (8119,[913;834;837]); (8130,[8138;837]);
   (8132,[905;837]); (8134,[919;834]); (8135,[919;834;837]);
   (8146,[921;776;768]); (8147,[921;776;769]); (8150,[921;834]);
   (8151,[921;776;834]); (8162,[933;776;768]); (8163,[933;776;769]);
   (8164,[929;787]); (8166,[933;834]); (8167,[933;776;834]);
   (8178,[8186;837]); (8180,[911;837]); (8182,[937;834]);
   (8183,[937;834;837]); (64256,[70;102]); (64257,[70;105]);
   (64258,[70;108]); (64259,[70;102;105]); (64260,[70;102;108]);
   (64261,[83;116]); (64262,[83;116]); (64275,[1348;1398]);
   (64276,[1348;1381]); (64277,[1348;1387]); (64278,[1358;1398]);
   (64279,[1348;1389])
  ].

(** The cased code points ([_PyUnicode_IsCased]): the properties
    Lowercase and Uppercase and the category Lt. *)
Definition cased_ranges : list (N * N) :=
  [
   (65,90); (97,122); (170,170); (181,181); (186,186); (192,214);
   (216,246); (248,442); (444,447); (452,659); (661,696); (704,705);
   (736,740); (837,837); (880,883); (886,887); (890,893); (895,895);
   (902,902); (904,906); (908,908); (910,929); (931,1013); (1015,1153);
   (1162,1327); (1329,1366); (1376,1416); (4256,4293); (4295,4295);
   (4301,4301); (4304,4346); (4349,4351); (5024,5109); (5112,5117);
   (7296,7304); (7312,7354); (7357,7359); (7424,7615); (7680,7957);
   (7960,7965); (7968,8005); (8008,8013); (8016,8023); (8025,8025);
   (8027,8027); (8029,8029); (8031,8061); (8064,8116); (8118,8124);
   (8126,8126); (8130,8132); (8134,8140); (8144,8147); (8150,8155);
   (8160,8172); (8178,8180); (8182,8188); (8305,8305); (8319,8319);
   (8336,8348); (8450,8450); (8455,8455); (8458,8467); (8469,8469);
   (8473,8477); (8484,8484); (8486,8486); (8488,8488); (8490,8493);
   (8495,8500); (8505,8505); (8508,8511); (8517,8521); (8526,8526);
   (8544,8575); (8579,8580); (9398,9449); (11264,11492); (11499,11502);
   (11506,11507); (11520,11557); (11559,11559); (11565,11565);
   (42560,42605); (42624,42653); (42786,42887); (42891,42894);
   (42896,42954); (42960,42961); (42963,42963); (42965,42969);
   (42997,42998); (43000,43002); (43824,43866); (43868,43880);
   (43888,43967); (64256,64262); (64275,64279); (65313,65338);
   (65345,65370); (66560,66639); (66736,66771); (66776,66811);
   (66928,66938); (66940,66954); (66956,66962); (66964,66965);
   (66967,66977); (66979,66993); (66995,67001); (67003,67004);
   (67456,67456); (67459,67461); (67463,67504); (67506,67514);
   (68736,68786); (68800,68850); (71840,71903); (93760,93823);
   (119808,119892); (119894,119964); (119966,119967); (119970,119970);
   (119973,119974); (119977,119980); (119982,119993); (119995,119995);
   (119997,120003); (120005,120069); (120071,120074); (120077,120084);
   (120086,120092); (120094,120121); (120123,120126); (120128,120132);
   (120134,120134); (120138,120144); (120146,120485); (120488,120512);
   (120514,120538); (120540,120570); (120572,120596); (120598,120628);
   (120630,120654); (120656,120686); (120688,120712); (120714,120744);
   (120746,120770); (120772,120779); (122624,122633); (122635,122654);
   (125184,125251); (127280,127305); (127312,127337); (127344,127369)
  ].

(** The case-ignorable code points ([_PyUnicode_IsCaseIgnorable]). *)
Definition case_ignorable_ranges : list (N * N) :=
  [
   (39,39); (46,46); (58,58); (94,94); (96,96); (168,168); (173,173);
   (175,175); (180,180); (183,184); (688,879); (884,885); (890,890);
   (900,901); (903,903); (1155,1161); (1369,1369); (1375,1375);
   (1425,1469); (1471,1471); (1473,1474); (1476,1477); (1479,1479);
   (1524,1524); (1536,1541); (1552,1562); (1564,1564); (1600,1600);
   (1611,1631); (1648,1648); (1750,1757); (1759,1768); (1770,1773);
   (1807,1807); (1809,1809); (1840,1866); (1958,1968); (2027,2037);
   (2042,2042); (2045,2045); (2070,2093); (2137,2139); (2184,2184);
   (2192,2193); (2200,2207); (2249,2306); (2362,2362); (2364,2364);
   (2369,2376); (2381,2381); (2385,2391); (2402,2403); (2417,2417);
   (2433,2433); (2492,2492); (2497,2500); (2509,2509); (2530,2531);
   (2558,2558); (2561,2562); (2620,2620); (2625,2626); (2631,2632);
   (2635,2637); (2641,2641); (2672,2673); (2677,2677); (2689,2690);
   (2748,2748); (2753,2757); (2759,2760); (2765,2765); (2786,2787);
   (2810,2815); (2817,2817); (2876,2876); (2879,2879); (2881,2884);
   (2893,2893); (2901,2902); (2914,2915); (2946,2946); (3008,3008);
   (3021,3021); (3072,3072); (3076,3076); (3132,3132); (3134,3136);
   (3142,3144); (3146,3149); (3157,3158); (3170,3171); (3201,3201);
   (3260,3260); (3263,3263); (3270,3270); (3276,3277); (3298,3299);
   (3328,3329); (3387,3388); (3393,3396); (3405,3405); (3426,3427);
   (3457,3457); (3530,3530); (3538,3540); (3542,3542); (3633,3633);
   (3636,3642); (3654,3662); (3761,3761); (3764,3772); (3782,3782);
   (3784,3789); (3864,3865); (3893,3893); (3895,3895); (3897,3897);
   (3953,3966); (3968,3972); (3974,3975); (3981,3991); (3993,4028);
   (4038,4038); (4141,4144); (4146,4151); (4153,4154); (4157,4158);
   (4184,4185); (4190,4192); (4209,4212); (4226,4226); (4229,4230);
   (4237,4237); (4253,4253); (4348,4348); (4957,4959); (5906,5908);
   (5938,5939); (5970,5971); (6002,6003); (6068,6069); (6071,6077);
   (6086,6086); (6089,6099); (6103,6103); (6109,6109); (6155,6159);
   (6211,6211); (6277,6278); (6313,6313); (6432,6434); (6439,6440);
   (6450,6450); (6457,6459); (6679,6680); (6683,6683); (6742,6742);
   (6744,6750); (6752,6752); (6754,6754); (6757,6764); (6771,6780);
   (6783,6783); (6823,6823); (6832,6862); (6912,6915); (6964,6964);
   (6966,6970); (6972,6972); (6978,6978); (7019,7027); (7040,7041);
   (7074,7077); (7080,7081); (7083,7085); (7142,7142); (7144,7145);
   (7149,7149); (7151,7153); (7212,7219); (7222,7223); (7288,7293);
   (7376,7378); (7380,7392); (7394,7400); (7405,7405); (7412,7412);
   (7416,7417); (7468,7530); (7544,7544); (7579,7679); (8125,8125);
   (8127,8129); (8141,8143); (8157,8159); (8173,8175); (8189,8190);
   (8203,8207); (8216,8217); (8228,8228); (8231,8231); (8234,8238);
   (8288,8292); (8294,8303); (8305,8305); (8319,8319); (8336,8348);
   (8400,8432); (11388,11389); (11503,11505); (11631,11631); (11647,11647);
   (11744,11775); (11823,11823); (12293,12293); (12330,12333);
   (12337,12341); (12347,12347); (12441,12446); (12540,12542);
   (40981,40981); (42232,42237); (42508,42508); (42607,42610);
   (42612,42621); (42623,42623); (42652,42655); (42736,42737);
   (42752,42785); (42864,42864); (42888,42890); (42994,42996);
   (43000,43001); (43010,43010); (43014,43014); (43019,43019);
   (43045,43046); (43052,43052); (43204,43205); (43232,43249);
   (43263,43263); (43302,43309); (43335,43345); (43392,43394);
   (43443,43443); (43446,43449); (43452,43453); (43471,43471);
   (43493,43494); (43561,43566); (43569,43570); (43573,43574);
   (43587,43587); (43596,43596); (43632,43632); (43644,43644);
   (43696,43696); (43698,43700); (43703,43704); (43710,43711);
   (43713,43713); (43741,43741); (43756,43757); (43763,43764);
   (43766,43766); (43867,43871); (43881,43883); (44005,44005);
   (44008,44008); (44013,44013); (64286,64286); (64434,64450);
   (65024,65039); (65043,65043); (65056,65071); (65106,65106);
   (65109,65109); (65279,65279); (65287,65287); (65294,65294);
   (65306,65306); (65342,65342); (65344,65344); (65392,65392);
   (65438,65439); (65507,65507); (65529,65531); (66045,66045);
   (66272,66272); (66422,66426); (67456,67461); (67463,67504);
   (67506,67514); (68097,68099); (68101,68102); (68108,68111);
   (68152,68154); (68159,68159); (68325,68326); (68900,68903);
   (69291,69292); (69446,69456); (69506,69509); (69633,69633);
   (69688,69702); (69744,69744); (69747,69748); (69759,69761);
   (69811,69814); (69817,69818); (69821,69821); (69826,69826);
   (69837,69837); (69888,69890); (69927,69931); (69933,69940);
   (70003,70003); (70016,70017); (70070,70078); (70089,70092);
   (70095,70095); (70191,70193); (70196,70196); (70198,70199);
   (70206,70206); (70367,70367); (70371,70378); (70400,70401);
   (70459,70460); (70464,70464); (70502,70508); (70512,70516);
   (70712,70719); (70722,70724); (70726,70726); (70750,70750);
   (70835,70840); (70842,70842); (70847,70848); (70850,70851);
   (71090,71093); (71100,71101); (71103,71104); (71132,71133);
   (71219,71226); (71229,71229); (71231,71232); (71339,71339);
   (71341,71341); (71344,71349); (71351,71351); (71453,71455);
   (71458,71461); (71463,71467); (71727,71735); (71737,71738);
   (71995,71996); (71998,71998); (72003,72003); (72148,72151);
   (72154,72155); (72160,72160); (72193,72202); (72243,72248);
   (72251,72254); (72263,72263); (72273,72278); (72281,72283);
   (72330,72342); (72344,72345); (72752,72758); (72760,72765);
   (72767,72767); (72850,72871); (72874,72880); (72882,72883);
   (72885,72886); (73009,73014); (73018,73018); (73020,73021);
   (73023,73029); (73031,73031); (73104,73105); (73109,73109);
   (73111,73111); (73459,73460); (78896,78904); (92912,92916);
   (92976,92982); (92992,92995); (94031,94031); (94095,94111);
   (94176,94177); (94179,94180); (110576,110579); (110581,110587);
   (110589,110590); (113821,113822); (113824,113827); (118528,118573);
   (118576,118598); (119143,119145); (119155,119170); (119173,119179);
   (119210,119213); (119362,119364); (121344,121398); (121403,121452);
   (121461,121461); (121476,121476); (121499,121503); (121505,121519);
   (122880,122886); (122888,122904); (122907,122913); (122915,122916);
   (122918,122922); (123184,123197); (123566,123566); (123628,123631);
   (125136,125142); (125252,125259); (127995,127999); (917505,917505);
   (917536,917631); (917760,917999)
  ].

End UnicodeData.

(* ================================================================== *)
(** * Python strings *)

Module PyStr.

(** A character is a Unicode code point, a string a list of them. *)
Abbreviation char := N (only parsing).
Abbreviation str := (list N) (only parsing).

(** ASCII literals of the source. *)
Definition py (s : string) : str :=
  map N_of_ascii (list_ascii_of_string s).

Fixpoint eqb_str (a b : str) : bool :=
  match a, b with
  | [], [] => true
  | x :: a', y :: b' => (x =? y) && eqb_str a' b'
  | _, _ => false
  end.

(** [x in l] for a list of strings. *)
Definition mem (x : str) (l : list str) : bool := existsb (eqb_str x) l.

(** [str.isspace] on one character: the code points CPython's
    [_PyUnicode_IsWhitespace] accepts. *)
Definition isspace (c : char) : bool :=
  ((9 <=? c) && (c <=? 13)) || ((28 <=? c) && (c <=? 32)) ||
  (c =? 133) || (c =? 160) || (c =? 5760) ||
  ((8192 <=? c) && (c <=? 8202)) ||
  (c =? 8232) || (c =? 8233) || (c =? 8239) || (c =? 8287) || (c =? 12288).

(** Line boundaries of [str.splitlines]: [_PyUnicode_IsLinebreak]. *)
Definition is_linebreak (c : char) : bool :=
  ((10 <=? c) && (c <=? 13)) || ((28 <=? c) && (c <=? 30)) ||
  (c =? 133) || (c =? 8232) || (c =? 8233).

Fixpoint dropwhile (p : char -> bool) (s : str) : str :=
  match s with
  | [] => []
  | c :: r => if p c then dropwhile p r else s
  end.

Fixpoint takewhile (p : char -> bool) (s : str) : str :=
  match s with
  | [] => []
  | c :: r => if p c then c :: takewhile p r else []
  end.

Definition lstrip (s : str) : str := dropwhile isspace s.
Definition rstrip (s : str) : str := rev (dropwhile isspace (rev s)).

(** [s.strip()] *)
Definition strip (s : str) : str := rstrip (lstrip s).

(** Membership in a sorted table of ranges [(first, last)]. *)
Fixpoint in_ranges (t : list (N * N)) (c : char) : bool :=
  match t with
  | [] => false
  | (first, last) :: r =>
      if c <? first then false
      else if c <=? last then true
      else in_ranges r c
  end.

(** The image of a code point under a sorted table of runs
    [(first, last, image of first)]. *)
Fixpoint map_char (t : list (N * N * N)) (c : char) : char :=
  match t with
  | [] => c
  | (first, last, image) :: r =>
      if c <? first then c
      else if c <=? last then image + (c - first)
      else map_char r c
  end.

Fixpoint special_casing (t : list (N * list N)) (c : char) : option str :=
  match t with
  | [] => None
  | (k, v) :: r => if c =? k then Some v else special_casing r c
  end.

(** [_PyUnicode_IsCased] and [_PyUnicode_IsCaseIgnorable] *)
Definition is_cased (c : char) : bool :=
  in_ranges UnicodeData.cased_ranges c.
Definition is_case_ignorable (c : char) : bool :=
  in_ranges UnicodeData.case_ignorable_ranges c.

(** [_PyUnicode_ToLowerFull]: the one code point whose lower-case form
    has two characters is U+0130, capital I with a dot above. *)
Definition to_lower_full (c : char) : str :=
  if c =? 304 then [105; 775] else [map_char UnicodeData.lower_table c].

(** [_PyUnicode_ToTitleFull] *)
Definition to_title_full (c : char) : str :=
  match special_casing UnicodeData.title_special c with
  | Some v => v
  | None => [map_char UnicodeData.title_table c]
  end.

(** [handle_capital_sigma]: a capital sigma U+03A3 is in final position
    when a cased character comes before it, case-ignorable characters
    skipped, and none comes after it.  [before] holds the characters
    before the sigma, the nearest first, [after] the ones after it. *)
Definition final_sigma (before after : str) : bool :=
  match dropwhile is_case_ignorable before with
  | [] => false
  | c :: _ =>
      is_cased c &&
      match dropwhile is_case_ignorable after with
      | [] => true
      | d :: _ => negb (is_cased d)
      end
  end.

(** [lower_ucs4]: the lower-case form of the character [c] that stands
    between [before] and [after]. *)
Definition lower_ucs4 (before after : str) (c : char) : str :=
  if c =? 931 then [if final_sigma before after then 962 else 963]
  else to_lower_full c.

(** [do_lower] on the characters [s] of the text
    [rev before ++ s ++ after]. *)
Fixpoint do_lower (before s after : str) : str :=
  match s with
  | [] => []
  | c :: r =>
      lower_ucs4 before (r ++ after) c ++ do_lower (c :: before) r after
  end.

(** [s.lower()] *)
Definition lower (s : str) : str := do_lower [] s [].

(** [s.title()] ([do_title]): a character is given its title-case form
    when the character before it is not cased, and its lower-case form
    otherwise. *)
Fixpoint do_title (previous_is_cased : bool) (before s : str) : str :=
  match s with
  | [] => []
  | c :: r =>
      (if previous_is_cased then lower_ucs4 before r c else to_title_full c)
        ++ do_title (is_cased c) (c :: before) r
  end.
Definition title (s : str) : str := do_title false [] s.

(** [s.split(sep)] for a one-character separator: [n] separators give
    [n + 1] pieces, the empty string gives one empty piece. *)
Fixpoint split_on (sep : char) (s : str) : list str :=
  match s with
  | [] => [[]]
  | c :: r =>
      if c =? sep then [] :: split_on sep r
      else match split_on sep r with
           | [] => [[c]]
           | piece :: pieces => (c :: piece) :: pieces
           end
  end.

(** [sep.join(l)] *)
Fixpoint join (sep : str) (l : list str) : str :=
  match l with
  | [] => []
  | [x] => x
  | x :: r => x ++ sep ++ join sep r
  end.

(** [s.splitlines()]: a line ends at a line boundary ([\r\n] counts as
    one); no empty line is produced after a final boundary. *)
Fixpoint splitlines_from (line : str) (s : str) {struct s} : list str :=
  match s with
  | [] => [line]
  | c :: r =>
      if is_linebreak c then
        match r with
        | [] => [line]
        | d :: r' =>
            if (c =? 13) && (d =? 10) then
              match r' with
              | [] => [line]
              | _ :: _ => line :: splitlines_from [] r'
              end
            else line :: splitlines_from [] r
        end
      else splitlines_from (line ++ [c]) r
  end.
Definition splitlines (s : str) : list str :=
  match s with
  | [] => []
  | _ :: _ => splitlines_from [] s
  end.

(** [l[:n]] for a Python integer [n]: a negative bound counts from the
    end. *)
Definition slice_to {A : Type} (l : list A) (n : Z) : list A :=
  if (n <? 0)%Z then firstn (Z.to_nat (Z.of_nat (List.length l) + n)) l
  else firstn (Z.to_nat n) l.

(** [s.replace(old, new)] for one-character [old] and [new]. *)
Definition replace (old new : char) (s : str) : str :=
  map (fun c => if c =? old then new else c) s.

Fixpoint startswith (s prefix : str) {struct prefix} : bool :=
  match prefix with
  | [] => true
  | p :: prefix' =>
      match s with
      | [] => false
      | c :: s' => (c =? p) && startswith s' prefix'
      end
  end.

Definition endswith (s suffix : str) : bool :=
  startswith (rev s) (rev suffix).

(** [sub in s] *)
Fixpoint contains (s sub : str) : bool :=
  startswith s sub ||
  match s with
  | [] => false
  | _ :: r => contains r sub
  end.

(** Decimal digits of a number, most significant first ([str(n)]). *)
Fixpoint dec_digits (fuel : nat) (n : N) : str :=
  match fuel with
  | O => []
  | S fuel' =>
      if n <? 10 then [48 + n]
      else dec_digits fuel' (n / 10) ++ [48 + n mod 10]
  end.
Definition str_of_N (n : N) : str := dec_digits (S (N.size_nat n)) n.

(** [%0wd]: zero-padded to at least [w] digits. *)
Definition zpad (w : nat) (n : N) : str :=
  let d := str_of_N n in
  repeat 48 (w - List.length d) ++ d.

Definition is_digit (c : char) : bool := (48 <=? c) && (c <=? 57).

End PyStr.
Import PyStr.
Arguments py s%_string.

(* ================================================================== *)
(** * [textwrap.dedent] *)

(** The function as the standard library writes it with regular
    expressions: lines end at a newline only, a line of spaces and tabs
    is emptied, the margin is the longest run of leading spaces and tabs
    shared by the lines that have text, and it is removed from the start
    of every line. *)

Module Textwrap.

Definition newline : char := 10.

(** A space or a tab, the characters the expressions of [textwrap]
    count as indentation. *)
Definition is_blank (c : char) : bool := (c =? 32) || (c =? 9).

(** [_whitespace_only_re]: a line of one or more blanks and nothing
    else. *)
Definition whitespace_only (line : str) : bool :=
  match line with
  | [] => false
  | _ :: _ => forallb is_blank line
  end.

Definition normalize_line (line : str) : str :=
  if whitespace_only line then [] else line.

(** [_leading_whitespace_re]: the leading blanks of a line, when a
    character that is not a blank follows them. *)
Definition leading_whitespace (line : str) : option str :=
  if existsb (fun c => negb (is_blank c)) line
  then Some (takewhile is_blank line)
  else None.

Fixpoint indents (lines : list str) : list str :=
  match lines with
  | [] => []
  | l :: r =>
      match leading_whitespace l with
      | Some i => i :: indents r
      | None => indents r
      end
  end.

(** [margin[:i]] at the first [i] where the two differ. *)
Fixpoint common_prefix (a b : str) : str :=
  match a, b with
  | x :: a', y :: b' => if x =? y then x :: common_prefix a' b' else []
  | _, _ => []
  end.

(** One turn of the loop over the indents. *)
Definition next_margin (margin : option str) (indent : str) : option str :=
  match margin with
  | None => Some indent
  | Some m =>
      if startswith indent m then Some m
      else if startswith m indent then Some indent
      else Some (common_prefix m indent)
  end.

Definition find_margin (lines : list str) : option str :=
  fold_left next_margin (indents lines) None.

(** The final [re.sub] on one line: the margin is removed where the
    line starts with it. *)
Definition remove_margin (margin : str) (line : str) : str :=
  if startswith line margin then skipn (List.length margin) line else line.

(** [textwrap.dedent(text)] *)
Definition dedent (text : str) : str :=
  let lines := map normalize_line (split_on newline text) in
  match find_margin lines with
  | Some (c :: m) => join [newline] (map (remove_margin (c :: m)) lines)
  | _ => join [newline] lines
  end.

End Textwrap.

(* ================================================================== *)
(** * Python values, exceptions and results *)

(** The classes of [Exception] the calls of the application raise.
    [RequestException] stands for [requests.exceptions.RequestException]
    and its subclasses (connection errors, timeouts, HTTP errors).  All
    of them derive from [Exception]; the signals that do not
    ([KeyboardInterrupt], [SystemExit]) are not failures of a call and
    are left out. *)
Inductive exn_class : Type :=
| RequestException
| AttributeError
| TypeError
| KeyError
| IndexError
| ValueError
| OSError
| UnicodeError.

Record exn : Type := Exn { exn_cls : exn_class; exn_str : str }.

(** [isinstance(e, requests.exceptions.RequestException)] *)
Definition is_request_exception (e : exn) : bool :=
  match exn_cls e with
  | RequestException => true
  | _ => false
  end.

Inductive result (A : Type) : Type :=
| Ok (a : A)
| Raise (e : exn).
Arguments Ok {A} a.
Arguments Raise {A} e.

(** The values [json.loads] builds, which are also the values a handler
    can hand to a template. *)
#[warnings="-register-all"]
Inductive pyval : Type :=
| PyNone
| PyBool (b : bool)
| PyInt (z : Z)
| PyFloat (mantissa exponent : Z)
| PyStr (s : str)
| PyList (l : list pyval)
| PyDict (d : list (str * pyval)).

Definition type_name (v : pyval) : str :=
  match v with
  | PyNone => py "NoneType"
  | PyBool _ => py "bool"
  | PyInt _ => py "int"
  | PyFloat _ _ => py "float"
  | PyStr _ => py "str"
  | PyList _ => py "list"
  | PyDict _ => py "dict"
  end.

Fixpoint lookup {A : Type} (key : str) (d : list (str * A)) : option A :=
  match d with
  | [] => None
  | (k, v) :: r => if eqb_str k key then Some v else lookup key r
  end.

(** [d.get(key, default)] where [d] is a dictionary of strings. *)
Definition dict_get (d : list (str * str)) (key : str) (default : str) : str :=
  match lookup key d with
  | Some v => v
  | None => default
  end.

(** [v.get(key, default)] on a decoded JSON value: only a dictionary has
    the method. *)
Definition py_get (v : pyval) (key : str) (default : pyval) : result pyval :=
  match v with
  | PyDict d =>
      match lookup key d with
      | Some x => Ok x
      | None => Ok default
      end
  | _ =>
      Raise (Exn AttributeError
               (py "'" ++ type_name v ++ py "' object has no attribute 'get'"))
  end.

(** [v[0]] on a decoded JSON value.  The keys of a decoded dictionary are
    strings, so the integer key [0] is never found. *)
Definition py_item0 (v : pyval) : result pyval :=
  match v with
  | PyList (x :: _) => Ok x
  | PyList [] => Raise (Exn IndexError (py "list index out of range"))
  | PyStr (c :: _) => Ok (PyStr [c])
  | PyStr [] => Raise (Exn IndexError (py "string index out of range"))
  | PyDict _ => Raise (Exn KeyError (py "0"))
  | _ =>
      Raise (Exn TypeError
               (py "'" ++ type_name v ++ py "' object is not subscriptable"))
  end.

(** [s.encode("utf-8")].  A byte is a number below 256.  Surrogate code
    points cannot be encoded. *)
Definition utf8_char (c : char) : result (list N) :=
  if c <? 128 then Ok [c]
  else if c <? 2048 then Ok [192 + c / 64; 128 + c mod 64]
  else if (55296 <=? c) && (c <=? 57343) then
    Raise (Exn UnicodeError (py "'utf-8' codec can't encode character: surrogates not allowed"))
  else if c <? 65536 then
    Ok [224 + c / 4096; 128 + (c / 64) mod 64; 128 + c mod 64]
  else
    Ok [240 + c / 262144; 128 + (c / 4096) mod 64;
        128 + (c / 64) mod 64; 128 + c mod 64].

Fixpoint encode_utf8 (s : str) : result (list N) :=
  match s with
  | [] => Ok []
  | c :: r =>
      match utf8_char c with
      | Raise e => Raise e
      | Ok bs =>
          match encode_utf8 r with
          | Raise e => Raise e
          | Ok rest => Ok (bs ++ rest)
          end
      end
  end.

(** [bytes.decode("utf-8")]: the strict decoder, which refuses overlong
    forms, surrogates and values above the Unicode range. *)
Definition is_continuation (b : N) : bool := (128 <=? b) && (b <? 192).

Fixpoint decode_utf8 (bytes : list N) : option str :=
  match bytes with
  | [] => Some []
  | b0 :: r0 =>
      if b0 <? 128 then option_map (cons b0) (decode_utf8 r0)
      else if (192 <=? b0) && (b0 <? 224) then
        match r0 with
        | b1 :: r1 =>
            let c := (b0 - 192) * 64 + (b1 - 128) in
            if is_continuation b1 && (128 <=? c)
            then option_map (cons c) (decode_utf8 r1)
            else None
        | _ => None
        end
      else if (224 <=? b0) && (b0 <? 240) then
        match r0 with
        | b1 :: b2 :: r2 =>
            let c := (b0 - 224) * 4096 + (b1 - 128) * 64 + (b2 - 128) in
            if is_continuation b1 && is_continuation b2 && (2048 <=? c)
               && negb ((55296 <=? c) && (c <=? 57343))
            then option_map (cons c) (decode_utf8 r2)
            else None
        | _ => None
        end
      else if (240 <=? b0) && (b0 <? 248) then
        match r0 with
        | b1 :: b2 :: b3 :: r3 =>
            let c := (b0 - 240) * 262144 + (b1 - 128) * 4096
                     + (b2 - 128) * 64 + (b3 - 128) in
            if is_continuation b1 && is_continuation b2 && is_continuation b3
               && (65536 <=? c) && (c <? 1114112)
            then option_map (cons c) (decode_utf8 r3)
            else None
        | _ => None
        end
      else None
  end.

(** A text as the form decoder of the web framework delivers it: code
    points of the Unicode range, no surrogates. *)
Definition is_scalar (c : char) : bool :=
  (c <? 55296) || ((57343 <? c) && (c <? 1114112)).

(* ================================================================== *)
(** * The environment and the effects of a request *)

(** The arguments of [requests.post]. *)
Record http_request : Type := {
  req_url : str;
  req_headers : list (str * str);
  req_json : pyval;
  req_timeout : Z
}.

(** What the handlers use of a [requests.Response]: the status line, the
    final URL and the outcome of [resp.json()]. *)
Record http_response : Type := {
  status_code : N;
  reason : str;
  resp_url : str;
  resp_json : result pyval
}.

(** [datetime.datetime] *)
Record datetime : Type := {
  year : N; month : N; day : N; hour : N; minute : N; second : N
}.

(** What a request reads: the configuration loaded at start-up, the
    stories file, the remote service and the clock. *)
Record env : Type := {
  GEMINI_API_KEY : str;
  GEMINI_ENDPOINT : str;
  stories_exists : bool;            (* os.path.exists(STORIES_FILE) *)
  stories_read : result str;        (* open(STORIES_FILE) and f.read() *)
  http_post : http_request -> result http_response;
  utcnow : datetime
}.

(** What a request does. *)
Inductive event : Type :=
| Flash (message category : str)
| ReadStories
| HttpPost (request : http_request).

Definition is_http_post (ev : event) : bool :=
  match ev with
  | HttpPost _ => true
  | _ => false
  end.

(** A computation reads the environment, records events and returns or
    raises. *)
Definition M (A : Type) : Type := env -> list event * result A.

Definition ret {A : Type} (a : A) : M A := fun _ => ([], Ok a).

Definition bind {A B : Type} (m : M A) (f : A -> M B) : M B :=
  fun en =>
    match m en with
    | (t1, Ok a) => let (t2, r) := f a en in (t1 ++ t2, r)
    | (t1, Raise e) => (t1, Raise e)
    end.

Notation "x <- m ;; k" := (bind m (fun x => k))
  (at level 61, m at next level, right associativity).
Notation "m ;;; k" := (bind m (fun _ => k))
  (at level 61, right associativity).

Definition asks {A : Type} (field : env -> A) : M A :=
  fun en => ([], Ok (field en)).

Definition tell (ev : event) : M unit := fun _ => ([ev], Ok tt).

Definition lift {A : Type} (r : result A) : M A := fun _ => ([], r).

(** [try: body except Exception as e: handler(e)] *)
Definition try_except {A : Type} (body : M A) (handler : exn -> M A) : M A :=
  fun en =>
    match body en with
    | (t1, Ok a) => (t1, Ok a)
    | (t1, Raise e) => let (t2, r) := handler e en in (t1 ++ t2, r)
    end.

(** [requests.post(url, headers=..., json=..., timeout=...)] *)
Definition requests_post (url : str) (headers : list (str * str))
    (json : pyval) (timeout : Z) : M http_response :=
  fun en =>
    let rq := {| req_url := url; req_headers := headers;
                 req_json := json; req_timeout := timeout |} in
    ([HttpPost rq], http_post en rq).

(** [resp.raise_for_status()] *)
Definition raise_for_status (resp : http_response) : result unit :=
  let http_error_msg :=
    if (400 <=? status_code resp) && (status_code resp <? 500) then
      str_of_N (status_code resp) ++ py " Client Error: " ++ reason resp
        ++ py " for url: " ++ resp_url resp
    else if (500 <=? status_code resp) && (status_code resp <? 600) then
      str_of_N (status_code resp) ++ py " Server Error: " ++ reason resp
        ++ py " for url: " ++ resp_url resp
    else [] in
  match http_error_msg with
  | [] => Ok tt
  | _ :: _ => Raise (Exn RequestException http_error_msg)
  end.

(** [dt.strftime("%Y%m%d%H%M%S")] *)
Definition strftime_YmdHMS (dt : datetime) : str :=
  zpad 4 (year dt) ++ zpad 2 (month dt) ++ zpad 2 (day dt)
    ++ zpad 2 (hour dt) ++ zpad 2 (minute dt) ++ zpad 2 (second dt).

(** What a view function returns. *)
Inductive flask_response : Type :=
| Redirect (location : str)
| RenderTemplate (name : str) (context : list (string * pyval))
| SendFile (body : list N) (as_attachment : bool)
    (download_name : str) (mimetype : str)
| Jsonify (obj : pyval).

(** [url_for(endpoint)] over the routes of the application. *)
Definition url_for (endpoint : string) : result str :=
  if String.eqb endpoint "index" then Ok (py "/")
  else if String.eqb endpoint "generate" then Ok (py "/generate")
  else if String.eqb endpoint "download" then Ok (py "/download")
  else if String.eqb endpoint "test_api" then Ok (py "/test_api")
  else Raise (Exn ValueError (py "Could not build url for endpoint"))%string.

(* ================================================================== *)
(** * The application *)

Definition nl : str := [Textwrap.newline].

(** [load_local_context(n_lines)], lines 25-31.  Nothing in it handles a
    failure of [open] or [read]. *)
Definition load_local_context (n_lines : Z) : M str :=
  present <- asks stories_exists ;;
  if negb present then ret []
  else
    tell ReadStories ;;;
    content <- (fun en => ([], stories_read en)) ;;
    let lines := strip content in
    ret (join nl (slice_to (splitlines lines) n_lines)).

Definition no_key_message : str :=
  py "[ERROR] Gemini API key not found. Please check your .env file.".

Definition no_text_placeholder : str := py "[No response text found]".

(** The chain of [get] and [[0]] of line 55. *)
Definition extract_text (j : pyval) : result pyval :=
  match py_get j (py "candidates") (PyList [PyDict []]) with
  | Raise e => Raise e
  | Ok candidates =>
  match py_item0 candidates with
  | Raise e => Raise e
  | Ok candidate =>
  match py_get candidate (py "content") (PyDict []) with
  | Raise e => Raise e
  | Ok content =>
  match py_get content (py "parts") (PyList [PyDict []]) with
  | Raise e => Raise e
  | Ok parts =>
  match py_item0 parts with
  | Raise e => Raise e
  | Ok part => py_get part (py "text") (PyStr no_text_placeholder)
  end end end end end.

(** [call_gemini_api(prompt, max_tokens)], lines 33-59. *)
Definition call_gemini_api (prompt : str) (max_tokens : Z) : M pyval :=
  key <- asks GEMINI_API_KEY ;;
  match key with
  | [] => ret (PyStr no_key_message)
  | _ :: _ =>
      let headers := [ (py "Content-Type", py "application/json");
                       (py "x-goog-api-key", key) ] in
      let payload :=
        PyDict [ (py "contents",
                  PyList [ PyDict [ (py "parts",
                    PyList [ PyDict [ (py "text", PyStr prompt) ] ]) ] ]) ] in
      try_except
        (endpoint <- asks GEMINI_ENDPOINT ;;
         resp <- requests_post endpoint headers payload 60 ;;
         lift (raise_for_status resp) ;;;
         j <- lift (resp_json resp) ;;
         lift (extract_text j))
        (fun e =>
           if is_request_exception e
           then ret (PyStr (py "[Error calling AI service] " ++ exn_str e))
           else ret (PyStr (py "[Unexpected error] " ++ exn_str e)))
  end.

(** The f-string of lines 65-80, before [textwrap.dedent]. *)
Definition prompt_text (business tools local_context concerns : str) : str :=
  nl ++
  py "    You are an AI assistant that writes short, clear, actionable cybersecurity policies for informal microbusinesses." ++ nl ++
  py "    Target user: " ++ business ++ py ". Digital tools used: " ++ tools ++ py "." ++ nl ++
  py "    Local context examples (do not reveal personally identifying info): " ++ nl ++
  py "    " ++ local_context ++ nl ++
  nl ++
  py "    User-stated concerns: " ++ concerns ++ nl ++
  nl ++
  py "    Produce:" ++ nl ++
  py "    1) A short policy title (one line)." ++ nl ++
  py "    2) A 6-12 point actionable policy list (each item one sentence; no jargon)." ++ nl ++
  py "    3) A short 'Why this matters' paragraph (1-2 sentences)." ++ nl ++
  py "    4) Simple implementation checklist (3 items)." ++ nl ++
  py "    Keep language simple and concise for low-literacy users. Use imperative tone: 'Do this', 'Avoid that'." ++ nl ++
  py "    Format output as plain text with clear sections." ++ nl ++
  py "    ".

Definition default_concerns : str :=
  py "general protection against scams and fraud".

(** [construct_prompt(user_input, local_context)], lines 61-81. *)
Definition construct_prompt (user_input : list (str * str))
    (local_context : str) : str :=
  let business := dict_get user_input (py "business_type") (py "Informal vendor") in
  let tools := dict_get user_input (py "tools") (py "WhatsApp / Mobile money") in
  let concerns :=
    match dict_get user_input (py "concerns") [] with
    | [] => default_concerns
    | c :: r => c :: r
    end in
  Textwrap.dedent (prompt_text business tools local_context concerns).

Definition allowed_types : list str :=
  [py "whatsapp vendor"; py "street trader"].

Definition valid_tools : list str :=
  [py "whatsapp"; py "pos"; py "paystack"; py "bank transfer";
   py "bank app"; py "mobile money"].

Definition rejection_message : str :=
  [9888; 65039] ++
  py " This tool only supports WhatsApp Vendors and Street Traders. No policy generated.".

Definition extra_note : str :=
  nl ++ nl ++
  py "Note: Some tools provided are not recognized as digital payment or communication tools. " ++
  py "Based on your business type, consider using verified digital tools such as WhatsApp, POS systems, Paystack, or Bank Transfers for safer operations.".

Definition is_empty (s : str) : bool :=
  match s with
  | [] => true
  | _ :: _ => false
  end.

(** [[t.strip() for t in tools.split(",") if t.strip()]], line 101. *)
Definition tool_list (tools : str) : list str :=
  map strip (filter (fun t => negb (is_empty (strip t))) (split_on 44 tools)).

(** [[t for t in tool_list if t not in valid_tools]], line 102. *)
Definition unrecognized (tools : str) : list str :=
  filter (fun t => negb (mem t valid_tools)) (tool_list tools).

(** The three fields as lines 89-91 read them from the form. *)
Definition form_business_type (form : list (str * str)) : str :=
  lower (strip (dict_get form (py "business_type") [])).
Definition form_tools (form : list (str * str)) : str :=
  lower (strip (dict_get form (py "tools") [])).
Definition form_concerns (form : list (str * str)) : str :=
  strip (dict_get form (py "concerns") []).

(** The prompt of lines 107-121, from the three fields and the loaded
    context. *)
Definition final_prompt (business_type tools concerns local_context : str)
    : str :=
  let user_input := [ (py "business_type", title business_type);
                      (py "tools", tools);
                      (py "concerns", concerns) ] in
  let prompt := construct_prompt user_input local_context in
  match unrecognized tools with
  | [] => prompt
  | _ :: _ => prompt ++ extra_note
  end.

(** The file name of line 129. *)
Definition policy_filename (business_type : str) (now : datetime) : str :=
  py "policy_" ++ replace 32 95 business_type ++ py "_"
    ++ strftime_YmdHMS now ++ py ".txt".

(** [generate()], lines 87-138, on the submitted form. *)
Definition generate (form : list (str * str)) : M flask_response :=
  let business_type := form_business_type form in
  let tools := form_tools form in
  let concerns := form_concerns form in
  if negb (mem business_type allowed_types) then
    tell (Flash rejection_message (py "danger")) ;;;
    location <- lift (url_for "index") ;;
    ret (Redirect location)
  else
    local_context <- load_local_context 20 ;;
    let prompt := final_prompt business_type tools concerns local_context in
    policy_text <-
      try_except (call_gemini_api prompt 800)
        (fun e => ret (PyStr (py "[Error calling AI service] " ++ exn_str e))) ;;
    now <- asks utcnow ;;
    let filename := policy_filename business_type now in
    ret (RenderTemplate (py "result.html")
           [ ("policy", policy_text);
             ("filename", PyStr filename);
             ("business_type", PyStr business_type);
             ("tools", PyStr tools);
             ("concerns", PyStr concerns) ]%string).

(** A carriage return or a line feed. *)
Definition is_newline (c : char) : bool := (c =? 13) || (c =? 10).

(** [send_file(mem, as_attachment=..., download_name=..., mimetype=...)]
    on an in-memory file.  The name goes into the [Content-Disposition]
    header.  A name that is not ASCII is also written percent-encoded
    from its UTF-8 bytes, which fails on a surrogate; and the header
    value is refused when it holds a carriage return or a line feed. *)
Definition send_file (body : list N) (as_attachment : bool)
    (download_name mimetype : str) : result flask_response :=
  match (if forallb (fun c => c <? 128) download_name then Ok []
         else encode_utf8 download_name) with
  | Raise e => Raise e
  | Ok _ =>
      if existsb is_newline download_name
      then Raise (Exn ValueError
                    (py "Header values must not contain newline characters."))
      else Ok (SendFile body as_attachment download_name mimetype)
  end.

(** [download()], lines 141-148. *)
Definition download (form : list (str * str)) : M flask_response :=
  let policy_text := dict_get form (py "policy_text") [] in
  now <- asks utcnow ;;
  let filename :=
    dict_get form (py "filename")
      (py "policy_" ++ strftime_YmdHMS now ++ py ".txt") in
  body <- lift (encode_utf8 policy_text) ;;
  lift (send_file body true filename (py "text/plain")).

(** [index()] and [test_api()]. *)
Definition index : M flask_response :=
  ret (RenderTemplate (py "index.html") []).

Definition test_api : M flask_response :=
  response <- call_gemini_api (py "Say hello from Gemini API.") 800 ;;
  ret (Jsonify (PyDict [ (py "response", response) ])).

(* ================================================================== *)
(** * Notions of the specification *)

(** [sub] occurs in [s], as a contiguous run of characters. *)
Definition infix (sub s : str) : Prop :=
  exists pre post : str, s = pre ++ sub ++ post.

(** A string of spaces and tabs. *)
Definition all_blank (s : str) : Prop :=
  forallb Textwrap.is_blank s = true.

(** A text whose first character is not whitespace, as the words of the
    template that open the lines of the fields. *)
Definition starts_with_text (s : str) : Prop :=
  exists c body, s = c :: body /\ isspace c = false.

(** A line that does not begin with whitespace. *)
Definition flush_line (line : str) : bool :=
  match line with
  | [] => true
  | c :: _ => negb (isspace c)
  end.

(** A text none of whose lines after the first begins with whitespace. *)
Definition flush (s : str) : bool :=
  forallb flush_line (tl (split_on Textwrap.newline s)).

(** A string on one line. *)
Definition one_line (s : str) : Prop := ~ In Textwrap.newline s.

(** The concerns the prompt states: the submitted ones, or the default
    phrase when there are none. *)
Definition stated_concerns (concerns : str) : str :=
  match concerns with
  | [] => default_concerns
  | _ :: _ => concerns
  end.

(** The first line of the text of the prompt, and what follows the line
    of the concerns. *)
Definition prompt_head : str :=
  nl ++
  py "    You are an AI assistant that writes short, clear, actionable cybersecurity policies for informal microbusinesses.".

Definition prompt_tail : str :=
  nl ++
  py "    Produce:" ++ nl ++
  py "    1) A short policy title (one line)." ++ nl ++
  py "    2) A 6-12 point actionable policy list (each item one sentence; no jargon)." ++ nl ++
  py "    3) A short 'Why this matters' paragraph (1-2 sentences)." ++ nl ++
  py "    4) Simple implementation checklist (3 items)." ++ nl ++
  py "    Keep language simple and concise for low-literacy users. Use imperative tone: 'Do this', 'Avoid that'." ++ nl ++
  py "    Format output as plain text with clear sections." ++ nl ++
  py "    ".

(** Two strings that differ at most in the case of their letters. *)
Definition same_up_to_case (a b : str) : Prop := lower a = lower b.

(** A character at which the tools field is cut or trimmed: whitespace
    or a comma. *)
Definition separator (c : char) : bool := isspace c || (c =? 44).

(** The ranges of the separators. *)
Definition separators : list (N * N) :=
  [ (9, 13); (28, 32); (44, 44); (133, 133); (160, 160); (5760, 5760);
    (8192, 8202); (8232, 8233); (8239, 8239); (8287, 8287);
    (12288, 12288) ].

(** The code points a run of a case table maps, and their images. *)
Definition domain (e : N * N * N) : N * N :=
  let '(first, last, _) := e in (first, last).
Definition image (e : N * N * N) : N * N :=
  let '(first, last, image) := e in (image, image + (last - first)).

(** No range of [l1] meets a range of [l2]. *)
Definition apart (l1 l2 : list (N * N)) : bool :=
  forallb (fun r1 =>
    forallb (fun r2 => (snd r1 <? fst r2) || (snd r2 <? fst r1)) l2) l1.

(** The request [call_gemini_api] sends for a prompt. *)
Definition gemini_request (en : env) (prompt : str) : http_request :=
  {| req_url := GEMINI_ENDPOINT en;
     req_headers := [ (py "Content-Type", py "application/json");
                      (py "x-goog-api-key", GEMINI_API_KEY en) ];
     req_json :=
       PyDict [ (py "contents",
                 PyList [ PyDict [ (py "parts",
                   PyList [ PyDict [ (py "text", PyStr prompt) ] ]) ] ]) ];
     req_timeout := 60 |}.

(** A clock value [datetime.utcnow()] can return: a date of the
    calendar, not before the epoch and not after [datetime.MAXYEAR]. *)
Definition valid_utc (dt : datetime) : bool :=
  (1970 <=? year dt) && (year dt <=? 9999) &&
  (1 <=? month dt) && (month dt <=? 12) &&
  (1 <=? day dt) && (day dt <=? 31) &&
  (hour dt <=? 23) && (minute dt <=? 59) && (second dt <=? 59).

(** A string of exactly [n] decimal digits. *)
Definition digits_of_length (n : nat) (s : str) : Prop :=
  List.length s = n /\ forallb is_digit s = true.

Definition is_pystr (v : pyval) : bool :=
  match v with
  | PyStr _ => true
  | _ => false
  end.

(** The success body of the remote service, with the text at its place. *)
Definition success_body (text : pyval) : pyval :=
  PyDict [ (py "candidates",
    PyList [ PyDict [ (py "content",
      PyDict [ (py "parts",
        PyList [ PyDict [ (py "text", text) ] ]) ]) ] ]) ].

(** Keyword arguments of a rendered template. *)
Fixpoint context_get (key : string) (ctx : list (string * pyval))
    : option pyval :=
  match ctx with
  | [] => None
  | (k, v) :: r => if String.eqb k key then Some v else context_get key r
  end.

(** The string an exception is turned into by the two handlers of
    [call_gemini_api]. *)
Definition error_string (e : exn) : str :=
  if is_request_exception e
  then py "[Error calling AI service] " ++ exn_str e
  else py "[Unexpected error] " ++ exn_str e.

(** What the body of the [try] block evaluates to, once the request has
    been answered. *)
Definition answer_value (answer : result http_response) : result pyval :=
  match answer with
  | Raise e => Raise e
  | Ok resp =>
      match raise_for_status resp with
      | Raise e => Raise e
      | Ok _ =>
          match resp_json resp with
          | Raise e => Raise e
          | Ok j => extract_text j
          end
      end
  end.

(** The keyword arguments [generate] hands to [result.html]. *)
Definition result_context (form : list (str * str)) (en : env)
    (policy : pyval) : list (string * pyval) :=
  [ ("policy", policy);
    ("filename", PyStr (policy_filename (form_business_type form) (utcnow en)));
    ("business_type", PyStr (form_business_type form));
    ("tools", PyStr (form_tools form));
    ("concerns", PyStr (form_concerns form)) ]%string.

(** The prompt of a request, given the loaded context. *)
Definition request_prompt (form : list (str * str)) (context : str) : str :=
  final_prompt (form_business_type form) (form_tools form)
    (form_concerns form) context.

(* ================================================================== *)
(** * Sample environments and requests *)

Definition sample_now : datetime :=
  {| year := 2024; month := 3; day := 9; hour := 7; minute := 5; second := 0 |}.

Definition sample_response (status : N) (body : result pyval) : http_response :=
  {| status_code := status; reason := py "OK";
     resp_url := py "https://generativelanguage.example/v1beta";
     resp_json := body |}.

(** A process with the given key and stories file, whose remote service
    answers every request with the given response. *)
Definition sample_env (key : str) (present : bool) (stories : result str)
    (answer : result http_response) : env :=
  {| GEMINI_API_KEY := key;
     GEMINI_ENDPOINT := py "https://generativelanguage.example/v1beta";
     stories_exists := present;
     stories_read := stories;
     http_post := fun _ => answer;
     utcnow := sample_now |}.

Definition env_no_key : env :=
  sample_env [] false (Ok []) (Ok (sample_response 200 (Ok PyNone))).

Definition env_answering (body : pyval) : env :=
  sample_env (py "secret") false (Ok []) (Ok (sample_response 200 (Ok body))).

Definition permission_denied : exn :=
  Exn OSError (py "[Errno 13] Permission denied: 'stories.txt'").

Definition env_unreadable : env :=
  sample_env (py "secret") true (Raise permission_denied)
    (Ok (sample_response 200 (Ok PyNone))).

Definition env_stories (content : str) : env :=
  sample_env (py "secret") true (Ok content)
    (Ok (sample_response 200 (Ok PyNone))).

Definition form_farmer : list (str * str) :=
  [ (py "business_type", py "Farmer"); (py "tools", py "pos") ].

Definition form_vendor (tools concerns : str) : list (str * str) :=
  [ (py "business_type", py " WhatsApp Vendor ");
    (py "tools", tools); (py "concerns", concerns) ].

(* ================================================================== *)
(** * Strings: basic facts *)

Lemma eqb_str_eq (a b : str) : eqb_str a b = true <-> a = b.
Proof.
  revert b; induction a as [|x a IH]; intros [|y b]; simpl;
    try (split; [discriminate | discriminate]); try tauto.
  rewrite andb_true_iff, N.eqb_eq, IH.
  split; [intros [-> ->]; reflexivity | intros H; inversion H; auto].
Qed.

Lemma mem_In (x : str) (l : list str) : mem x l = true <-> In x l.
Proof.
  unfold mem; rewrite existsb_exists; split.
  - intros (y & Hy & E); apply eqb_str_eq in E; subst; exact Hy.
  - intros H; exists x; split; [exact H | apply eqb_str_eq; reflexivity].
Qed.

Lemma mem_false_not_In (x : str) (l : list str) :
  mem x l = false <-> ~ In x l.
Proof.
  rewrite <- mem_In; destruct (mem x l); split; intros; try discriminate;
    try reflexivity; exfalso; auto.
Qed.

(* ================================================================== *)
(** * The request handler rejects unsupported business types *)

(** C2.  When the business type of the form, trimmed and lower-cased, is
    not one of the two allowed values, [generate] flashes the warning,
    redirects to the input form and does nothing else: its trace is the
    flashed message alone, so no request goes out and the stories file is
    not read. *)
Theorem generate_rejects_unsupported_type :
  forall (form : list (str * str)) (en : env),
    ~ In (lower (strip (dict_get form (py "business_type") []))) allowed_types ->
    generate form en
      = ([Flash rejection_message (py "danger")], Ok (Redirect (py "/")))
    /\ existsb is_http_post (fst (generate form en)) = false.
Proof.
  intros form en Hbt.
  apply mem_false_not_In in Hbt.
  assert (E : generate form en
              = ([Flash rejection_message (py "danger")], Ok (Redirect (py "/")))).
  { unfold generate, form_business_type. rewrite Hbt. reflexivity. }
  split; [exact E | rewrite E; reflexivity].
Qed.

Lemma generate_rejects_unsupported_type_witness :
  ~ In (lower (strip (dict_get form_farmer (py "business_type") []))) allowed_types
  /\ generate form_farmer (env_answering PyNone)
       = ([Flash rejection_message (py "danger")], Ok (Redirect (py "/"))).
Proof.
  assert (H : ~ In (lower (strip (dict_get form_farmer (py "business_type") [])))
                allowed_types).
  { apply mem_false_not_In. vm_compute. reflexivity. }
  split; [exact H |].
  exact (proj1 (generate_rejects_unsupported_type form_farmer
                  (env_answering PyNone) H)).
Defined.

(* ================================================================== *)
(** * The external generation client *)

Lemma call_gemini_api_unfold (prompt : str) (max_tokens : Z) (en : env) :
  GEMINI_API_KEY en <> [] ->
  call_gemini_api prompt max_tokens en
  = ([HttpPost (gemini_request en prompt)],
     match answer_value (http_post en (gemini_request en prompt)) with
     | Ok v => Ok v
     | Raise e => Ok (PyStr (error_string e))
     end).
Proof.
  intros Hkey.
  unfold call_gemini_api, bind, asks, try_except, requests_post, lift, ret,
    answer_value, error_string, gemini_request.
  destruct (GEMINI_API_KEY en) as [|k key] eqn:Ek; [congruence |].
  cbn.
  destruct (http_post en _) as [resp | e]; cbn.
  - destruct (raise_for_status resp) as [[] | e]; cbn.
    + destruct (resp_json resp) as [j | e]; cbn.
      * destruct (extract_text j) as [v | e]; cbn; [reflexivity |].
        destruct (is_request_exception e); reflexivity.
      * destruct (is_request_exception e); reflexivity.
    + destruct (is_request_exception e); reflexivity.
  - destruct (is_request_exception e); reflexivity.
Qed.

(** Without a key the client answers with the fixed error string and
    does nothing. *)
Lemma call_gemini_api_no_key (prompt : str) (max_tokens : Z) (en : env) :
  GEMINI_API_KEY en = [] ->
  call_gemini_api prompt max_tokens en = ([], Ok (PyStr no_key_message)).
Proof.
  intros Hkey. unfold call_gemini_api, bind, asks, ret. rewrite Hkey.
  reflexivity.
Qed.

(** No exception leaves the client: whatever the remote service does,
    the call returns a value. *)
Lemma call_gemini_api_returns (prompt : str) (max_tokens : Z) (en : env) :
  exists v : pyval, snd (call_gemini_api prompt max_tokens en) = Ok v.
Proof.
  destruct (GEMINI_API_KEY en) as [|k key] eqn:Ek.
  - rewrite call_gemini_api_no_key by assumption. eexists; reflexivity.
  - rewrite call_gemini_api_unfold by congruence. cbn [snd].
    destruct (answer_value _); eexists; reflexivity.
Qed.

(** The value returned is a string, except when it is the value found at
    the [text] key of the answer. *)
Lemma call_gemini_api_string_or_text (prompt : str) (max_tokens : Z) (en : env) :
  forall v, snd (call_gemini_api prompt max_tokens en) = Ok v ->
    is_pystr v = true
    \/ exists j, extract_text j = Ok v.
Proof.
  intros v Hv.
  destruct (GEMINI_API_KEY en) as [|k key] eqn:Ek.
  - rewrite call_gemini_api_no_key in Hv by assumption.
    inversion Hv; subst; left; reflexivity.
  - rewrite call_gemini_api_unfold in Hv by congruence. cbn [snd] in Hv.
    destruct (answer_value _) as [w | e] eqn:Ea.
    + inversion Hv; subst. right.
      unfold answer_value in Ea.
      destruct (http_post en _) as [resp | ?]; [| discriminate].
      destruct (raise_for_status resp) as [[] | ?]; [| discriminate].
      destruct (resp_json resp) as [j | ?]; [| discriminate].
      exists j; exact Ea.
    + inversion Hv; subst; left; reflexivity.
Qed.

(** C1.  With a key configured and a remote service that answers with a
    success body whose [text] is the number 42, [call_gemini_api] returns
    the integer 42, which is not a string. *)
Theorem call_gemini_api_returns_non_string :
  snd (call_gemini_api (py "Say hello from Gemini API.") 800
         (env_answering (success_body (PyInt 42))))
    = Ok (PyInt 42)
  /\ is_pystr (PyInt 42) = false.
Proof.
  split; vm_compute; reflexivity.
Qed.

(** C4.  When the key is configured and the remote service answers the
    request with a success status and a JSON body, then:
    - if the body holds a string at
      [candidates[0].content.parts[0].text], that string is returned as
      it is (the body of the documented shape is the case where nothing
      else is in it);
    - if the body is an object without the key [candidates], the
      placeholder string is returned. *)
Theorem call_gemini_api_extracts_text :
  forall (prompt : str) (max_tokens : Z) (en : env) (resp : http_response)
         (j : pyval),
    GEMINI_API_KEY en <> [] ->
    http_post en (gemini_request en prompt) = Ok resp ->
    status_code resp < 400 ->
    resp_json resp = Ok j ->
    (forall text : str,
        j = success_body (PyStr text) ->
        snd (call_gemini_api prompt max_tokens en) = Ok (PyStr text))
    /\ (forall (d c p t : list (str * pyval)) (cs ps : list pyval) (text : str),
        j = PyDict d ->
        lookup (py "candidates") d = Some (PyList (PyDict c :: cs)) ->
        lookup (py "content") c = Some (PyDict p) ->
        lookup (py "parts") p = Some (PyList (PyDict t :: ps)) ->
        lookup (py "text") t = Some (PyStr text) ->
        snd (call_gemini_api prompt max_tokens en) = Ok (PyStr text))
    /\ (forall d : list (str * pyval),
        j = PyDict d ->
        lookup (py "candidates") d = None ->
        snd (call_gemini_api prompt max_tokens en)
          = Ok (PyStr (py "[No response text found]"))).
Proof.
  intros prompt max_tokens en resp j Hkey Hpost Hstatus Hjson.
  assert (Hans : answer_value (http_post en (gemini_request en prompt))
                 = extract_text j).
  { unfold answer_value. rewrite Hpost.
    unfold raise_for_status.
    replace (400 <=? status_code resp) with false
      by (symmetry; apply N.leb_gt; exact Hstatus).
    replace (500 <=? status_code resp) with false
      by (symmetry; apply N.leb_gt; lia).
    cbn. rewrite Hjson. reflexivity. }
  rewrite call_gemini_api_unfold by assumption. cbn [snd]. rewrite Hans.
  split; [| split].
  - intros text ->. reflexivity.
  - intros d c p t cs ps text -> Hc Hco Hp Ht.
    unfold extract_text. cbn [py_get]. rewrite Hc. cbn [py_item0 py_get].
    rewrite Hco. cbn [py_get]. rewrite Hp. cbn [py_item0 py_get].
    rewrite Ht. reflexivity.
  - intros d -> Hc.
    unfold extract_text. cbn [py_get]. rewrite Hc. reflexivity.
Qed.

Lemma call_gemini_api_extracts_text_witness :
  snd (call_gemini_api (py "hello") 800
         (env_answering (success_body (PyStr (py "Lock your phone.")))))
    = Ok (PyStr (py "Lock your phone."))
  /\ snd (call_gemini_api (py "hello") 800 (env_answering (PyDict [])))
    = Ok (PyStr (py "[No response text found]")).
Proof.
  split.
  - refine (proj1 (call_gemini_api_extracts_text (py "hello") 800
              (env_answering (success_body (PyStr (py "Lock your phone."))))
              (sample_response 200 (Ok (success_body (PyStr (py "Lock your phone.")))))
              (success_body (PyStr (py "Lock your phone.")))
              _ eq_refl _ eq_refl) _ eq_refl).
    + vm_compute; discriminate.
    + vm_compute; reflexivity.
  - refine (proj2 (proj2 (call_gemini_api_extracts_text (py "hello") 800
              (env_answering (PyDict []))
              (sample_response 200 (Ok (PyDict [])))
              (PyDict [])
              _ eq_refl _ eq_refl)) [] eq_refl eq_refl).
    + vm_compute; discriminate.
    + vm_compute; reflexivity.
Defined.

(* ================================================================== *)
(** * Timestamps *)

Lemma dec_digits_are_digits (fuel : nat) :
  forall n, forallb is_digit (dec_digits fuel n) = true.
Proof.
  induction fuel as [|fuel IH]; intros n; cbn [dec_digits]; [reflexivity |].
  destruct (n <? 10) eqn:E.
  - apply N.ltb_lt in E. cbn [forallb]. unfold is_digit.
    rewrite !andb_true_iff, !N.leb_le. repeat split; try reflexivity; lia.
  - rewrite forallb_app, IH. cbn [forallb]. unfold is_digit.
    assert (n mod 10 < 10) by (apply N.mod_upper_bound; lia).
    generalize dependent (n mod 10); intros d Hd.
    rewrite !andb_true_iff, !N.leb_le. repeat split; try reflexivity; lia.
Qed.

Lemma dec_digits_length (fuel : nat) :
  forall (w : nat) (n : N),
    (1 <= w)%nat -> n < 10 ^ N.of_nat w ->
    (List.length (dec_digits fuel n) <= w)%nat.
Proof.
  induction fuel as [|fuel IH]; intros w n Hw Hn; cbn [dec_digits];
    [cbn; lia |].
  destruct (n <? 10) eqn:E; [cbn; lia |].
  apply N.ltb_ge in E.
  destruct w as [|[|w]]; [lia | change (10 ^ N.of_nat 1) with 10 in Hn; lia |].
  rewrite length_app. cbn [List.length].
  assert (n / 10 < 10 ^ N.of_nat (S w)).
  { apply N.Div0.div_lt_upper_bound.
    replace (N.of_nat (S (S w))) with (N.succ (N.of_nat (S w))) in Hn by lia.
    rewrite N.pow_succ_r' in Hn. exact Hn. }
  specialize (IH (S w) (n / 10) (le_n_S _ _ (Nat.le_0_l w)) H).
  clear - IH. lia.
Qed.

Lemma zpad_digits_of_length (w : nat) (n : N) :
  (1 <= w)%nat -> n < 10 ^ N.of_nat w -> digits_of_length w (zpad w n).
Proof.
  intros Hw Hn. unfold digits_of_length, zpad, str_of_N. cbv zeta.
  pose proof (dec_digits_length (S (N.size_nat n)) w n Hw Hn) as Hlen.
  pose proof (dec_digits_are_digits (S (N.size_nat n)) n) as Hdig.
  set (d := dec_digits (S (N.size_nat n)) n) in *. clearbody d.
  split.
  - rewrite length_app, repeat_length. clear - Hlen. lia.
  - rewrite forallb_app, Hdig, andb_true_r.
    apply forallb_forall. intros c Hc. apply repeat_spec in Hc. subst.
    reflexivity.
Qed.

Lemma digits_of_length_app (a b : nat) (s t : str) :
  digits_of_length a s -> digits_of_length b t ->
  digits_of_length (a + b) (s ++ t).
Proof.
  intros [Ls Ds] [Lt Dt]. split.
  - rewrite length_app. lia.
  - rewrite forallb_app, Ds, Dt. reflexivity.
Qed.

(** The timestamp of a clock value is made of fourteen digits. *)
Lemma strftime_fourteen_digits (dt : datetime) :
  valid_utc dt = true -> digits_of_length 14 (strftime_YmdHMS dt).
Proof.
  unfold valid_utc. rewrite !andb_true_iff, !N.leb_le.
  intros [[[[[[[[? ?] ?] ?] ?] ?] ?] ?] ?].
  unfold strftime_YmdHMS.
  change 14%nat with (4 + (2 + (2 + (2 + (2 + 2)))))%nat.
  repeat apply digits_of_length_app;
    apply zpad_digits_of_length; simpl; lia.
Qed.

(* ================================================================== *)
(** * The context loader *)

Lemma load_local_context_missing (n_lines : Z) (en : env) :
  stories_exists en = false ->
  load_local_context n_lines en = ([], Ok []).
Proof.
  intros H. unfold load_local_context, bind, asks, ret. rewrite H.
  reflexivity.
Qed.

Lemma load_local_context_present (n_lines : Z) (en : env) :
  stories_exists en = true ->
  load_local_context n_lines en
  = ([ReadStories],
     match stories_read en with
     | Ok content =>
         Ok (join nl (slice_to (splitlines (strip content)) n_lines))
     | Raise e => Raise e
     end).
Proof.
  intros H. unfold load_local_context, bind, asks, ret, tell. rewrite H.
  cbn. destruct (stories_read en); reflexivity.
Qed.

(** C6, as stated, fails.  When the stories file exists and reading it
    fails with "permission denied", the error leaves
    [load_local_context]: the result is not the empty string.  And a file
    that starts with an empty line gives its first line with text, not
    its first line. *)
Lemma load_local_context_read_failure_propagates :
  snd (load_local_context 20 env_unreadable) = Raise permission_denied
  /\ snd (load_local_context 20 env_unreadable) <> Ok []
  /\ splitlines (nl ++ py "alpha" ++ nl ++ py "beta")
       = [[]; py "alpha"; py "beta"]
  /\ snd (load_local_context 1 (env_stories (nl ++ py "alpha" ++ nl ++ py "beta")))
       = Ok (py "alpha").
Proof.
  repeat split; try (vm_compute; reflexivity).
  vm_compute. discriminate.
Qed.

(** C6, amended.  [load_local_context] returns the empty string when the
    stories file is missing; when the file exists and is read, it returns
    the first [n_lines] lines of its content trimmed of surrounding
    whitespace, joined by newlines; when the file exists and reading it
    raises, the same exception leaves [load_local_context]. *)
Theorem load_local_context_spec :
  forall (n_lines : Z) (en : env),
    (stories_exists en = false ->
       snd (load_local_context n_lines en) = Ok [])
    /\ (forall content : str,
          stories_exists en = true -> stories_read en = Ok content ->
          (0 <= n_lines)%Z ->
          snd (load_local_context n_lines en)
            = Ok (join nl (firstn (Z.to_nat n_lines)
                                  (splitlines (strip content)))))
    /\ (forall e : exn,
          stories_exists en = true -> stories_read en = Raise e ->
          snd (load_local_context n_lines en) = Raise e).
Proof.
  intros n_lines en. split; [| split].
  - intros H. rewrite load_local_context_missing by assumption. reflexivity.
  - intros content H Hr Hn.
    rewrite load_local_context_present by assumption. rewrite Hr. cbn [snd].
    unfold slice_to.
    replace (n_lines <? 0)%Z with false by (symmetry; apply Z.ltb_ge; lia).
    reflexivity.
  - intros e H Hr.
    rewrite load_local_context_present by assumption. rewrite Hr.
    reflexivity.
Qed.

Lemma load_local_context_spec_witness :
  snd (load_local_context 20 env_no_key) = Ok []
  /\ snd (load_local_context 2
            (env_stories (py "  one" ++ nl ++ py "two" ++ nl ++ py "three" ++ nl)))
     = Ok (py "one" ++ nl ++ py "two")
  /\ snd (load_local_context 20 env_unreadable) = Raise permission_denied.
Proof.
  split; [| split].
  - exact (proj1 (load_local_context_spec 20 env_no_key) eq_refl).
  - exact (proj1 (proj2 (load_local_context_spec 2
             (env_stories (py "  one" ++ nl ++ py "two" ++ nl ++ py "three" ++ nl))))
             (py "  one" ++ nl ++ py "two" ++ nl ++ py "three" ++ nl)
             eq_refl eq_refl (proj1 (Z.leb_le 0 2) eq_refl)).
  - exact (proj2 (proj2 (load_local_context_spec 20 env_unreadable))
             permission_denied eq_refl eq_refl).
Defined.

(* ================================================================== *)
(** * The generation flow *)

(** A request with an allowed business type whose context loads runs to
    the end: the client is called once with the final prompt and the
    result page is rendered with what the client returned. *)
Lemma generate_completes (form : list (str * str)) (en : env) (context : str) :
  mem (form_business_type form) allowed_types = true ->
  snd (load_local_context 20 en) = Ok context ->
  exists policy : pyval,
    snd (call_gemini_api (request_prompt form context) 800 en) = Ok policy
    /\ generate form en
       = (fst (load_local_context 20 en)
            ++ fst (call_gemini_api (request_prompt form context) 800 en),
          Ok (RenderTemplate (py "result.html") (result_context form en policy))).
Proof.
  intros Hbt Hctx.
  destruct (call_gemini_api_returns (request_prompt form context) 800 en)
    as [policy Hpolicy].
  exists policy. split; [exact Hpolicy |].
  unfold generate. rewrite Hbt. cbn [negb].
  unfold bind at 1.
  destruct (load_local_context 20 en) as [t1 r1]. cbn [snd] in Hctx. subst r1.
  unfold bind at 1. unfold try_except.
  fold (request_prompt form context).
  destruct (call_gemini_api (request_prompt form context) 800 en) as [t2 r2].
  cbn [snd] in Hpolicy. subst r2.
  unfold bind, asks, ret. cbn. rewrite !app_nil_r. reflexivity.
Qed.

(** When the context fails to load, the failure leaves [generate]. *)
Lemma generate_context_failure (form : list (str * str)) (en : env) (e : exn) :
  mem (form_business_type form) allowed_types = true ->
  snd (load_local_context 20 en) = Raise e ->
  snd (generate form en) = Raise e.
Proof.
  intros Hbt Hctx. unfold generate. rewrite Hbt. cbn [negb].
  unfold bind at 1.
  destruct (load_local_context 20 en) as [t1 r1]. cbn [snd] in Hctx. subst r1.
  reflexivity.
Qed.

Lemma generate_rejected (form : list (str * str)) (en : env) :
  mem (form_business_type form) allowed_types = false ->
  generate form en
    = ([Flash rejection_message (py "danger")], Ok (Redirect (py "/"))).
Proof.
  intros Hbt. unfold generate. rewrite Hbt. reflexivity.
Qed.

(** A rendered page comes from a completed flow. *)
Lemma generate_rendered_inv (form : list (str * str)) (en : env)
    (name : str) (ctx : list (string * pyval)) :
  snd (generate form en) = Ok (RenderTemplate name ctx) ->
  mem (form_business_type form) allowed_types = true
  /\ exists policy, ctx = result_context form en policy.
Proof.
  intros H.
  destruct (mem (form_business_type form) allowed_types) eqn:Hbt.
  - split; [reflexivity |].
    destruct (snd (load_local_context 20 en)) as [context | e] eqn:Hctx.
    + destruct (generate_completes form en context Hbt Hctx)
        as (policy & _ & E).
      rewrite E in H. cbn [snd] in H. inversion H. exists policy. reflexivity.
    + rewrite (generate_context_failure form en e Hbt Hctx) in H.
      discriminate.
  - rewrite (generate_rejected form en Hbt) in H. discriminate.
Qed.

(** C7.  When [generate] renders its result page, at a clock value the
    system clock can give, the [filename] it hands over is [policy_],
    the business type of the form (trimmed, lower-cased, one of the two
    allowed values) with its spaces replaced by underscores, [_], the
    fourteen digits of the UTC timestamp, and [.txt]. *)
Theorem generate_filename_pattern :
  forall (form : list (str * str)) (en : env) (name : str)
         (ctx : list (string * pyval)),
    valid_utc (utcnow en) = true ->
    snd (generate form en) = Ok (RenderTemplate name ctx) ->
    exists timestamp : str,
      context_get "filename" ctx
        = Some (PyStr (py "policy_"
                        ++ replace 32 95 (form_business_type form)
                        ++ py "_" ++ timestamp ++ py ".txt"))
      /\ digits_of_length 14 timestamp
      /\ timestamp = strftime_YmdHMS (utcnow en)
      /\ In (form_business_type form) allowed_types
      /\ ~ In 32 (replace 32 95 (form_business_type form)).
Proof.
  intros form en name ctx Hclock H.
  apply generate_rendered_inv in H. destruct H as [Hbt [policy ->]].
  exists (strftime_YmdHMS (utcnow en)).
  split; [reflexivity |].
  split; [apply strftime_fourteen_digits; exact Hclock |].
  split; [reflexivity |].
  apply mem_In in Hbt. split; [exact Hbt |].
  unfold replace. rewrite in_map_iff. intros (c & Hc & _).
  destruct (c =? 32) eqn:E; [discriminate |].
  apply N.eqb_neq in E. congruence.
Qed.

Lemma generate_filename_pattern_witness :
  exists timestamp : str,
    context_get "filename"
      (result_context (form_vendor (py "pos") []) env_no_key (PyStr no_key_message))
      = Some (PyStr (py "policy_whatsapp_vendor_" ++ timestamp ++ py ".txt"))
    /\ timestamp = py "20240309070500".
Proof.
  destruct (generate_filename_pattern (form_vendor (py "pos") []) env_no_key
              (py "result.html")
              (result_context (form_vendor (py "pos") []) env_no_key
                 (PyStr no_key_message))
              eq_refl eq_refl)
    as (timestamp & Hname & _ & Hts & _).
  exists timestamp. split.
  - exact Hname.
  - exact Hts.
Defined.

(* ================================================================== *)
(** * The download handler *)

Lemma utf8_char_scalar (c : N) :
  is_scalar c = true -> exists bytes, utf8_char c = Ok bytes.
Proof.
  unfold is_scalar, utf8_char. intros H.
  destruct (c <? 128); [eexists; reflexivity |].
  destruct (c <? 2048); [eexists; reflexivity |].
  destruct ((55296 <=? c) && (c <=? 57343)) eqn:Es.
  - exfalso. apply andb_true_iff in Es. destruct Es as [E1 E2].
    apply N.leb_le in E1, E2.
    apply orb_true_iff in H. destruct H as [H | H].
    + apply N.ltb_lt in H. lia.
    + apply andb_true_iff in H. destruct H as [H _].
      apply N.ltb_lt in H. lia.
  - destruct (c <? 65536); eexists; reflexivity.
Qed.

(** A text without surrogates has a UTF-8 encoding. *)
Lemma encode_utf8_scalar (s : str) :
  forallb is_scalar s = true -> exists bytes, encode_utf8 s = Ok bytes.
Proof.
  induction s as [|c s IH]; cbn [forallb encode_utf8]; intros H.
  - eexists; reflexivity.
  - apply andb_true_iff in H. destruct H as [Hc Hs].
    destruct (utf8_char_scalar c Hc) as [b ->].
    destruct (IH Hs) as [bs ->].
    eexists; reflexivity.
Qed.

(** Every byte of an encoding is below 256. *)
Lemma utf8_char_bytes (c : N) :
  c < 1114112 ->
  match utf8_char c with
  | Ok bytes => Forall (fun b => b < 256) bytes
  | Raise _ => True
  end.
Proof.
  unfold utf8_char. intros Hc.
  assert (H6 : c mod 64 < 64) by (apply N.mod_upper_bound; lia).
  assert (H12 : (c / 64) mod 64 < 64) by (apply N.mod_upper_bound; lia).
  assert (H18 : (c / 4096) mod 64 < 64) by (apply N.mod_upper_bound; lia).
  destruct (c <? 128) eqn:E1; cbv iota.
  { apply N.ltb_lt in E1. apply Forall_cons; [lia | apply Forall_nil]. }
  destruct (c <? 2048) eqn:E2; cbv iota.
  { apply N.ltb_lt in E2.
    assert (H : c / 64 < 32) by (apply N.Div0.div_lt_upper_bound; lia).
    generalize dependent (c mod 64). generalize dependent (c / 64).
    intros; repeat (apply Forall_cons; [lia |]); apply Forall_nil. }
  destruct ((55296 <=? c) && (c <=? 57343)); cbv iota; [exact I |].
  destruct (c <? 65536) eqn:E3; cbv iota.
  { apply N.ltb_lt in E3.
    assert (H : c / 4096 < 16) by (apply N.Div0.div_lt_upper_bound; lia).
    generalize dependent (c mod 64). generalize dependent ((c / 64) mod 64).
    generalize dependent (c / 4096).
    intros; repeat (apply Forall_cons; [lia |]); apply Forall_nil. }
  assert (H : c / 262144 < 5) by (apply N.Div0.div_lt_upper_bound; lia).
  generalize dependent (c mod 64). generalize dependent ((c / 64) mod 64).
  generalize dependent ((c / 4096) mod 64). generalize dependent (c / 262144).
  intros; repeat (apply Forall_cons; [lia |]); apply Forall_nil.
Qed.

(** ** Decoding gives the text back *)

Ltac bool_true :=
  repeat rewrite andb_true_iff;
  repeat rewrite N.leb_le; repeat rewrite N.ltb_lt;
  repeat split; lia.

Lemma is_continuation_tail (r : N) : r < 64 -> is_continuation (128 + r) = true.
Proof. intros H. unfold is_continuation. bool_true. Qed.

Lemma decode_utf8_one (c : N) (rest : list N) :
  c < 128 ->
  decode_utf8 (c :: rest) = option_map (cons c) (decode_utf8 rest).
Proof.
  intros H. cbn [decode_utf8].
  replace (c <? 128) with true by (symmetry; apply N.ltb_lt; lia).
  reflexivity.
Qed.

Lemma decode_utf8_two (q r : N) (rest : list N) :
  2 <= q < 32 -> r < 64 ->
  decode_utf8 ((192 + q) :: (128 + r) :: rest)
  = option_map (cons (64 * q + r)) (decode_utf8 rest).
Proof.
  intros Hq Hr. cbn [decode_utf8]. cbv zeta.
  replace (192 + q <? 128) with false by (symmetry; apply N.ltb_ge; lia).
  replace ((192 <=? 192 + q) && (192 + q <? 224)) with true
    by (symmetry; bool_true).
  replace ((192 + q - 192) * 64 + (128 + r - 128)) with (64 * q + r) by lia.
  rewrite (is_continuation_tail r Hr).
  replace (128 <=? 64 * q + r) with true by (symmetry; apply N.leb_le; lia).
  reflexivity.
Qed.

Lemma decode_utf8_three (q r1 r0 : N) (rest : list N) :
  q < 16 -> r1 < 64 -> r0 < 64 ->
  2048 <= 4096 * q + 64 * r1 + r0 ->
  ~ (55296 <= 4096 * q + 64 * r1 + r0 <= 57343) ->
  decode_utf8 ((224 + q) :: (128 + r1) :: (128 + r0) :: rest)
  = option_map (cons (4096 * q + 64 * r1 + r0)) (decode_utf8 rest).
Proof.
  intros Hq H1 H0 Hlow Hsur. cbn [decode_utf8]. cbv zeta.
  replace (224 + q <? 128) with false by (symmetry; apply N.ltb_ge; lia).
  replace ((192 <=? 224 + q) && (224 + q <? 224)) with false
    by (symmetry; apply andb_false_iff; right; apply N.ltb_ge; lia).
  replace ((224 <=? 224 + q) && (224 + q <? 240)) with true
    by (symmetry; bool_true).
  replace ((224 + q - 224) * 4096 + (128 + r1 - 128) * 64 + (128 + r0 - 128))
    with (4096 * q + 64 * r1 + r0) by lia.
  rewrite (is_continuation_tail r1 H1), (is_continuation_tail r0 H0).
  replace (2048 <=? 4096 * q + 64 * r1 + r0) with true
    by (symmetry; apply N.leb_le; lia).
  replace ((55296 <=? 4096 * q + 64 * r1 + r0)
           && (4096 * q + 64 * r1 + r0 <=? 57343)) with false;
    [reflexivity |].
  symmetry. apply not_true_iff_false. intros H.
  apply andb_true_iff in H. rewrite !N.leb_le in H. lia.
Qed.

Lemma decode_utf8_four (q r2 r1 r0 : N) (rest : list N) :
  q < 8 -> r2 < 64 -> r1 < 64 -> r0 < 64 ->
  65536 <= 262144 * q + 4096 * r2 + 64 * r1 + r0 < 1114112 ->
  decode_utf8 ((240 + q) :: (128 + r2) :: (128 + r1) :: (128 + r0) :: rest)
  = option_map (cons (262144 * q + 4096 * r2 + 64 * r1 + r0))
               (decode_utf8 rest).
Proof.
  intros Hq H2 H1 H0 Hc. cbn [decode_utf8]. cbv zeta.
  replace (240 + q <? 128) with false by (symmetry; apply N.ltb_ge; lia).
  replace ((192 <=? 240 + q) && (240 + q <? 224)) with false
    by (symmetry; apply andb_false_iff; right; apply N.ltb_ge; lia).
  replace ((224 <=? 240 + q) && (240 + q <? 240)) with false
    by (symmetry; apply andb_false_iff; right; apply N.ltb_ge; lia).
  replace ((240 <=? 240 + q) && (240 + q <? 248)) with true
    by (symmetry; bool_true).
  replace ((240 + q - 240) * 262144 + (128 + r2 - 128) * 4096
           + (128 + r1 - 128) * 64 + (128 + r0 - 128))
    with (262144 * q + 4096 * r2 + 64 * r1 + r0) by lia.
  rewrite (is_continuation_tail r2 H2), (is_continuation_tail r1 H1),
    (is_continuation_tail r0 H0).
  replace (65536 <=? 262144 * q + 4096 * r2 + 64 * r1 + r0) with true
    by (symmetry; apply N.leb_le; lia).
  replace (262144 * q + 4096 * r2 + 64 * r1 + r0 <? 1114112) with true
    by (symmetry; apply N.ltb_lt; lia).
  reflexivity.
Qed.

(** A number in base 64: its last digit and the rest. *)
Lemma base64_digits (c : N) :
  c = 64 * (c / 64) + c mod 64 /\ c mod 64 < 64.
Proof.
  split; [apply N.Div0.div_mod | apply N.mod_upper_bound; lia].
Qed.

(** The bytes of one character decode to that character. *)
Lemma decode_utf8_char (c : N) (rest : list N) :
  is_scalar c = true ->
  match utf8_char c with
  | Ok bytes =>
      decode_utf8 (bytes ++ rest) = option_map (cons c) (decode_utf8 rest)
  | Raise _ => True
  end.
Proof.
  intros Hs.
  assert (Hrange : c < 1114112 /\ ~ (55296 <= c <= 57343)).
  { unfold is_scalar in Hs. apply orb_true_iff in Hs.
    rewrite andb_true_iff, !N.ltb_lt in Hs. lia. }
  destruct Hrange as [Hmax Hsur].
  destruct (base64_digits c) as [E0 H0].
  destruct (base64_digits (c / 64)) as [E1 H1].
  destruct (base64_digits (c / 64 / 64)) as [E2 H2].
  unfold utf8_char.
  replace (c / 4096) with (c / 64 / 64) by (rewrite N.Div0.div_div; reflexivity).
  replace (c / 262144) with (c / 64 / 64 / 64)
    by (rewrite !N.Div0.div_div; reflexivity).
  set (r0 := c mod 64) in *. set (a := c / 64) in *.
  set (r1 := a mod 64) in *. set (b := a / 64) in *.
  set (r2 := b mod 64) in *. set (q := b / 64) in *.
  clearbody r0 a r1 b r2 q.
  destruct (c <? 128) eqn:C1; cbv iota.
  { apply N.ltb_lt in C1. apply decode_utf8_one. exact C1. }
  apply N.ltb_ge in C1.
  destruct (c <? 2048) eqn:C2; cbv iota.
  { apply N.ltb_lt in C2. cbn [app].
    rewrite decode_utf8_two by lia. rewrite <- E0. reflexivity. }
  apply N.ltb_ge in C2.
  destruct ((55296 <=? c) && (c <=? 57343)) eqn:C3; cbv iota; [exact I |].
  destruct (c <? 65536) eqn:C4; cbv iota.
  { apply N.ltb_lt in C4. cbn [app].
    rewrite decode_utf8_three by lia.
    replace (4096 * b + 64 * r1 + r0) with c by lia. reflexivity. }
  apply N.ltb_ge in C4. cbn [app].
  rewrite decode_utf8_four by lia.
  replace (262144 * q + 4096 * r2 + 64 * r1 + r0) with c by lia.
  reflexivity.
Qed.

(** Decoding the encoding of a text gives the text. *)
Lemma decode_encode_utf8 (s : str) :
  forall bytes, forallb is_scalar s = true ->
    encode_utf8 s = Ok bytes -> decode_utf8 bytes = Some s.
Proof.
  induction s as [|c s IH]; intros bytes Hs; cbn [encode_utf8].
  - intros E. replace bytes with (@nil N) by congruence. reflexivity.
  - cbn [forallb] in Hs. apply andb_true_iff in Hs. destruct Hs as [Hc Hs].
    pose proof (decode_utf8_char c) as Hchar.
    destruct (utf8_char c) as [bs | e]; [| discriminate].
    destruct (encode_utf8 s) as [rest | e] eqn:Er; [| discriminate].
    intros E. replace bytes with (bs ++ rest) by congruence.
    rewrite (Hchar rest Hc), (IH rest Hs eq_refl). reflexivity.
Qed.

(** A name without surrogates, carriage return and line feed is a name
    [send_file] accepts. *)
Lemma send_file_accepts (body : list N) (attachment : bool)
    (name mimetype : str) :
  forallb is_scalar name = true ->
  existsb is_newline name = false ->
  send_file body attachment name mimetype
  = Ok (SendFile body attachment name mimetype).
Proof.
  intros Hs Hn. unfold send_file. rewrite Hn.
  destruct (forallb (fun c => c <? 128) name); [reflexivity |].
  destruct (encode_utf8_scalar name Hs) as [b ->]. reflexivity.
Qed.

(** What [send_file] returns, when it returns, is the file it was
    given. *)
Lemma send_file_sends (body : list N) (attachment : bool)
    (name mimetype : str) (r : flask_response) :
  send_file body attachment name mimetype = Ok r ->
  r = SendFile body attachment name mimetype.
Proof.
  unfold send_file.
  destruct (if forallb (fun c => c <? 128) name then Ok []
            else encode_utf8 name); [| discriminate].
  destruct (existsb is_newline name); [discriminate | congruence].
Qed.

Lemma download_unfold (form : list (str * str)) (en : env) :
  download form en
  = match encode_utf8 (dict_get form (py "policy_text") []) with
    | Ok body =>
        ([], send_file body true
               (dict_get form (py "filename")
                  (py "policy_" ++ strftime_YmdHMS (utcnow en) ++ py ".txt"))
               (py "text/plain"))
    | Raise e => ([], Raise e)
    end.
Proof.
  unfold download, bind, asks, lift.
  destruct (encode_utf8 (dict_get form (py "policy_text") []));
    reflexivity.
Qed.

(** C8.  For a form whose [filename] holds no carriage return, no line
    feed and no surrogate, and whose [policy_text] (the empty text when
    the field is absent) holds no surrogate, [download] sends a file
    whose body is the UTF-8 encoding of [policy_text] (decoding it gives
    [policy_text] back), as an attachment named by the submitted
    [filename] as it is, with the type [text/plain]; it does nothing
    else. *)
Theorem download_sends_submitted_text :
  forall (form : list (str * str)) (en : env) (filename : str),
    lookup (py "filename") form = Some filename ->
    forallb is_scalar (dict_get form (py "policy_text") []) = true ->
    forallb is_scalar filename = true ->
    existsb is_newline filename = false ->
    exists body : list N,
      encode_utf8 (dict_get form (py "policy_text") []) = Ok body
      /\ decode_utf8 body = Some (dict_get form (py "policy_text") [])
      /\ download form en
         = ([], Ok (SendFile body true filename (py "text/plain"))).
Proof.
  intros form en filename Hname Htext Hscalar Hline.
  destruct (encode_utf8_scalar _ Htext) as [body Hbody].
  exists body. split; [exact Hbody |].
  split; [apply decode_encode_utf8; assumption |].
  rewrite download_unfold, Hbody. unfold dict_get at 1. rewrite Hname.
  rewrite (send_file_accepts body true filename _ Hscalar Hline).
  reflexivity.
Qed.

Lemma download_sends_submitted_text_witness :
  download [ (py "policy_text", py "Lock " ++ [233; 8364]);
             (py "filename", py "../my policy.TXT") ] env_no_key
  = ([], Ok (SendFile (py "Lock " ++ [195; 169; 226; 130; 172]) true
               (py "../my policy.TXT") (py "text/plain"))).
Proof.
  destruct (download_sends_submitted_text
              [ (py "policy_text", py "Lock " ++ [233; 8364]);
                (py "filename", py "../my policy.TXT") ]
              env_no_key (py "../my policy.TXT")
              eq_refl eq_refl eq_refl eq_refl)
    as (body & Hbody & _ & Hresp).
  rewrite Hresp. vm_compute in Hbody. inversion Hbody. reflexivity.
Defined.

(** C8, the case left out.  A [filename] that holds a line feed is a
    header value [send_file] refuses: for a form with such a name and
    an ASCII [policy_text], [download] raises [ValueError] and sends no
    file. *)
Lemma download_refuses_newline_in_filename :
  lookup (py "filename")
    [ (py "policy_text", py "Lock it");
      (py "filename", py "a" ++ [10] ++ py "b.txt") ]
  = Some (py "a" ++ [10] ++ py "b.txt")
  /\ forallb is_scalar (py "Lock it") = true
  /\ (exists message : str,
        download [ (py "policy_text", py "Lock it");
                   (py "filename", py "a" ++ [10] ++ py "b.txt") ] env_no_key
        = ([], Raise (Exn ValueError message)))
  /\ forall body : list N,
       download [ (py "policy_text", py "Lock it");
                  (py "filename", py "a" ++ [10] ++ py "b.txt") ] env_no_key
       <> ([], Ok (SendFile body true (py "a" ++ [10] ++ py "b.txt")
                     (py "text/plain"))).
Proof.
  split; [reflexivity |]. split; [reflexivity |].
  assert (H : download [ (py "policy_text", py "Lock it");
                         (py "filename", py "a" ++ [10] ++ py "b.txt") ]
                env_no_key
              = ([], Raise (Exn ValueError
                     (py "Header values must not contain newline characters."))))
    by (vm_compute; reflexivity).
  split; [eexists; exact H |].
  intros body. rewrite H. discriminate.
Qed.

Lemma is_digit_range (c : N) : is_digit c = true -> 48 <= c <= 57.
Proof.
  unfold is_digit. rewrite andb_true_iff, !N.leb_le. tauto.
Qed.

(** The default name is a name [send_file] accepts. *)
Lemma default_filename_accepted (body : list N) (attachment : bool)
    (timestamp mimetype : str) :
  forallb is_digit timestamp = true ->
  send_file body attachment (py "policy_" ++ timestamp ++ py ".txt") mimetype
  = Ok (SendFile body attachment
          (py "policy_" ++ timestamp ++ py ".txt") mimetype).
Proof.
  intros Hd. rewrite forallb_forall in Hd.
  assert (Hchars : forall c,
             In c (py "policy_" ++ timestamp ++ py ".txt") ->
             32 <= c < 128).
  { intros c Hc. apply in_app_or in Hc. destruct Hc as [Hc | Hc].
    - vm_compute in Hc.
      repeat (destruct Hc as [<- | Hc]; [lia |]). destruct Hc.
    - apply in_app_or in Hc. destruct Hc as [Hc | Hc].
      + apply Hd, is_digit_range in Hc. lia.
      + vm_compute in Hc.
        repeat (destruct Hc as [<- | Hc]; [lia |]). destruct Hc. }
  apply send_file_accepts.
  - apply forallb_forall. intros c Hc. apply Hchars in Hc.
    unfold is_scalar. apply orb_true_iff. left. apply N.ltb_lt. lia.
  - destruct (existsb is_newline (py "policy_" ++ timestamp ++ py ".txt"))
      eqn:E; [| reflexivity].
    apply existsb_exists in E. destruct E as (c & Hc & Hn).
    apply Hchars in Hc. unfold is_newline in Hn.
    apply orb_true_iff in Hn. rewrite !N.eqb_eq in Hn. lia.
Qed.

(** C9.  For a form without a [filename] field, at a clock value the
    system clock can give, [download] names the attachment [policy_],
    the fourteen digits of the UTC timestamp, [.txt]. *)
Theorem download_default_filename :
  forall (form : list (str * str)) (en : env),
    lookup (py "filename") form = None ->
    valid_utc (utcnow en) = true ->
    forallb is_scalar (dict_get form (py "policy_text") []) = true ->
    exists (body : list N) (timestamp : str),
      download form en
        = ([], Ok (SendFile body true
                     (py "policy_" ++ timestamp ++ py ".txt")
                     (py "text/plain")))
      /\ digits_of_length 14 timestamp
      /\ timestamp = strftime_YmdHMS (utcnow en).
Proof.
  intros form en Hname Hclock Htext.
  destruct (encode_utf8_scalar _ Htext) as [body Hbody].
  pose proof (strftime_fourteen_digits (utcnow en) Hclock) as Hdigits.
  exists body, (strftime_YmdHMS (utcnow en)).
  split; [| split; [exact Hdigits | reflexivity]].
  rewrite download_unfold, Hbody. unfold dict_get at 1. rewrite Hname.
  rewrite (default_filename_accepted body true _ _ (proj2 Hdigits)).
  reflexivity.
Qed.

Lemma download_default_filename_witness :
  exists body : list N,
    download [ (py "policy_text", py "Lock your phone.") ] env_no_key
    = ([], Ok (SendFile body true (py "policy_20240309070500.txt")
                 (py "text/plain"))).
Proof.
  destruct (download_default_filename
              [ (py "policy_text", py "Lock your phone.") ] env_no_key
              eq_refl eq_refl eq_refl)
    as (body & timestamp & Hresp & _ & Hts).
  exists body. rewrite Hresp, Hts. reflexivity.
Defined.

(* ================================================================== *)
(** * Splitting, joining and searching *)

Lemma startswith_app (p r : str) : startswith (p ++ r) p = true.
Proof.
  induction p as [|c p IH]; cbn; [reflexivity |].
  rewrite N.eqb_refl; exact IH.
Qed.

Lemma startswith_spec (s p : str) :
  startswith s p = true <-> exists r, s = p ++ r.
Proof.
  split.
  - revert s; induction p as [|c p IH]; intros s H.
    + exists s; reflexivity.
    + destruct s as [|d s]; cbn in H; [discriminate |].
      apply andb_true_iff in H. destruct H as [E H].
      apply N.eqb_eq in E. subst d.
      destruct (IH s H) as [r ->]. exists r; reflexivity.
  - intros [r ->]. apply startswith_app.
Qed.

Lemma contains_spec (s sub : str) : contains s sub = true <-> infix sub s.
Proof.
  split.
  - induction s as [|c s IH]; cbn [contains]; intros H.
    + rewrite orb_false_r in H. apply startswith_spec in H.
      destruct H as [r ->]. exists [], r; reflexivity.
    + apply orb_true_iff in H. destruct H as [H | H].
      * apply startswith_spec in H. destruct H as [r ->].
        exists [], r; reflexivity.
      * destruct (IH H) as (pre & post & ->).
        exists (c :: pre), post; reflexivity.
  - intros (pre & post & ->).
    induction pre as [|c pre IH].
    + cbn [app]. destruct (sub ++ post) eqn:E; cbn [contains];
        rewrite <- E, startswith_app; reflexivity.
    + cbn [app contains]. rewrite IH. apply orb_true_r.
Qed.

Lemma infix_refl (s : str) : infix s s.
Proof. exists [], []. rewrite app_nil_r. reflexivity. Qed.

Lemma infix_trans (a b c : str) : infix a b -> infix b c -> infix a c.
Proof.
  intros (p1 & q1 & ->) (p2 & q2 & ->).
  exists (p2 ++ p1), (q1 ++ q2). rewrite <- !app_assoc. reflexivity.
Qed.

Lemma infix_app_l (a s t : str) : infix a s -> infix a (s ++ t).
Proof.
  intros (p & q & ->). exists p, (q ++ t). rewrite <- !app_assoc. reflexivity.
Qed.

Lemma infix_app_r (a s t : str) : infix a t -> infix a (s ++ t).
Proof.
  intros (p & q & ->). exists (s ++ p), q. rewrite <- !app_assoc. reflexivity.
Qed.

Lemma split_on_not_nil (sep : N) (s : str) : split_on sep s <> [].
Proof.
  destruct s as [|c s]; cbn [split_on]; [discriminate |].
  destruct (c =? sep); [discriminate |].
  destruct (split_on sep s); discriminate.
Qed.

(** Splitting a text at a separator splits the two sides. *)
Lemma split_on_app_sep (sep : N) (x y : str) :
  split_on sep (x ++ sep :: y) = split_on sep x ++ split_on sep y.
Proof.
  induction x as [|c x IH]; cbn [app split_on].
  - rewrite N.eqb_refl. reflexivity.
  - destruct (c =? sep); [rewrite IH; reflexivity |].
    rewrite IH.
    pose proof (split_on_not_nil sep x) as Hx.
    destruct (split_on sep x) as [|piece pieces]; [congruence |].
    reflexivity.
Qed.

Lemma split_on_no_sep (sep : N) (x : str) :
  ~ In sep x -> split_on sep x = [x].
Proof.
  induction x as [|c x IH]; intros H; cbn [split_on]; [reflexivity |].
  destruct (N.eqb_spec c sep) as [-> | _].
  - exfalso. apply H. left. reflexivity.
  - rewrite IH; [reflexivity |]. intros Hin. apply H. right. exact Hin.
Qed.

Lemma join_cons (sep x : str) (l : list str) :
  l <> [] -> join sep (x :: l) = x ++ sep ++ join sep l.
Proof.
  destruct l; [congruence | reflexivity].
Qed.

Lemma join_infix (sep x : str) (l : list str) :
  In x l -> infix x (join sep l).
Proof.
  induction l as [|y l IH]; intros H; [contradiction |].
  destruct l as [|z l].
  - destruct H as [-> | []]. apply infix_refl.
  - rewrite join_cons by discriminate.
    destruct H as [-> | H].
    + apply infix_app_l, infix_refl.
    + apply infix_app_r, infix_app_r, IH, H.
Qed.

Lemma join_snoc (sep y : str) (l : list str) :
  l <> [] -> join sep (l ++ [y]) = join sep l ++ sep ++ y.
Proof.
  induction l as [|x l IH]; intros H; [congruence |].
  destruct l as [|z l]; [reflexivity |].
  change ((x :: z :: l) ++ [y]) with (x :: ((z :: l) ++ [y])).
  rewrite join_cons by (intros E; apply app_eq_nil in E; destruct E; discriminate).
  rewrite IH by discriminate.
  rewrite (join_cons sep x (z :: l)) by discriminate.
  rewrite <- !app_assoc. reflexivity.
Qed.

(* ================================================================== *)
(** * What [textwrap.dedent] keeps of a text *)

Import Textwrap.

Lemma takewhile_all_blank (l : str) : all_blank (takewhile is_blank l).
Proof.
  unfold all_blank. induction l as [|c l IH]; cbn [takewhile]; [reflexivity |].
  destruct (is_blank c) eqn:E; [| reflexivity].
  cbn [forallb]. rewrite E, IH. reflexivity.
Qed.

Lemma indents_all_blank (lines : list str) : Forall all_blank (indents lines).
Proof.
  induction lines as [|l lines IH]; cbn [indents]; [constructor |].
  unfold leading_whitespace.
  destruct (existsb _ l); [| exact IH].
  constructor; [apply takewhile_all_blank | exact IH].
Qed.

Lemma common_prefix_all_blank (a b : str) :
  all_blank a -> all_blank (common_prefix a b).
Proof.
  unfold all_blank. revert b.
  induction a as [|x a IH]; intros [|y b] H; cbn [common_prefix];
    try reflexivity.
  cbn [forallb] in H. apply andb_true_iff in H. destruct H as [Hx Ha].
  destruct (x =? y); [| reflexivity].
  cbn [forallb]. rewrite Hx, (IH b Ha). reflexivity.
Qed.

(** The margin [dedent] removes is made of blanks. *)
Lemma find_margin_all_blank (lines : list str) (m : str) :
  find_margin lines = Some m -> all_blank m.
Proof.
  unfold find_margin.
  assert (G : forall (l : list str) (acc : option str),
             Forall all_blank l ->
             (forall a, acc = Some a -> all_blank a) ->
             forall r, fold_left next_margin l acc = Some r -> all_blank r).
  { induction l as [|i l IH]; intros acc Hl Hacc r Hr; cbn [fold_left] in Hr.
    - apply Hacc, Hr.
    - inversion Hl as [|? ? Hi Hl']; subst.
      apply (IH (next_margin acc i) Hl'); [| exact Hr].
      intros a Ha. unfold next_margin in Ha.
      destruct acc as [m0|]; [| inversion Ha; subst; exact Hi].
      destruct (startswith i m0); [inversion Ha; subst; apply Hacc; reflexivity |].
      destruct (startswith m0 i); inversion Ha; subst; [exact Hi |].
      apply common_prefix_all_blank, Hacc. reflexivity. }
  intros H. apply (G (indents lines) None (indents_all_blank lines)); [| exact H].
  intros a Ha; discriminate.
Qed.

(** Removing a margin of blanks from a line leaves the line from its
    first character that is not a blank. *)
Lemma remove_margin_keeps_text (m ind body : str) (c : N) :
  all_blank m -> is_blank c = false ->
  exists ind', remove_margin m (ind ++ c :: body) = ind' ++ c :: body.
Proof.
  intros Hm Hc. unfold remove_margin.
  destruct (startswith (ind ++ c :: body) m) eqn:Es;
    [| exists ind; reflexivity].
  revert ind Es. unfold all_blank in Hm.
  induction m as [|p m IH]; intros ind Es.
  - exists ind. reflexivity.
  - cbn [forallb] in Hm. apply andb_true_iff in Hm. destruct Hm as [Hp Hm].
    destruct ind as [|i ind]; cbn [app startswith] in Es.
    + apply andb_true_iff in Es. destruct Es as [E _].
      apply N.eqb_eq in E. subst. congruence.
    + apply andb_true_iff in Es. destruct Es as [_ Es].
      destruct (IH Hm ind Es) as [ind' E]. exists ind'. exact E.
Qed.

Lemma normalize_line_text (ind body : str) (c : N) :
  is_blank c = false ->
  normalize_line (ind ++ c :: body) = ind ++ c :: body.
Proof.
  intros Hc. unfold normalize_line, whitespace_only.
  destruct (ind ++ c :: body) eqn:E; [reflexivity |]. rewrite <- E.
  rewrite forallb_app. cbn [forallb]. rewrite Hc, andb_false_r. reflexivity.
Qed.

Lemma remove_margin_flush_line (p c : N) (m body : str) :
  is_blank p = true -> is_blank c = false ->
  remove_margin (p :: m) (c :: body) = c :: body.
Proof.
  intros Hp Hc. unfold remove_margin. cbn [startswith].
  destruct (N.eqb_spec c p) as [-> | _]; [congruence | reflexivity].
Qed.

(** [dedent] works line by line: every line is normalized, then passed
    through one function that keeps the text of a line, leaves a line
    that starts with text as it is, and leaves an empty line empty. *)
Lemma dedent_by_lines (text : str) :
  exists g : str -> str,
    (forall ind c body, is_blank c = false ->
        exists ind', g (ind ++ c :: body) = ind' ++ c :: body)
    /\ (forall c body, is_blank c = false -> g (c :: body) = c :: body)
    /\ g [] = []
    /\ dedent text
       = join nl (map g (map normalize_line (split_on newline text))).
Proof.
  unfold dedent.
  destruct (find_margin (map normalize_line (split_on newline text)))
    as [[|p m]|] eqn:Em.
  - exists (fun l => l). repeat split.
    + intros ind c body _. exists ind; reflexivity.
    + rewrite map_id. reflexivity.
  - pose proof (find_margin_all_blank _ _ Em) as Hm.
    exists (remove_margin (p :: m)). repeat split.
    + intros ind d body Hd.
      apply remove_margin_keeps_text; [exact Hm | exact Hd].
    + intros c body Hc. apply remove_margin_flush_line; [| exact Hc].
      unfold all_blank in Hm. cbn [forallb] in Hm.
      apply andb_true_iff in Hm. apply Hm.
  - exists (fun l => l). repeat split.
    + intros ind c body _. exists ind; reflexivity.
    + rewrite map_id. reflexivity.
Qed.

(** A line with text, between two newlines, keeps its text. *)
Lemma dedent_keeps_line (pre ind body post : str) (c : N) :
  is_blank c = false ->
  one_line (ind ++ c :: body) ->
  infix (c :: body)
        (dedent (pre ++ nl ++ (ind ++ c :: body) ++ nl ++ post)).
Proof.
  intros Hc Hline.
  destruct (dedent_by_lines (pre ++ nl ++ (ind ++ c :: body) ++ nl ++ post))
    as (g & Hg & _ & _ & ->).
  change (pre ++ nl ++ (ind ++ c :: body) ++ nl ++ post)
    with (pre ++ newline :: (ind ++ c :: body) ++ newline :: post).
  rewrite split_on_app_sep, split_on_app_sep.
  rewrite (split_on_no_sep _ _ Hline).
  rewrite !map_app. cbn [map].
  rewrite normalize_line_text by exact Hc.
  destruct (Hg ind c body Hc) as [ind' E].
  apply infix_trans with (b := g (ind ++ c :: body)).
  - rewrite E. exists ind', []. rewrite app_nil_r. reflexivity.
  - apply join_infix. apply in_or_app. right. left. reflexivity.
Qed.

(** A text whose last line is made of blanks ends, once dedented, with
    a newline. *)
Lemma dedent_ends_with_newline (x w : str) :
  whitespace_only w = true -> one_line w ->
  exists r, dedent (x ++ nl ++ w) = r ++ nl.
Proof.
  intros Hw Hline.
  destruct (dedent_by_lines (x ++ nl ++ w)) as (g & _ & _ & Hg & ->).
  change (x ++ nl ++ w) with (x ++ newline :: w).
  rewrite split_on_app_sep, (split_on_no_sep _ _ Hline).
  rewrite !map_app. cbn [map].
  unfold normalize_line at 2. rewrite Hw, Hg.
  rewrite join_snoc.
  - rewrite app_nil_r. eexists; reflexivity.
  - pose proof (split_on_not_nil newline x) as Hx.
    destruct (split_on newline x); [congruence | discriminate].
Qed.

(* ================================================================== *)
(** * The prompt *)

Lemma construct_prompt_fields (business tools concerns context : str) :
  construct_prompt [ (py "business_type", business);
                     (py "tools", tools);
                     (py "concerns", concerns) ] context
  = dedent (prompt_text business tools context (stated_concerns concerns)).
Proof.
  unfold construct_prompt, stated_concerns.
  change (dict_get _ (py "business_type") _) with business.
  change (dict_get _ (py "tools") _) with tools.
  change (dict_get _ (py "concerns") _) with concerns.
  destruct concerns; reflexivity.
Qed.

Lemma final_prompt_unfold (business_type tools concerns context : str) :
  final_prompt business_type tools concerns context
  = dedent (prompt_text (title business_type) tools context
              (stated_concerns concerns))
    ++ match unrecognized tools with
       | [] => []
       | _ :: _ => extra_note
       end.
Proof.
  unfold final_prompt. cbv zeta. rewrite construct_prompt_fields.
  destruct (unrecognized tools); [rewrite app_nil_r |]; reflexivity.
Qed.

(** The text handed to [dedent] ends with a newline and four spaces. *)
Lemma prompt_text_last_line (business tools context concerns : str) :
  exists x, prompt_text business tools context concerns
            = x ++ nl ++ py "    ".
Proof.
  unfold prompt_text. rewrite !app_assoc. rewrite <- app_assoc.
  eexists. reflexivity.
Qed.

(** The prompt before the advisory clause ends with a newline. *)
Lemma construct_prompt_ends_with_newline (business tools context concerns : str) :
  exists r, dedent (prompt_text business tools context concerns) = r ++ nl.
Proof.
  destruct (prompt_text_last_line business tools context concerns) as [x ->].
  apply dedent_ends_with_newline.
  - reflexivity.
  - unfold one_line. vm_compute. intuition discriminate.
Qed.

Lemma endswith_app (p e : str) : endswith (p ++ e) e = true.
Proof.
  unfold endswith. rewrite rev_app_distr. apply startswith_app.
Qed.

Lemma endswith_newline_extra_note (r : str) :
  endswith (r ++ nl) extra_note = false.
Proof.
  unfold endswith. rewrite rev_app_distr.
  remember (rev extra_note) as e eqn:E. vm_compute in E. subst e.
  reflexivity.
Qed.

Lemma tool_list_spec (tools t : str) :
  In t (tool_list tools)
  <-> exists piece, In piece (split_on 44 tools) /\ t = strip piece /\ t <> [].
Proof.
  unfold tool_list. rewrite in_map_iff. split.
  - intros (piece & <- & H). apply filter_In in H. destruct H as [H E].
    exists piece. repeat split; [exact H |].
    destruct (strip piece); [discriminate | discriminate].
  - intros (piece & H & -> & E). exists piece. split; [reflexivity |].
    apply filter_In. split; [exact H |].
    destruct (strip piece); [congruence | reflexivity].
Qed.

Lemma unrecognized_spec (tools : str) :
  unrecognized tools <> []
  <-> exists t, In t (tool_list tools) /\ ~ In t valid_tools.
Proof.
  unfold unrecognized. split.
  - intros H. destruct (filter _ (tool_list tools)) as [|t l] eqn:E;
      [congruence |].
    assert (Hin : In t (filter (fun t => negb (mem t valid_tools))
                          (tool_list tools)))
      by (rewrite E; left; reflexivity).
    apply filter_In in Hin. destruct Hin as [Hin Hm].
    exists t. split; [exact Hin |].
    apply mem_false_not_In. destruct (mem t valid_tools);
      [discriminate | reflexivity].
  - intros (t & Hin & Hnot) E.
    assert (Hf : In t (filter (fun t => negb (mem t valid_tools))
                         (tool_list tools))).
    { apply filter_In. split; [exact Hin |].
      apply mem_false_not_In in Hnot. rewrite Hnot. reflexivity. }
    rewrite E in Hf. exact Hf.
Qed.

(** The advisory clause closes the prompt exactly when the list of
    unrecognized tools is not empty. *)
Lemma advisory_clause_iff_unrecognized (form : list (str * str)) (context : str) :
  endswith (request_prompt form context) extra_note = true
  <-> unrecognized (form_tools form) <> [].
Proof.
  unfold request_prompt. rewrite final_prompt_unfold.
  destruct (unrecognized (form_tools form)) as [|t l].
  - rewrite app_nil_r.
    destruct (construct_prompt_ends_with_newline
                (title (form_business_type form)) (form_tools form) context
                (stated_concerns (form_concerns form))) as [r ->].
    rewrite endswith_newline_extra_note.
    split; [discriminate | congruence].
  - rewrite endswith_app. split; [discriminate | reflexivity].
Qed.

(** C3.  The entries of the tools field (trimmed and lower-cased, as the
    handler reads it) are the pieces between its commas, each trimmed,
    without the empty ones; and the prompt of the request ends with the
    advisory clause exactly when one of these entries is not a recognized
    tool. *)
Theorem advisory_clause_iff_unrecognized_tool :
  forall (form : list (str * str)) (context : str),
    (forall t : str,
        In t (tool_list (form_tools form))
        <-> exists piece, In piece (split_on 44 (form_tools form))
                          /\ t = strip piece /\ t <> [])
    /\ (endswith (request_prompt form context) extra_note = true
        <-> exists t, In t (tool_list (form_tools form))
                      /\ ~ In t valid_tools).
Proof.
  intros form context. split; [intros t; apply tool_list_spec |].
  rewrite <- unrecognized_spec. apply advisory_clause_iff_unrecognized.
Qed.

(** The prompt of the request is the one sent to the remote service. *)
Lemma generate_sends_request_prompt (form : list (str * str)) (en : env)
    (context : str) :
  mem (form_business_type form) allowed_types = true ->
  snd (load_local_context 20 en) = Ok context ->
  GEMINI_API_KEY en <> [] ->
  fst (generate form en)
  = fst (load_local_context 20 en)
      ++ [HttpPost (gemini_request en (request_prompt form context))].
Proof.
  intros Hbt Hctx Hkey.
  destruct (generate_completes form en context Hbt Hctx) as (policy & _ & ->).
  cbn [fst]. rewrite call_gemini_api_unfold by exact Hkey. reflexivity.
Qed.

(* ================================================================== *)
(** * What the prompt contains *)

Lemma one_line_check (s : str) :
  forallb (fun c => negb (c =? newline)) s = true -> one_line s.
Proof.
  intros H Hin. rewrite forallb_forall in H. specialize (H _ Hin).
  rewrite N.eqb_refl in H. discriminate.
Qed.

Lemma one_line_app (a b : str) : one_line a -> one_line b -> one_line (a ++ b).
Proof.
  unfold one_line. intros Ha Hb H. apply in_app_or in H. tauto.
Qed.

Lemma one_line_cons (c : N) (s : str) :
  c <> newline -> one_line s -> one_line (c :: s).
Proof.
  unfold one_line. intros Hc Hs [H | H]; [congruence | tauto].
Qed.

(** A text followed by a newline starts with a line. *)
Lemma first_line (s z : str) :
  exists l r, one_line l /\ s ++ newline :: z = l ++ newline :: r.
Proof.
  induction s as [|c s IH].
  - exists [], z. split; [intros [] | reflexivity].
  - destruct (N.eq_dec c newline) as [-> | Hc].
    + exists [], (s ++ newline :: z). split; [intros [] | reflexivity].
    + destruct IH as (l & r & Hl & E).
      exists (c :: l), r. split; [apply one_line_cons; assumption |].
      cbn [app]. rewrite E. reflexivity.
Qed.

Lemma is_blank_isspace (c : N) : is_blank c = true -> isspace c = true.
Proof.
  unfold is_blank. rewrite orb_true_iff, !N.eqb_eq.
  intros [-> | ->]; reflexivity.
Qed.

Lemma flush_line_cons (c : N) (body : str) :
  flush_line (c :: body) = true -> is_blank c = false.
Proof.
  cbn [flush_line]. intros H.
  destruct (is_blank c) eqn:E; [| reflexivity].
  rewrite (is_blank_isspace c E) in H. discriminate.
Qed.

Lemma join_app (sep : str) (l1 l2 : list str) :
  l1 <> [] -> l2 <> [] ->
  join sep (l1 ++ l2) = join sep l1 ++ sep ++ join sep l2.
Proof.
  intros H1 H2. induction l1 as [|x l1 IH]; [congruence |].
  destruct l1 as [|y l1].
  - cbn [app]. apply join_cons. exact H2.
  - change ((x :: y :: l1) ++ l2) with (x :: ((y :: l1) ++ l2)).
    rewrite join_cons by (intros E; apply app_eq_nil in E; destruct E; discriminate).
    rewrite IH by discriminate.
    rewrite (join_cons sep x (y :: l1)) by discriminate.
    rewrite <- !app_assoc. reflexivity.
Qed.

(** The join of a run of lines occurs in the join of all of them. *)
Lemma join_sublist_infix (sep : str) (before run after : list str) :
  run <> [] ->
  infix (join sep run) (join sep (before ++ run ++ after)).
Proof.
  intros Hrun.
  assert (H1 : infix (join sep run) (join sep (run ++ after))).
  { destruct after as [|a after].
    - rewrite app_nil_r. apply infix_refl.
    - rewrite join_app by (assumption || discriminate).
      apply infix_app_l, infix_refl. }
  destruct before as [|b before]; [exact H1 |].
  rewrite join_app;
    [| discriminate
     | intros E; apply app_eq_nil in E; destruct E; contradiction].
  apply infix_app_r, infix_app_r, H1.
Qed.

Lemma join_app_head (sep a b : str) (l : list str) :
  join sep ((a ++ b) :: l) = a ++ join sep (b :: l).
Proof.
  destruct l as [|x l]; [reflexivity |].
  rewrite !join_cons by discriminate. rewrite <- app_assoc. reflexivity.
Qed.

(** Joining the pieces of a text with the separator gives the text. *)
Lemma join_split_on (sep : N) (s : str) : join [sep] (split_on sep s) = s.
Proof.
  induction s as [|c s IH]; [reflexivity |].
  cbn [split_on].
  pose proof (split_on_not_nil sep s) as Hs.
  destruct (N.eqb_spec c sep) as [-> | _].
  - rewrite join_cons by exact Hs. rewrite IH. reflexivity.
  - destruct (split_on sep s) as [|piece pieces]; [congruence |].
    change (c :: piece) with ([c] ++ piece).
    rewrite join_app_head, IH. reflexivity.
Qed.

(** A one-line prefix joins the first line of what follows. *)
Lemma split_on_one_line_prefix (x s : str) :
  one_line x ->
  split_on newline (x ++ s)
  = match split_on newline s with
    | [] => [x]
    | first :: others => (x ++ first) :: others
    end.
Proof.
  intros Hx. pose proof (split_on_not_nil newline s) as Hs.
  induction x as [|c x IH]; cbn [app].
  - destruct (split_on newline s); [congruence | reflexivity].
  - cbn [split_on].
    destruct (N.eqb_spec c newline) as [-> | _].
    + exfalso. apply Hx. left. reflexivity.
    + rewrite IH by (intros H; apply Hx; right; exact H).
      destruct (split_on newline s); [congruence | reflexivity].
Qed.

(** A one-line suffix that does not begin with whitespace keeps a text
    flush. *)
Lemma flush_lines_suffix (y : str) :
  one_line y -> flush_line y = true ->
  forall s : str,
    (forallb flush_line (tl (split_on newline s)) = true ->
     forallb flush_line (tl (split_on newline (s ++ y))) = true)
    /\ (forallb flush_line (split_on newline s) = true ->
        forallb flush_line (split_on newline (s ++ y)) = true).
Proof.
  intros Hy Hf. induction s as [|c s [IHt IHa]].
  - cbn [app]. rewrite (split_on_no_sep _ _ Hy). cbn. rewrite Hf.
    split; reflexivity.
  - cbn [app split_on].
    pose proof (split_on_not_nil newline s) as Hs.
    pose proof (split_on_not_nil newline (s ++ y)) as Hsy.
    destruct (c =? newline).
    + cbn [tl forallb flush_line]. split; [exact IHa | exact IHa].
    + destruct (split_on newline s) as [|p ps]; [congruence |].
      destruct (split_on newline (s ++ y)) as [|q qs]; [congruence |].
      cbn [tl forallb flush_line] in *. split; [exact IHt |].
      intros H. apply andb_true_iff in H. destruct H as [Hc Hps].
      rewrite Hc, (IHt Hps). reflexivity.
Qed.

Lemma not_isspace_not_blank (c : N) : isspace c = false -> is_blank c = false.
Proof.
  intros H. destruct (is_blank c) eqn:E; [| reflexivity].
  rewrite (is_blank_isspace c E) in H. discriminate.
Qed.

(** A text that starts with text and whose later lines do not begin
    with whitespace stays in the dedented text, whatever the indentation
    before it. *)
Lemma dedent_keeps_flush_text (pre ind text post : str) :
  starts_with_text text ->
  one_line ind ->
  flush text = true ->
  infix text (dedent (pre ++ nl ++ (ind ++ text) ++ nl ++ post)).
Proof.
  intros (c & body & E & Hsp) Hind Hflush.
  pose proof (not_isspace_not_blank c Hsp) as Hc.
  destruct (dedent_by_lines (pre ++ nl ++ (ind ++ text) ++ nl ++ post))
    as (g & Hg3 & Hg2 & Hg1 & ->).
  change (pre ++ nl ++ (ind ++ text) ++ nl ++ post)
    with (pre ++ newline :: (ind ++ text) ++ newline :: post).
  rewrite split_on_app_sep, split_on_app_sep.
  rewrite (split_on_one_line_prefix ind text Hind).
  assert (Hlines : exists first others,
             split_on newline text = (c :: first) :: others).
  { subst text. cbn [split_on].
    destruct (N.eqb_spec c newline) as [-> | _]; [discriminate Hsp |].
    pose proof (split_on_not_nil newline body) as Hb.
    destruct (split_on newline body) as [|p ps]; [congruence |].
    exists p, ps. reflexivity. }
  destruct Hlines as (first & others & Hsplit).
  assert (Htext : text = join nl ((c :: first) :: others)).
  { rewrite <- Hsplit. symmetry. apply join_split_on. }
  unfold flush in Hflush. rewrite Hsplit in Hflush |- *.
  cbn [tl] in Hflush.
  assert (Hkept : map g (map normalize_line others) = others).
  { clear - Hflush Hg2 Hg1.
    induction others as [|l others IH]; [reflexivity |].
    cbn [forallb] in Hflush. apply andb_true_iff in Hflush.
    destruct Hflush as [Hl Ho]. cbn [map]. rewrite (IH Ho). f_equal.
    destruct l as [|d l]; [exact Hg1 |].
    pose proof (flush_line_cons d l Hl) as Hd.
    pose proof (normalize_line_text [] l d Hd) as Hn. cbn [app] in Hn.
    rewrite Hn. apply Hg2, Hd. }
  rewrite !map_app. cbn [map]. rewrite Hkept.
  rewrite (normalize_line_text ind first c Hc).
  destruct (Hg3 ind c first Hc) as [ind' ->].
  eapply infix_trans;
    [| apply (join_sublist_infix nl _ ((ind' ++ c :: first) :: others) _);
       discriminate].
  rewrite join_app_head, <- Htext.
  exists ind', []. rewrite app_nil_r. reflexivity.
Qed.

Lemma dedent_keeps_text (pre ind text post : str) :
  starts_with_text text ->
  one_line (ind ++ text) ->
  infix text (dedent (pre ++ nl ++ (ind ++ text) ++ nl ++ post)).
Proof.
  intros (c & body & -> & Hc) Hline.
  apply dedent_keeps_line; [apply not_isspace_not_blank |]; assumption.
Qed.

(** The text of the prompt, cut at the line of the business type and the
    tools. *)
Lemma prompt_text_target_line (business tools context concerns : str) :
  prompt_text business tools context concerns
  = prompt_head ++ nl
      ++ (py "    " ++ py "Target user: " ++ business
            ++ py ". Digital tools used: " ++ tools ++ py ".")
      ++ nl
      ++ (py "    Local context examples (do not reveal personally identifying info): "
            ++ nl ++ py "    " ++ context ++ nl ++ nl
            ++ py "    User-stated concerns: " ++ concerns ++ nl
            ++ prompt_tail).
Proof.
  unfold prompt_text, prompt_head, prompt_tail.
  rewrite <- !app_assoc. reflexivity.
Qed.

(** The text of the prompt, cut at the line of the concerns. *)
Lemma prompt_text_concerns_line (business tools context concerns : str) :
  prompt_text business tools context concerns
  = (prompt_head ++ nl
       ++ py "    Target user: " ++ business
       ++ py ". Digital tools used: " ++ tools ++ py "." ++ nl
       ++ py "    Local context examples (do not reveal personally identifying info): "
       ++ nl ++ py "    " ++ context ++ nl)
      ++ nl
      ++ (py "    " ++ py "User-stated concerns: " ++ concerns)
      ++ nl ++ prompt_tail.
Proof.
  unfold prompt_text, prompt_head, prompt_tail.
  rewrite <- !app_assoc. reflexivity.
Qed.

(** The business type stays in the prompt, whatever the other fields. *)
Lemma dedent_keeps_business (business tools context concerns : str) :
  one_line business ->
  infix business (dedent (prompt_text business tools context concerns)).
Proof.
  intros Hb. rewrite prompt_text_target_line.
  set (rest := py "    Local context examples (do not reveal personally identifying info): "
                 ++ _).
  destruct (first_line (tools ++ py ".") rest) as (l & r & Hl & E).
  rewrite <- app_assoc in E.
  change (tools ++ py "." ++ nl ++ rest = l ++ nl ++ r) in E.
  replace ((py "    " ++ py "Target user: " ++ business
              ++ py ". Digital tools used: " ++ tools ++ py ".") ++ nl ++ rest)
    with ((py "    " ++ py "Target user: " ++ business
             ++ py ". Digital tools used: " ++ l) ++ nl ++ r)
    by (rewrite <- !app_assoc, E; reflexivity).
  eapply infix_trans; [| apply dedent_keeps_text].
  - exists (py "Target user: "), (py ". Digital tools used: " ++ l).
    reflexivity.
  - exists 84, (py "arget user: " ++ business ++ py ". Digital tools used: " ++ l).
    split; reflexivity.
  - repeat (apply one_line_app; [apply one_line_check; reflexivity |]).
    apply one_line_app; [exact Hb |].
    apply one_line_app; [apply one_line_check; reflexivity | exact Hl].
Qed.

(** A one-line prefix does not change whether a text is flush. *)
Lemma flush_prefix (x s : str) : one_line x -> flush (x ++ s) = flush s.
Proof.
  intros Hx. unfold flush. rewrite (split_on_one_line_prefix x s Hx).
  pose proof (split_on_not_nil newline s) as Hs.
  destruct (split_on newline s); [congruence | reflexivity].
Qed.

Lemma flush_suffix (s y : str) :
  one_line y -> flush_line y = true -> flush s = true -> flush (s ++ y) = true.
Proof.
  intros Hy Hf. apply (proj1 (flush_lines_suffix y Hy Hf s)).
Qed.

(** Flush tools stay in the prompt. *)
Lemma dedent_keeps_tools (business tools context concerns : str) :
  one_line business -> flush tools = true ->
  infix tools (dedent (prompt_text business tools context concerns)).
Proof.
  intros Hb Ht. rewrite prompt_text_target_line.
  eapply infix_trans; [| apply dedent_keeps_flush_text].
  - exists (py "Target user: " ++ business ++ py ". Digital tools used: "),
      (py "."). rewrite <- !app_assoc. reflexivity.
  - exists 84, (py "arget user: " ++ business ++ py ". Digital tools used: "
                  ++ tools ++ py ".").
    split; reflexivity.
  - apply one_line_check. reflexivity.
  - rewrite flush_prefix by (apply one_line_check; reflexivity).
    rewrite flush_prefix by exact Hb.
    rewrite flush_prefix by (apply one_line_check; reflexivity).
    apply flush_suffix; [apply one_line_check; reflexivity | reflexivity | exact Ht].
Qed.

(** Flush concerns stay in the prompt. *)
Lemma dedent_keeps_concerns (business tools context concerns : str) :
  flush concerns = true ->
  infix concerns (dedent (prompt_text business tools context concerns)).
Proof.
  intros Hc. rewrite prompt_text_concerns_line.
  eapply infix_trans; [| apply dedent_keeps_flush_text].
  - exists (py "User-stated concerns: "), []. rewrite app_nil_r. reflexivity.
  - exists 85, (py "ser-stated concerns: " ++ concerns). split; reflexivity.
  - apply one_line_check. reflexivity.
  - rewrite flush_prefix by (apply one_line_check; reflexivity). exact Hc.
Qed.

(** A text on one line is flush. *)
Lemma one_line_flush (s : str) : one_line s -> flush s = true.
Proof.
  intros H. unfold flush. rewrite (split_on_no_sep _ _ H). reflexivity.
Qed.

(** C5, as stated, fails.  A form submits the tools [POS]: the prompt
    holds [pos] and nowhere [POS].  And concerns on two lines, the second
    one indented, lose that indentation in the prompt. *)
Lemma prompt_does_not_hold_submitted_tools :
  dict_get (form_vendor (py "POS") (py "theft")) (py "tools") [] = py "POS"
  /\ mem (form_business_type (form_vendor (py "POS") (py "theft")))
         allowed_types = true
  /\ contains (request_prompt (form_vendor (py "POS") (py "theft")) [])
              (py "POS") = false
  /\ contains (request_prompt (form_vendor (py "POS") (py "theft")) [])
              (py "pos") = true
  /\ contains (request_prompt
                 (form_vendor (py "pos") (py "theft" ++ nl ++ py " fraud")) [])
              (py "theft" ++ nl ++ py " fraud") = false.
Proof.
  repeat split; vm_compute; reflexivity.
Qed.

(** C5, amended.  For a form whose business type is allowed, the prompt
    of the request contains the title-cased business type; it contains
    the tools string as the handler reads it (trimmed and lower-cased,
    not split) when no line of that string after the first begins with
    whitespace; and it contains the trimmed concerns, or the default
    phrase when they are empty, when no line of them after the first
    begins with whitespace.  A string on one line is such a string. *)
Theorem prompt_contains_fields :
  forall (form : list (str * str)) (context : str),
    In (form_business_type form) allowed_types ->
    contains (request_prompt form context)
             (title (form_business_type form)) = true
    /\ (flush (form_tools form) = true ->
        contains (request_prompt form context) (form_tools form) = true)
    /\ (flush (form_concerns form) = true ->
        contains (request_prompt form context)
                 (stated_concerns (form_concerns form)) = true)
    /\ (forall s : str, one_line s -> flush s = true).
Proof.
  intros form context Hbt.
  assert (Hb : one_line (title (form_business_type form))).
  { destruct Hbt as [<- | [<- | []]]; apply one_line_check; reflexivity. }
  unfold request_prompt. rewrite final_prompt_unfold.
  split; [| split; [| split]].
  - apply contains_spec, infix_app_l, dedent_keeps_business, Hb.
  - intros Ht.
    apply contains_spec, infix_app_l, dedent_keeps_tools; assumption.
  - intros Hc.
    apply contains_spec, infix_app_l, dedent_keeps_concerns.
    unfold stated_concerns.
    destruct (form_concerns form); [reflexivity | exact Hc].
  - exact one_line_flush.
Qed.

Lemma prompt_contains_fields_witness :
  contains (request_prompt
              (form_vendor (py "POS, Paystack")
                 (py " theft" ++ nl ++ py "fake alerts ")) [])
           (py "Whatsapp Vendor") = true
  /\ contains (request_prompt
                 (form_vendor (py "POS, Paystack")
                    (py " theft" ++ nl ++ py "fake alerts ")) [])
              (py "pos, paystack") = true
  /\ contains (request_prompt
                 (form_vendor (py "POS, Paystack")
                    (py " theft" ++ nl ++ py "fake alerts ")) [])
              (py "theft" ++ nl ++ py "fake alerts") = true.
Proof.
  assert (Hbt : In (form_business_type
                      (form_vendor (py "POS, Paystack")
                         (py " theft" ++ nl ++ py "fake alerts ")))
                   allowed_types) by (left; reflexivity).
  destruct (prompt_contains_fields
              (form_vendor (py "POS, Paystack")
                 (py " theft" ++ nl ++ py "fake alerts ")) [] Hbt)
    as (H1 & H2 & H3 & _).
  split; [exact H1 | split].
  - apply H2. reflexivity.
  - apply H3. reflexivity.
Defined.

(* ================================================================== *)
(** * The case of the tools *)

(** ** Trimming *)

Lemma dropwhile_head (p : N -> bool) (s : str) :
  dropwhile p s = []
  \/ exists c r, dropwhile p s = c :: r /\ p c = false.
Proof.
  induction s as [|c s IH]; [left; reflexivity |].
  cbn [dropwhile]. destruct (p c) eqn:E; [exact IH |].
  right. exists c, s. split; [reflexivity | exact E].
Qed.

Lemma dropwhile_snoc (p : N -> bool) (a : str) (c : N) :
  p c = false -> dropwhile p (a ++ [c]) = dropwhile p a ++ [c].
Proof.
  intros Hc. induction a as [|x a IH]; cbn [app dropwhile].
  - rewrite Hc. reflexivity.
  - destruct (p x); [exact IH | reflexivity].
Qed.

Lemma dropwhile_all (p : N -> bool) (s : str) :
  forallb p s = true -> dropwhile p s = [].
Proof.
  induction s as [|c s IH]; [reflexivity |].
  cbn [forallb dropwhile]. intros H. apply andb_true_iff in H.
  destruct H as [Hc Hs]. rewrite Hc. exact (IH Hs).
Qed.

(** A trimmed string is empty or begins and ends with a character that
    is not whitespace. *)
Lemma strip_ends (s : str) :
  strip s = []
  \/ exists c m d, (strip s = c :: m /\ isspace c = false)
                   /\ (strip s = m ++ [d] \/ exists m', strip s = m' ++ [d])
                   /\ isspace d = false.
Proof.
  unfold strip, rstrip, lstrip.
  destruct (dropwhile_head isspace s) as [-> | (c & r & -> & Hc)];
    [left; reflexivity |].
  cbn [rev]. rewrite (dropwhile_snoc isspace (rev r) c Hc).
  rewrite rev_app_distr. cbn [rev app].
  right.
  destruct (dropwhile_head isspace (rev r)) as [E | (d & r' & E & Hd)];
    rewrite E.
  - exists c, [], c. repeat split; try assumption.
    right. exists []. reflexivity.
  - exists c, (rev (d :: r')), d. repeat split; try assumption.
    right. exists (c :: rev r'). cbn [rev]. reflexivity.
Qed.

Lemma dropwhile_app_all (p : N -> bool) (a b : str) :
  forallb p a = true -> dropwhile p (a ++ b) = dropwhile p b.
Proof.
  induction a as [|c a IH]; [reflexivity |].
  cbn [forallb app dropwhile]. intros H. apply andb_true_iff in H.
  destruct H as [Hc Ha]. rewrite Hc. exact (IH Ha).
Qed.

(** Whitespace around a string that begins and ends with other
    characters is what trimming removes. *)
Lemma strip_padded (pre post m : str) (c d : N) (m' : str) :
  forallb isspace pre = true -> forallb isspace post = true ->
  isspace c = false -> isspace d = false ->
  c :: m = m' ++ [d] ->
  strip (pre ++ (c :: m) ++ post) = c :: m.
Proof.
  intros Hpre Hpost Hc Hd E. unfold strip, lstrip, rstrip.
  rewrite (dropwhile_app_all isspace pre _ Hpre).
  cbn [app dropwhile]. rewrite Hc.
  change (c :: m ++ post) with ((c :: m) ++ post).
  rewrite rev_app_distr.
  rewrite dropwhile_app_all
    by (apply forallb_forall; intros x Hx; apply in_rev in Hx;
        rewrite forallb_forall in Hpost; exact (Hpost x Hx)).
  rewrite E, rev_app_distr. cbn [rev app dropwhile]. rewrite Hd.
  cbn [rev]. rewrite rev_involutive. reflexivity.
Qed.

Lemma strip_blank (s : str) : forallb isspace s = true -> strip s = [].
Proof.
  intros H. unfold strip, rstrip, lstrip. rewrite (dropwhile_all _ _ H).
  reflexivity.
Qed.

(** ** The case tables *)

Lemma map_char_cases (t : list (N * N * N)) (c : N) :
  map_char t c = c
  \/ exists e, In e t
               /\ fst (domain e) <= c <= snd (domain e)
               /\ fst (image e) <= map_char t c <= snd (image e).
Proof.
  induction t as [|[[a b] d] t IH]; [left; reflexivity |].
  cbn [map_char].
  destruct (N.ltb_spec c a) as [Hlt | Hge]; [left; reflexivity |].
  destruct (N.leb_spec c b) as [Hle | Hgt].
  - right. exists (a, b, d). split; [left; reflexivity |].
    cbn [domain image fst snd]. lia.
  - destruct IH as [IH | (e & He & H1 & H2)]; [left; exact IH |].
    right. exists e. split; [right; exact He | split; assumption].
Qed.

Lemma in_ranges_cases (t : list (N * N)) (c : N) :
  in_ranges t c = true -> exists r, In r t /\ fst r <= c <= snd r.
Proof.
  induction t as [|[a b] t IH]; cbn [in_ranges]; [discriminate |].
  destruct (N.ltb_spec c a) as [Hlt | Hge]; [discriminate |].
  destruct (N.leb_spec c b) as [Hle | Hgt].
  - intros _. exists (a, b). split; [left; reflexivity | cbn [fst snd]; lia].
  - intros H. destruct (IH H) as (r & Hr & Hc).
    exists r. split; [right; exact Hr | exact Hc].
Qed.

Lemma apart_spec (l1 l2 : list (N * N)) (r1 r2 : N * N) (c : N) :
  apart l1 l2 = true -> In r1 l1 -> In r2 l2 ->
  fst r1 <= c <= snd r1 -> fst r2 <= c <= snd r2 -> False.
Proof.
  unfold apart. rewrite forallb_forall. intros H H1 H2 Hc1 Hc2.
  specialize (H r1 H1). rewrite forallb_forall in H. specialize (H r2 H2).
  apply orb_true_iff in H. rewrite !N.ltb_lt in H. lia.
Qed.

Ltac pick_range l :=
  match l with
  | ?r :: ?l' =>
      first [ solve [ exists r; split; [cbn; tauto | cbn [fst snd]; lia] ]
            | pick_range l' ]
  end.

Lemma separator_ranges (c : N) :
  separator c = true -> exists r, In r separators /\ fst r <= c <= snd r.
Proof.
  unfold separator, isspace.
  rewrite !orb_true_iff, !andb_true_iff, !N.eqb_eq, !N.leb_le. intros H.
  repeat match goal with
         | H : _ \/ _ |- _ => destruct H as [H | H]
         end;
    let l := eval unfold separators in separators in pick_range l.
Qed.

Lemma isspace_separator (c : N) : isspace c = true -> separator c = true.
Proof. intros H. unfold separator. rewrite H. reflexivity. Qed.

Lemma lower_domain_separators :
  apart (map domain UnicodeData.lower_table) separators = true.
Proof. vm_compute. reflexivity. Qed.

Lemma lower_image_separators :
  apart (map image UnicodeData.lower_table) separators = true.
Proof. vm_compute. reflexivity. Qed.

Lemma lower_image_domain :
  apart (map image UnicodeData.lower_table)
        (map domain UnicodeData.lower_table) = true.
Proof. vm_compute. reflexivity. Qed.

Lemma lower_image_special :
  apart (map image UnicodeData.lower_table) [(304, 304); (931, 931)] = true.
Proof. vm_compute. reflexivity. Qed.

Lemma cased_separators :
  apart UnicodeData.cased_ranges separators = true.
Proof. vm_compute. reflexivity. Qed.

Lemma case_ignorable_separators :
  apart UnicodeData.case_ignorable_ranges separators = true.
Proof. vm_compute. reflexivity. Qed.

Lemma separators_special :
  apart separators [(304, 304); (931, 931)] = true.
Proof. vm_compute. reflexivity. Qed.

(** A separator has no case: it is its own lower-case form, it is not
    cased and not case-ignorable. *)
Lemma to_lower_separator (c : N) :
  separator c = true -> map_char UnicodeData.lower_table c = c.
Proof.
  intros Hc. apply separator_ranges in Hc. destruct Hc as (r & Hr & Hc).
  destruct (map_char_cases UnicodeData.lower_table c)
    as [H | (e & He & Hd & _)]; [exact H |].
  exfalso.
  exact (apart_spec _ _ _ _ c lower_domain_separators
           (in_map domain _ _ He) Hr Hd Hc).
Qed.

Lemma separator_not_special (c : N) :
  separator c = true -> c <> 304 /\ c <> 931.
Proof.
  intros Hc. apply separator_ranges in Hc. destruct Hc as (r & Hr & Hc).
  split; intros ->.
  - apply (apart_spec _ _ _ (304, 304) 304 separators_special Hr);
      [left; reflexivity | exact Hc | cbn; lia].
  - apply (apart_spec _ _ _ (931, 931) 931 separators_special Hr);
      [right; left; reflexivity | exact Hc | cbn; lia].
Qed.

Lemma separator_not_cased (c : N) :
  separator c = true -> is_cased c = false /\ is_case_ignorable c = false.
Proof.
  intros Hc. apply separator_ranges in Hc. destruct Hc as (r & Hr & Hc).
  split.
  - destruct (is_cased c) eqn:E; [| reflexivity].
    apply in_ranges_cases in E. destruct E as (r' & Hr' & Hc').
    destruct (apart_spec _ _ _ _ c cased_separators Hr' Hr Hc' Hc).
  - destruct (is_case_ignorable c) eqn:E; [| reflexivity].
    apply in_ranges_cases in E. destruct E as (r' & Hr' & Hc').
    destruct (apart_spec _ _ _ _ c case_ignorable_separators Hr' Hr Hc' Hc).
Qed.

(** The lower-case form of a character that is not a separator is not
    a separator. *)
Lemma to_lower_not_separator (c : N) :
  separator c = false ->
  separator (map_char UnicodeData.lower_table c) = false.
Proof.
  intros Hc.
  destruct (map_char_cases UnicodeData.lower_table c)
    as [H | (e & He & _ & Hi)]; [rewrite H; exact Hc |].
  destruct (separator (map_char UnicodeData.lower_table c)) eqn:E;
    [| reflexivity].
  apply separator_ranges in E. destruct E as (r & Hr & Hx).
  destruct (apart_spec _ _ _ _ _ lower_image_separators
              (in_map image _ _ He) Hr Hi Hx).
Qed.

(** A lower-case form has no other lower-case form. *)
Lemma to_lower_idem (c : N) :
  map_char UnicodeData.lower_table (map_char UnicodeData.lower_table c)
  = map_char UnicodeData.lower_table c.
Proof.
  destruct (map_char_cases UnicodeData.lower_table c)
    as [H | (e & He & _ & Hi)]; [rewrite !H; reflexivity |].
  destruct (map_char_cases UnicodeData.lower_table
              (map_char UnicodeData.lower_table c))
    as [H | (e' & He' & Hd & _)]; [exact H |].
  destruct (apart_spec _ _ _ _ _ lower_image_domain
              (in_map image _ _ He) (in_map domain _ _ He') Hi Hd).
Qed.

Lemma to_lower_not_special (c : N) :
  c <> 304 -> c <> 931 ->
  map_char UnicodeData.lower_table c <> 304
  /\ map_char UnicodeData.lower_table c <> 931.
Proof.
  intros H1 H2.
  destruct (map_char_cases UnicodeData.lower_table c)
    as [H | (e & He & _ & Hi)]; [rewrite H; split; assumption |].
  split; intros E; rewrite E in Hi.
  - apply (apart_spec _ _ _ (304, 304) 304 lower_image_special
             (in_map image _ _ He));
      [left; reflexivity | exact Hi | cbn; lia].
  - apply (apart_spec _ _ _ (931, 931) 931 lower_image_special
             (in_map image _ _ He));
      [right; left; reflexivity | exact Hi | cbn; lia].
Qed.

(** The mappings at work: the Kelvin sign is a capital k, a capital
    sigma that ends a word has its final form, the dotted capital I
    becomes an i and a combining dot, and the title-case form of the
    sharp s has two letters. *)
Lemma case_mapping_examples :
  lower (py "BAN" ++ [8490] ++ py " APP") = py "bank app"
  /\ lower [927; 916; 927; 931] = [959; 948; 959; 962]
  /\ lower [931] = [963]
  /\ lower [304] = [105; 775]
  /\ title (py "street trader") = py "Street Trader"
  /\ title [223; 115] = [83; 115; 115].
Proof. vm_compute. repeat split. Qed.

(** ** One character *)

Lemma lower_ucs4_separator (before after : str) (c : N) :
  separator c = true -> lower_ucs4 before after c = [c].
Proof.
  intros Hc. destruct (separator_not_special c Hc) as [H1 H2].
  unfold lower_ucs4, to_lower_full.
  apply N.eqb_neq in H1, H2. rewrite H1, H2.
  rewrite (to_lower_separator c Hc). reflexivity.
Qed.

Lemma lower_ucs4_not_nil (before after : str) (c : N) :
  lower_ucs4 before after c <> [].
Proof.
  unfold lower_ucs4, to_lower_full.
  destruct (c =? 931); [discriminate |].
  destruct (c =? 304); discriminate.
Qed.

Lemma lower_ucs4_cases (before after : str) (c x : N) :
  In x (lower_ucs4 before after c) ->
  x = 962 \/ x = 963 \/ x = 105 \/ x = 775
  \/ (c <> 304 /\ c <> 931 /\ x = map_char UnicodeData.lower_table c).
Proof.
  unfold lower_ucs4, to_lower_full.
  destruct (N.eqb_spec c 931) as [-> | H931].
  - destruct (final_sigma before after); intros [<- | []]; auto.
  - destruct (N.eqb_spec c 304) as [-> | H304].
    + intros [<- | [<- | []]]; auto.
    + intros [<- | []]. do 4 right. repeat split; assumption.
Qed.

(** The lower-case form of a character that is not a separator holds
    no separator, and that of a character that is not whitespace holds
    no whitespace. *)
Lemma lower_ucs4_not_separator (before after : str) (c x : N) :
  separator c = false -> In x (lower_ucs4 before after c) ->
  separator x = false.
Proof.
  intros Hc Hx. apply lower_ucs4_cases in Hx.
  destruct Hx as [-> | [-> | [-> | [-> | (_ & _ & ->)]]]];
    try reflexivity.
  exact (to_lower_not_separator c Hc).
Qed.

Lemma separator_false (x : N) :
  separator x = false -> isspace x = false /\ x <> 44.
Proof.
  unfold separator. intros H. apply orb_false_iff in H.
  destruct H as [H1 H2]. split; [exact H1 | apply N.eqb_neq; exact H2].
Qed.

Lemma lower_ucs4_not_space (before after : str) (c x : N) :
  isspace c = false -> In x (lower_ucs4 before after c) ->
  isspace x = false.
Proof.
  intros Hc Hx. destruct (separator c) eqn:E.
  - rewrite (lower_ucs4_separator before after c E) in Hx.
    destruct Hx as [<- | []]. exact Hc.
  - exact (proj1 (separator_false x
                    (lower_ucs4_not_separator before after c x E Hx))).
Qed.

(** The characters of a lower-case form are their own lower-case form,
    wherever they stand. *)
Lemma lower_ucs4_stable (before after : str) (c x : N) :
  In x (lower_ucs4 before after c) ->
  forall before' after', lower_ucs4 before' after' x = [x].
Proof.
  intros Hx before' after'. apply lower_ucs4_cases in Hx.
  destruct Hx as [-> | [-> | [-> | [-> | (H304 & H931 & ->)]]]];
    try reflexivity.
  destruct (to_lower_not_special c H304 H931) as [H1 H2].
  unfold lower_ucs4, to_lower_full.
  apply N.eqb_neq in H1, H2. rewrite H1, H2.
  rewrite to_lower_idem. reflexivity.
Qed.

(** ** The final sigma *)

(** What lies beyond a separator does not count. *)
Lemma final_sigma_before (b0 : str) (k : N) (b after : str) :
  separator k = true ->
  final_sigma (b0 ++ k :: b) after = final_sigma b0 after.
Proof.
  intros Hk. destruct (separator_not_cased k Hk) as [Hcased Hign].
  unfold final_sigma.
  induction b0 as [|c b0 IH]; cbn [app dropwhile].
  - rewrite Hign, Hcased. reflexivity.
  - destruct (is_case_ignorable c); [exact IH | reflexivity].
Qed.

Lemma final_sigma_after (before a0 : str) (k : N) (a : str) :
  separator k = true ->
  final_sigma before (a0 ++ k :: a) = final_sigma before a0.
Proof.
  intros Hk. destruct (separator_not_cased k Hk) as [Hcased Hign].
  unfold final_sigma.
  destruct (dropwhile is_case_ignorable before) as [|c r]; [reflexivity |].
  f_equal.
  induction a0 as [|x a0 IH]; cbn [app dropwhile].
  - rewrite Hign, Hcased. reflexivity.
  - destruct (is_case_ignorable x); [exact IH | reflexivity].
Qed.

(** ** A string *)

Lemma do_lower_app (before x y after : str) :
  do_lower before (x ++ y) after
  = do_lower before x (y ++ after) ++ do_lower (rev x ++ before) y after.
Proof.
  revert before. induction x as [|c x IH]; intros before;
    cbn [app do_lower rev]; [reflexivity |].
  rewrite IH, <- !app_assoc. reflexivity.
Qed.

Lemma do_lower_after (before s : str) (k : N) (after : str) :
  separator k = true ->
  do_lower before s (k :: after) = do_lower before s [].
Proof.
  intros Hk. revert before. induction s as [|c s IH]; intros before;
    cbn [do_lower]; [reflexivity |].
  rewrite IH. f_equal. unfold lower_ucs4.
  destruct (c =? 931); [| reflexivity].
  rewrite (final_sigma_after before s k after Hk), app_nil_r. reflexivity.
Qed.

Lemma do_lower_before (b0 : str) (k : N) (b s after : str) :
  separator k = true ->
  do_lower (b0 ++ k :: b) s after = do_lower b0 s after.
Proof.
  intros Hk. revert b0. induction s as [|c s IH]; intros b0;
    cbn [do_lower]; [reflexivity |].
  change (c :: b0 ++ k :: b) with ((c :: b0) ++ k :: b).
  rewrite IH. f_equal. unfold lower_ucs4.
  destruct (c =? 931); [| reflexivity].
  rewrite (final_sigma_before b0 k b _ Hk). reflexivity.
Qed.

(** A string between separators is lower-cased as it is alone. *)
Lemma do_lower_between (before s after : str) :
  forallb separator before = true -> forallb separator after = true ->
  do_lower before s after = lower s.
Proof.
  intros Hb Ha. unfold lower.
  destruct after as [|k after].
  - destruct before as [|k before]; [reflexivity |].
    cbn [forallb] in Hb. apply andb_true_iff in Hb.
    exact (do_lower_before [] k before s [] (proj1 Hb)).
  - cbn [forallb] in Ha. apply andb_true_iff in Ha.
    rewrite (do_lower_after before s k after (proj1 Ha)).
    destruct before as [|k' before]; [reflexivity |].
    cbn [forallb] in Hb. apply andb_true_iff in Hb.
    exact (do_lower_before [] k' before s [] (proj1 Hb)).
Qed.

Lemma do_lower_separators (before s after : str) :
  forallb separator s = true -> do_lower before s after = s.
Proof.
  revert before. induction s as [|c s IH]; intros before;
    cbn [forallb do_lower]; [reflexivity |].
  intros H. apply andb_true_iff in H. destruct H as [Hc Hs].
  rewrite (lower_ucs4_separator _ _ c Hc), (IH _ Hs). reflexivity.
Qed.

Lemma do_lower_In (before s after : str) (x : N) :
  In x (do_lower before s after) ->
  exists c before' after', In c s /\ In x (lower_ucs4 before' after' c).
Proof.
  revert before. induction s as [|c s IH]; intros before;
    cbn [do_lower]; [intros [] |].
  intros H. apply in_app_or in H. destruct H as [H | H].
  - exists c, before, (s ++ after). split; [left; reflexivity | exact H].
  - destruct (IH _ H) as (c' & b' & a' & Hc' & Hx).
    exists c', b', a'. split; [right; exact Hc' | exact Hx].
Qed.

Lemma do_lower_stable (before s after : str) :
  (forall x, In x s -> forall b a, lower_ucs4 b a x = [x]) ->
  do_lower before s after = s.
Proof.
  revert before. induction s as [|c s IH]; intros before H;
    cbn [do_lower]; [reflexivity |].
  rewrite (H c (or_introl eq_refl)), IH; [reflexivity |].
  intros x Hx. exact (H x (or_intror Hx)).
Qed.

(** Lower-casing twice is lower-casing once. *)
Lemma lower_idem (s : str) : lower (lower s) = lower s.
Proof.
  unfold lower at 1. apply do_lower_stable. intros x Hx.
  apply do_lower_In in Hx. destruct Hx as (c & b & a & _ & Hx).
  exact (lower_ucs4_stable b a c x Hx).
Qed.

Lemma forallb_isspace_separator (s : str) :
  forallb isspace s = true -> forallb separator s = true.
Proof.
  rewrite !forallb_forall. intros H x Hx.
  apply isspace_separator, H, Hx.
Qed.

Lemma forallb_rev (p : N -> bool) (s : str) :
  forallb p s = true -> forallb p (rev s) = true.
Proof.
  rewrite !forallb_forall. intros H x Hx. apply H, in_rev, Hx.
Qed.

(** Lower-casing leaves the separators where they are: the string on
    each side of one is lower-cased as it is alone. *)
Lemma lower_app_separator (x : str) (k : N) (y : str) :
  separator k = true -> lower (x ++ k :: y) = lower x ++ k :: lower y.
Proof.
  intros Hk. unfold lower. rewrite do_lower_app. cbn [do_lower app].
  rewrite !app_nil_r.
  rewrite (do_lower_after [] x k y Hk).
  rewrite (lower_ucs4_separator _ _ k Hk).
  pose proof (do_lower_before [] k (rev x) y [] Hk) as Hb.
  cbn [app] in Hb. rewrite Hb. reflexivity.
Qed.

Lemma lower_padded (pre m post : str) :
  forallb isspace pre = true -> forallb isspace post = true ->
  lower (pre ++ m ++ post) = pre ++ lower m ++ post.
Proof.
  intros Hpre Hpost.
  apply forallb_isspace_separator in Hpre, Hpost.
  unfold lower at 1. rewrite !do_lower_app, !app_nil_r.
  rewrite (do_lower_separators _ pre _ Hpre).
  rewrite (do_lower_separators _ post _ Hpost).
  rewrite (do_lower_between (rev pre) m post (forallb_rev _ _ Hpre) Hpost).
  reflexivity.
Qed.

(** The lower-case form of a string begins and ends with whitespace
    when the string does, and only then. *)
Lemma lower_head (c : N) (m : str) :
  exists x r, lower (c :: m) = x :: r /\ In x (lower_ucs4 [] m c)
              /\ (isspace c = true -> x = c).
Proof.
  unfold lower. cbn [do_lower]. rewrite app_nil_r.
  destruct (lower_ucs4 [] m c) as [|x t] eqn:E;
    [destruct (lower_ucs4_not_nil [] m c E) |].
  exists x, (t ++ do_lower [c] m []).
  split; [reflexivity | split; [left; reflexivity |]].
  intros Hc.
  rewrite (lower_ucs4_separator _ _ c (isspace_separator c Hc)) in E.
  congruence.
Qed.

Lemma lower_last (m : str) (d : N) :
  exists r x, lower (m ++ [d]) = r ++ [x] /\ In x (lower_ucs4 (rev m) [] d)
              /\ (isspace d = true -> x = d).
Proof.
  unfold lower. rewrite do_lower_app. cbn [do_lower app].
  rewrite !app_nil_r.
  destruct (exists_last (lower_ucs4_not_nil (rev m) [] d)) as (t & x & E).
  exists (do_lower [] m [d] ++ t), x.
  rewrite E, app_assoc.
  split; [reflexivity | split; [apply in_or_app; right; left; reflexivity |]].
  intros Hd.
  rewrite (lower_ucs4_separator _ _ d (isspace_separator d Hd)) in E.
  change [d] with ([] ++ [d]) in E. apply app_inj_tail in E.
  symmetry. apply E.
Qed.

Lemma lower_nil : lower [] = [].
Proof. reflexivity. Qed.

Lemma dropwhile_decompose (p : N -> bool) (s : str) :
  exists pre, s = pre ++ dropwhile p s /\ forallb p pre = true.
Proof.
  induction s as [|c s IH]; [exists []; split; reflexivity |].
  cbn [dropwhile]. destruct (p c) eqn:E.
  - destruct IH as (pre & Hs & Hpre). exists (c :: pre).
    split; [cbn [app]; rewrite <- Hs; reflexivity |].
    cbn [forallb]. rewrite E, Hpre. reflexivity.
  - exists []. split; reflexivity.
Qed.

(** A string is what trimming keeps of it, between two runs of
    whitespace. *)
Lemma strip_decompose (s : str) :
  exists pre post,
    s = pre ++ strip s ++ post
    /\ forallb isspace pre = true /\ forallb isspace post = true.
Proof.
  destruct (dropwhile_decompose isspace s) as (pre & Hs & Hpre).
  destruct (dropwhile_decompose isspace (rev (lstrip s))) as (q & Hr & Hq).
  exists pre, (rev q). split; [| split; [exact Hpre | apply forallb_rev, Hq]].
  unfold strip, rstrip.
  rewrite <- rev_app_distr, <- Hr, rev_involutive. exact Hs.
Qed.

(** Trimming and lower-casing commute. *)
Lemma strip_lower (s : str) : strip (lower s) = lower (strip s).
Proof.
  destruct (strip_decompose s) as (pre & post & Hs & Hpre & Hpost).
  rewrite Hs at 1. rewrite (lower_padded pre (strip s) post Hpre Hpost).
  destruct (strip_ends s) as [E | (c & m & d & [E Hc] & Hlast & Hd)].
  - rewrite E. cbn [app]. rewrite lower_nil. cbn [app]. apply strip_blank.
    rewrite forallb_app, Hpre, Hpost. reflexivity.
  - assert (Hlast' : exists m', strip s = m' ++ [d]).
    { destruct Hlast as [H | H]; [exists m; exact H | exact H]. }
    destruct Hlast' as [m' E'].
    destruct (lower_head c m) as (x & r & Ex & Hx & _).
    destruct (lower_last m' d) as (r' & y & Ey & Hy & _).
    rewrite <- E in Ex. rewrite <- E' in Ey.
    rewrite Ex.
    apply (strip_padded pre post r x y r' Hpre Hpost).
    + exact (lower_ucs4_not_space _ _ c x Hc Hx).
    + exact (lower_ucs4_not_space _ _ d y Hd Hy).
    + rewrite <- Ex. exact Ey.
Qed.

Lemma comma_decompose (s : str) :
  ~ In 44 s \/ exists x y, s = x ++ 44 :: y /\ ~ In 44 x.
Proof.
  induction s as [|c s IH]; [left; intros [] |].
  destruct (N.eq_dec c 44) as [-> | Hc].
  - right. exists [], s. split; [reflexivity | intros []].
  - destruct IH as [IH | (x & y & -> & Hx)].
    + left. intros [E | H]; [exact (Hc E) | exact (IH H)].
    + right. exists (c :: x), y. split; [reflexivity |].
      intros [E | H]; [exact (Hc E) | exact (Hx H)].
Qed.

(** Lower-casing makes no comma and removes none. *)
Lemma lower_no_comma (s : str) : ~ In 44 s -> ~ In 44 (lower s).
Proof.
  intros H Hin. unfold lower in Hin. apply do_lower_In in Hin.
  destruct Hin as (c & b & a & Hc & Hx).
  destruct (separator c) eqn:E.
  - rewrite (lower_ucs4_separator b a c E) in Hx.
    destruct Hx as [Ec | []]. rewrite Ec in Hc. exact (H Hc).
  - pose proof (lower_ucs4_not_separator b a c 44 E Hx) as H44.
    discriminate H44.
Qed.

(** Splitting at the commas and lower-casing commute. *)
Lemma split_on_comma_lower (s : str) :
  split_on 44 (lower s) = map lower (split_on 44 s).
Proof.
  remember (List.length s) as n eqn:Hn.
  revert s Hn. induction n as [n IH] using lt_wf_ind. intros s Hn.
  destruct (comma_decompose s) as [H | (x & y & -> & Hx)].
  - rewrite (split_on_no_sep 44 s H).
    rewrite (split_on_no_sep 44 (lower s) (lower_no_comma s H)). reflexivity.
  - rewrite (lower_app_separator x 44 y eq_refl).
    rewrite !split_on_app_sep.
    rewrite (split_on_no_sep 44 x Hx).
    rewrite (split_on_no_sep 44 (lower x) (lower_no_comma x Hx)).
    cbn [app map]. f_equal.
    apply (IH (List.length y)); [| reflexivity].
    subst n. rewrite length_app. cbn [List.length]. lia.
Qed.

Lemma is_empty_lower (s : str) : is_empty (lower s) = is_empty s.
Proof.
  destruct s as [|c m]; [reflexivity |].
  destruct (lower_head c m) as (x & r & E & _). rewrite E. reflexivity.
Qed.

Lemma filter_map_commute {A B : Type} (f : A -> B) (p : B -> bool) (l : list A) :
  filter p (map f l) = map f (filter (fun x => p (f x)) l).
Proof.
  induction l as [|x l IH]; cbn [map filter]; [reflexivity |].
  destruct (p (f x)); cbn [map]; rewrite IH; reflexivity.
Qed.

(** The entries of the lower-cased string are the lower-cased entries. *)
Lemma tool_list_lower (s : str) :
  tool_list (lower s) = map lower (tool_list s).
Proof.
  unfold tool_list. rewrite split_on_comma_lower, filter_map_commute.
  rewrite !map_map.
  rewrite (filter_ext (fun x => negb (is_empty (strip (lower x))))
                      (fun t => negb (is_empty (strip t))))
    by (intros x; rewrite strip_lower, is_empty_lower; reflexivity).
  apply map_ext. intros x. apply strip_lower.
Qed.

(** The recognized tools are written in lower case. *)
Lemma valid_tools_lower_case (t : str) : In t valid_tools -> lower t = t.
Proof.
  intros H.
  repeat (destruct H as [<- | H]; [vm_compute; reflexivity |]). destruct H.
Qed.

(** C10.  The entries the handler checks are the lower-cased entries of
    the submitted tools string, and every recognized tool is in lower
    case; so an entry that differs from a recognized tool only in the
    case of its letters (the two have the same lower-case form) is not
    among the unrecognized ones, and when every entry is such, the
    prompt does not end with the advisory clause. *)
Theorem tool_recognition_ignores_case :
  forall (form : list (str * str)),
    let submitted := strip (dict_get form (py "tools") []) in
    tool_list (form_tools form) = map lower (tool_list submitted)
    /\ (forall t, In t valid_tools -> lower t = t)
    /\ (forall entry tool : str,
          In entry (tool_list submitted) ->
          In tool valid_tools ->
          same_up_to_case entry tool ->
          In (lower entry) (tool_list (form_tools form))
          /\ ~ In (lower entry) (unrecognized (form_tools form)))
    /\ ((forall entry, In entry (tool_list submitted) ->
           exists tool, In tool valid_tools /\ same_up_to_case entry tool) ->
        forall context : str,
          endswith (request_prompt form context) extra_note = false).
Proof.
  intros form submitted.
  assert (Hlist : tool_list (form_tools form) = map lower (tool_list submitted)).
  { unfold form_tools, submitted. apply tool_list_lower. }
  split; [exact Hlist |].
  split; [exact valid_tools_lower_case |].
  split.
  - intros entry tool Hentry Htool Hcase.
    split; [rewrite Hlist; apply in_map; exact Hentry |].
    unfold unrecognized. rewrite filter_In. intros [_ Hneg].
    unfold same_up_to_case in Hcase.
    rewrite (valid_tools_lower_case tool Htool) in Hcase. rewrite Hcase in Hneg.
    apply mem_In in Htool. rewrite Htool in Hneg. discriminate.
  - intros Hall context.
    destruct (endswith (request_prompt form context) extra_note) eqn:E;
      [| reflexivity].
    apply advisory_clause_iff_unrecognized, unrecognized_spec in E.
    destruct E as (t & Hin & Hnot).
    rewrite Hlist in Hin. apply in_map_iff in Hin.
    destruct Hin as (entry & <- & Hentry).
    destruct (Hall entry Hentry) as (tool & Htool & Hcase).
    unfold same_up_to_case in Hcase.
    rewrite (valid_tools_lower_case tool Htool) in Hcase.
    rewrite Hcase in Hnot. contradiction.
Qed.

Lemma tool_recognition_ignores_case_witness :
  tool_list (form_tools
               (form_vendor (py " WhatsApp, POS ,BAN" ++ [8490] ++ py " APP,") []))
    = [py "whatsapp"; py "pos"; py "bank app"]
  /\ endswith (request_prompt
                 (form_vendor (py " WhatsApp, POS ,BAN" ++ [8490] ++ py " APP,") [])
                 [])
              extra_note = false.
Proof.
  destruct (tool_recognition_ignores_case
              (form_vendor (py " WhatsApp, POS ,BAN" ++ [8490] ++ py " APP,") []))
    as (Hlist & _ & _ & Hall).
  split.
  - rewrite Hlist. vm_compute. reflexivity.
  - apply Hall. intros entry Hentry.
    vm_compute in Hentry.
    destruct Hentry as [<- | [<- | [<- | []]]].
    + exists (py "whatsapp").
      split; [vm_compute; tauto | vm_compute; reflexivity].
    + exists (py "pos").
      split; [vm_compute; tauto | vm_compute; reflexivity].
    + exists (py "bank app").
      split; [vm_compute; tauto | vm_compute; reflexivity].
Defined.

(* ================================================================== *)
(** * Further properties of the external generation client *)

(** X1.  No exception leaves [call_gemini_api]: whatever the key, the
    answer of the remote service or the failure of the request, the call
    returns a value. *)
Theorem call_gemini_api_never_raises :
  forall (prompt : str) (max_tokens : Z) (en : env),
    exists v : pyval, snd (call_gemini_api prompt max_tokens en) = Ok v.
Proof.
  intros prompt max_tokens en.
  destruct (GEMINI_API_KEY en) as [|k key] eqn:Ek.
  - rewrite call_gemini_api_no_key by assumption. eexists; reflexivity.
  - rewrite call_gemini_api_unfold by congruence. cbn [snd].
    destruct (answer_value _); eexists; reflexivity.
Qed.

(** X2.  [call_gemini_api] sends no request when the key is empty, and
    exactly one otherwise, whether the request fails or not: a POST to
    the configured endpoint, with the key in the [x-goog-api-key] header,
    a timeout of 60 seconds, and the prompt at
    [contents[0].parts[0].text] of the JSON payload. *)
Theorem call_gemini_api_sends_one_request :
  forall (prompt : str) (max_tokens : Z) (en : env),
    (GEMINI_API_KEY en = [] ->
       fst (call_gemini_api prompt max_tokens en) = [])
    /\ (GEMINI_API_KEY en <> [] ->
        exists rq : http_request,
          fst (call_gemini_api prompt max_tokens en) = [HttpPost rq]
          /\ req_url rq = GEMINI_ENDPOINT en
          /\ lookup (py "x-goog-api-key") (req_headers rq)
               = Some (GEMINI_API_KEY en)
          /\ lookup (py "Content-Type") (req_headers rq)
               = Some (py "application/json")
          /\ req_timeout rq = 60%Z
          /\ req_json rq
             = PyDict [ (py "contents",
                 PyList [ PyDict [ (py "parts",
                   PyList [ PyDict [ (py "text", PyStr prompt) ] ]) ] ]) ]).
Proof.
  intros prompt max_tokens en. split; intros Hkey.
  - rewrite call_gemini_api_no_key by assumption. reflexivity.
  - exists (gemini_request en prompt).
    rewrite call_gemini_api_unfold by assumption.
    repeat split; reflexivity.
Qed.

Lemma call_gemini_api_sends_one_request_witness :
  fst (call_gemini_api (py "hello") 800 env_no_key) = []
  /\ exists rq, fst (call_gemini_api (py "hello") 800
                       (sample_env (py "secret") false (Ok [])
                          (Raise (Exn RequestException (py "timed out")))))
                = [HttpPost rq]
                /\ req_timeout rq = 60%Z.
Proof.
  split.
  - exact (proj1 (call_gemini_api_sends_one_request (py "hello") 800 env_no_key)
             eq_refl).
  - destruct (proj2 (call_gemini_api_sends_one_request (py "hello") 800
                       (sample_env (py "secret") false (Ok [])
                          (Raise (Exn RequestException (py "timed out"))))))
      as (rq & Htrace & _ & _ & _ & Htimeout & _).
    + vm_compute. discriminate.
    + exists rq. split; assumption.
Defined.

Lemma raise_for_status_error (resp : http_response) :
  400 <= status_code resp < 600 ->
  raise_for_status resp
  = Raise (Exn RequestException
             (str_of_N (status_code resp)
                ++ (if status_code resp <? 500
                    then py " Client Error: " else py " Server Error: ")
                ++ reason resp ++ py " for url: " ++ resp_url resp)).
Proof.
  intros [Hlo Hhi]. unfold raise_for_status.
  replace (400 <=? status_code resp) with true
    by (symmetry; apply N.leb_le; exact Hlo).
  destruct (status_code resp <? 500) eqn:E5; cbn [andb].
  - destruct (str_of_N (status_code resp)); reflexivity.
  - apply N.ltb_ge in E5.
    replace (500 <=? status_code resp) with true
      by (symmetry; apply N.leb_le; exact E5).
    replace (status_code resp <? 600) with true
      by (symmetry; apply N.ltb_lt; exact Hhi).
    cbn [andb]. destruct (str_of_N (status_code resp)); reflexivity.
Qed.

(** X3.  When the remote service answers with a status from 400 to 599,
    [call_gemini_api] returns the string [[Error calling AI service]]
    followed by the status, [Client Error:] (below 500) or
    [Server Error:], the reason and the URL of the response; the body of
    the response plays no part. *)
Theorem call_gemini_api_http_error :
  forall (prompt : str) (max_tokens : Z) (en : env) (resp : http_response),
    GEMINI_API_KEY en <> [] ->
    http_post en (gemini_request en prompt) = Ok resp ->
    400 <= status_code resp < 600 ->
    snd (call_gemini_api prompt max_tokens en)
    = Ok (PyStr (py "[Error calling AI service] "
                   ++ str_of_N (status_code resp)
                   ++ (if status_code resp <? 500
                       then py " Client Error: " else py " Server Error: ")
                   ++ reason resp ++ py " for url: " ++ resp_url resp)).
Proof.
  intros prompt max_tokens en resp Hkey Hpost Hstatus.
  rewrite call_gemini_api_unfold by assumption. cbn [snd].
  unfold answer_value. rewrite Hpost.
  rewrite (raise_for_status_error resp Hstatus). reflexivity.
Qed.

Lemma call_gemini_api_http_error_witness :
  snd (call_gemini_api (py "hello") 800
         (sample_env (py "secret") false (Ok [])
            (Ok (sample_response 503 (Ok (success_body (PyStr (py "unused"))))))))
  = Ok (PyStr (py "[Error calling AI service] 503 Server Error: OK for url: https://generativelanguage.example/v1beta")).
Proof.
  refine (eq_trans
            (call_gemini_api_http_error (py "hello") 800
               (sample_env (py "secret") false (Ok [])
                  (Ok (sample_response 503 (Ok (success_body (PyStr (py "unused")))))))
               (sample_response 503 (Ok (success_body (PyStr (py "unused")))))
               _ eq_refl _) _).
  - vm_compute. discriminate.
  - vm_compute. split; [discriminate | reflexivity].
  - vm_compute. reflexivity.
Defined.

(** X4.  When the request itself fails, or the body of a successful
    answer cannot be decoded, [call_gemini_api] returns the text of the
    exception behind a prefix: [[Error calling AI service]] for an
    exception of the [requests] library, [[Unexpected error]] for any
    other. *)
Theorem call_gemini_api_reports_failure :
  forall (prompt : str) (max_tokens : Z) (en : env) (e : exn),
    GEMINI_API_KEY en <> [] ->
    (http_post en (gemini_request en prompt) = Raise e
     \/ exists resp, http_post en (gemini_request en prompt) = Ok resp
                     /\ status_code resp < 400
                     /\ resp_json resp = Raise e) ->
    snd (call_gemini_api prompt max_tokens en)
    = Ok (PyStr ((if is_request_exception e
                  then py "[Error calling AI service] "
                  else py "[Unexpected error] ") ++ exn_str e)).
Proof.
  intros prompt max_tokens en e Hkey Hfail.
  rewrite call_gemini_api_unfold by assumption. cbn [snd].
  assert (Ha : answer_value (http_post en (gemini_request en prompt)) = Raise e).
  { unfold answer_value. destruct Hfail as [-> | (resp & -> & Hs & Hj)].
    - reflexivity.
    - unfold raise_for_status.
      replace (400 <=? status_code resp) with false
        by (symmetry; apply N.leb_gt; exact Hs).
      replace (500 <=? status_code resp) with false
        by (symmetry; apply N.leb_gt; lia).
      cbn. rewrite Hj. reflexivity. }
  rewrite Ha. unfold error_string.
  destruct (is_request_exception e); reflexivity.
Qed.

Lemma call_gemini_api_reports_failure_witness :
  snd (call_gemini_api (py "hello") 800
         (sample_env (py "secret") false (Ok [])
            (Raise (Exn RequestException (py "timed out")))))
  = Ok (PyStr (py "[Error calling AI service] timed out"))
  /\ snd (call_gemini_api (py "hello") 800
            (sample_env (py "secret") false (Ok [])
               (Ok (sample_response 200
                      (Raise (Exn ValueError (py "Expecting value")))))))
  = Ok (PyStr (py "[Unexpected error] Expecting value")).
Proof.
  split.
  - refine (call_gemini_api_reports_failure (py "hello") 800
              (sample_env (py "secret") false (Ok [])
                 (Raise (Exn RequestException (py "timed out"))))
              (Exn RequestException (py "timed out")) _ (or_introl eq_refl)).
    vm_compute. discriminate.
  - refine (call_gemini_api_reports_failure (py "hello") 800
              (sample_env (py "secret") false (Ok [])
                 (Ok (sample_response 200
                        (Raise (Exn ValueError (py "Expecting value"))))))
              (Exn ValueError (py "Expecting value")) _
              (or_intror (ex_intro _ (sample_response 200
                        (Raise (Exn ValueError (py "Expecting value"))))
                  (conj eq_refl (conj _ eq_refl))))).
    + vm_compute. discriminate.
    + vm_compute. reflexivity.
Defined.

(** After a successful answer with a decoded body, the result is what
    line 55 finds in the body, or the report of what it raises. *)
Lemma call_gemini_api_on_body (prompt : str) (max_tokens : Z) (en : env)
    (resp : http_response) (j : pyval) :
  GEMINI_API_KEY en <> [] ->
  http_post en (gemini_request en prompt) = Ok resp ->
  status_code resp < 400 ->
  resp_json resp = Ok j ->
  snd (call_gemini_api prompt max_tokens en)
  = match extract_text j with
    | Ok v => Ok v
    | Raise e => Ok (PyStr (error_string e))
    end.
Proof.
  intros Hkey Hpost Hstatus Hjson.
  rewrite call_gemini_api_unfold by assumption. cbn [snd].
  unfold answer_value. rewrite Hpost. unfold raise_for_status.
  replace (400 <=? status_code resp) with false
    by (symmetry; apply N.leb_gt; exact Hstatus).
  replace (500 <=? status_code resp) with false
    by (symmetry; apply N.leb_gt; lia).
  cbn. rewrite Hjson. reflexivity.
Qed.

(** X5.  After a successful answer whose body is an object with a first
    candidate, [call_gemini_api] returns the placeholder
    [[No response text found]] when the candidate has no [content], when
    the content has no [parts], and when the first part has no [text]. *)
Theorem call_gemini_api_placeholder_for_missing_key :
  forall (prompt : str) (max_tokens : Z) (en : env) (resp : http_response)
         (d c : list (str * pyval)) (cs : list pyval),
    GEMINI_API_KEY en <> [] ->
    http_post en (gemini_request en prompt) = Ok resp ->
    status_code resp < 400 ->
    resp_json resp = Ok (PyDict d) ->
    lookup (py "candidates") d = Some (PyList (PyDict c :: cs)) ->
    (lookup (py "content") c = None ->
       snd (call_gemini_api prompt max_tokens en)
         = Ok (PyStr (py "[No response text found]")))
    /\ (forall p : list (str * pyval),
          lookup (py "content") c = Some (PyDict p) ->
          lookup (py "parts") p = None ->
          snd (call_gemini_api prompt max_tokens en)
            = Ok (PyStr (py "[No response text found]")))
    /\ (forall (p t : list (str * pyval)) (ps : list pyval),
          lookup (py "content") c = Some (PyDict p) ->
          lookup (py "parts") p = Some (PyList (PyDict t :: ps)) ->
          lookup (py "text") t = None ->
          snd (call_gemini_api prompt max_tokens en)
            = Ok (PyStr (py "[No response text found]"))).
Proof.
  intros prompt max_tokens en resp d c cs Hkey Hpost Hstatus Hjson Hc.
  rewrite (call_gemini_api_on_body prompt max_tokens en resp (PyDict d))
    by assumption.
  unfold extract_text. cbn [py_get]. rewrite Hc. cbn [py_item0 py_get].
  split; [| split].
  - intros ->. reflexivity.
  - intros p -> Hp. cbn [py_get]. rewrite Hp. reflexivity.
  - intros p t ps -> Hp Ht. cbn [py_get]. rewrite Hp. cbn [py_item0 py_get].
    rewrite Ht. reflexivity.
Qed.

Lemma call_gemini_api_placeholder_for_missing_key_witness :
  snd (call_gemini_api (py "hello") 800
         (env_answering
            (PyDict [ (py "candidates",
               PyList [ PyDict [ (py "finishReason", PyStr (py "SAFETY")) ] ]) ])))
  = Ok (PyStr (py "[No response text found]")).
Proof.
  refine (proj1 (call_gemini_api_placeholder_for_missing_key (py "hello") 800
            (env_answering
               (PyDict [ (py "candidates",
                  PyList [ PyDict [ (py "finishReason", PyStr (py "SAFETY")) ] ]) ]))
            (sample_response 200 (Ok
               (PyDict [ (py "candidates",
                  PyList [ PyDict [ (py "finishReason", PyStr (py "SAFETY")) ] ]) ])))
            [ (py "candidates",
                  PyList [ PyDict [ (py "finishReason", PyStr (py "SAFETY")) ] ]) ]
            [ (py "finishReason", PyStr (py "SAFETY")) ] []
            _ eq_refl _ eq_refl eq_refl) eq_refl).
  - vm_compute. discriminate.
  - vm_compute. reflexivity.
Defined.

(** X6.  After a successful answer, [call_gemini_api] does not return
    the placeholder but an [[Unexpected error]] string when the body is
    not an object, when [candidates] is an empty list, and when [parts]
    is an empty list. *)
Theorem call_gemini_api_unexpected_shape :
  forall (prompt : str) (max_tokens : Z) (en : env) (resp : http_response)
         (j : pyval),
    GEMINI_API_KEY en <> [] ->
    http_post en (gemini_request en prompt) = Ok resp ->
    status_code resp < 400 ->
    resp_json resp = Ok j ->
    ((forall d, j <> PyDict d) ->
       snd (call_gemini_api prompt max_tokens en)
         = Ok (PyStr (py "[Unexpected error] '" ++ type_name j
                        ++ py "' object has no attribute 'get'")))
    /\ (forall d : list (str * pyval),
          j = PyDict d ->
          lookup (py "candidates") d = Some (PyList []) ->
          snd (call_gemini_api prompt max_tokens en)
            = Ok (PyStr (py "[Unexpected error] list index out of range")))
    /\ (forall (d c p : list (str * pyval)) (cs : list pyval),
          j = PyDict d ->
          lookup (py "candidates") d = Some (PyList (PyDict c :: cs)) ->
          lookup (py "content") c = Some (PyDict p) ->
          lookup (py "parts") p = Some (PyList []) ->
          snd (call_gemini_api prompt max_tokens en)
            = Ok (PyStr (py "[Unexpected error] list index out of range"))).
Proof.
  intros prompt max_tokens en resp j Hkey Hpost Hstatus Hjson.
  rewrite (call_gemini_api_on_body prompt max_tokens en resp j) by assumption.
  split; [| split].
  - intros Hnot. destruct j; try reflexivity.
    exfalso. eapply Hnot. reflexivity.
  - intros d -> Hc. unfold extract_text. cbn [py_get]. rewrite Hc.
    reflexivity.
  - intros d c p cs -> Hc Hco Hp. unfold extract_text. cbn [py_get].
    rewrite Hc. cbn [py_item0 py_get]. rewrite Hco. cbn [py_get].
    rewrite Hp. reflexivity.
Qed.

Lemma call_gemini_api_unexpected_shape_witness :
  snd (call_gemini_api (py "hello") 800
         (env_answering (PyList [PyStr (py "overloaded")])))
  = Ok (PyStr (py "[Unexpected error] 'list' object has no attribute 'get'"))
  /\ snd (call_gemini_api (py "hello") 800
            (env_answering (PyDict [ (py "candidates", PyList []) ])))
  = Ok (PyStr (py "[Unexpected error] list index out of range")).
Proof.
  split.
  - refine (proj1 (call_gemini_api_unexpected_shape (py "hello") 800
              (env_answering (PyList [PyStr (py "overloaded")]))
              (sample_response 200 (Ok (PyList [PyStr (py "overloaded")])))
              (PyList [PyStr (py "overloaded")]) _ eq_refl _ eq_refl) _).
    + vm_compute. discriminate.
    + vm_compute. reflexivity.
    + intros d. discriminate.
  - refine (proj1 (proj2 (call_gemini_api_unexpected_shape (py "hello") 800
              (env_answering (PyDict [ (py "candidates", PyList []) ]))
              (sample_response 200 (Ok (PyDict [ (py "candidates", PyList []) ])))
              (PyDict [ (py "candidates", PyList []) ]) _ eq_refl _ eq_refl))
              [ (py "candidates", PyList []) ] eq_refl eq_refl).
    + vm_compute. discriminate.
    + vm_compute. reflexivity.
Defined.

(** X7.  When [call_gemini_api] returns a value that is not a string,
    the key was configured, the remote service answered with a status
    that is no error and a decoded body, and the value is what line 55
    found in that body. *)
Theorem call_gemini_api_non_string_origin :
  forall (prompt : str) (max_tokens : Z) (en : env) (v : pyval),
    snd (call_gemini_api prompt max_tokens en) = Ok v ->
    is_pystr v = false ->
    GEMINI_API_KEY en <> []
    /\ exists (resp : http_response) (j : pyval),
         http_post en (gemini_request en prompt) = Ok resp
         /\ raise_for_status resp = Ok tt
         /\ resp_json resp = Ok j
         /\ extract_text j = Ok v.
Proof.
  intros prompt max_tokens en v Hv Hns.
  destruct (GEMINI_API_KEY en) as [|k key] eqn:Ek.
  - rewrite call_gemini_api_no_key in Hv by assumption.
    injection Hv as <-. discriminate.
  - split; [discriminate |].
    rewrite call_gemini_api_unfold in Hv by congruence. cbn [snd] in Hv.
    unfold answer_value in Hv.
    destruct (http_post en _) as [resp | e] eqn:Ep;
      [| injection Hv as <-; discriminate].
    destruct (raise_for_status resp) as [[] | e] eqn:Es;
      [| injection Hv as <-; discriminate].
    destruct (resp_json resp) as [j | e] eqn:Ej;
      [| injection Hv as <-; discriminate].
    destruct (extract_text j) as [w | e] eqn:Ex;
      [| injection Hv as <-; discriminate].
    injection Hv as <-.
    exists resp, j. repeat split; assumption.
Qed.

Lemma call_gemini_api_non_string_origin_witness :
  exists j, extract_text j = Ok PyNone.
Proof.
  destruct (call_gemini_api_non_string_origin (py "hello") 800
              (env_answering (success_body PyNone)) PyNone eq_refl eq_refl)
    as (_ & resp & j & _ & _ & _ & Hx).
  exists j. exact Hx.
Defined.

(* ================================================================== *)
(** * Further properties of the context loader *)

Lemma splitlines_from_no_linebreak (n : nat) :
  forall (s line : str),
    (List.length s <= n)%nat ->
    Forall (fun c => is_linebreak c = false) line ->
    Forall (Forall (fun c => is_linebreak c = false)) (splitlines_from line s).
Proof.
  induction n as [|n IH]; intros s line Hlen Hline.
  - destruct s; [| cbn in Hlen; lia]. cbn. constructor; [exact Hline | constructor].
  - destruct s as [|c r]; cbn [splitlines_from].
    { constructor; [exact Hline | constructor]. }
    cbn [List.length] in Hlen.
    destruct (is_linebreak c) eqn:Ec.
    + destruct r as [|d r'].
      { constructor; [exact Hline | constructor]. }
      cbn [List.length] in Hlen.
      destruct ((c =? 13) && (d =? 10)).
      * destruct r' as [|x r''].
        { constructor; [exact Hline | constructor]. }
        constructor; [exact Hline |].
        apply IH; [cbn [List.length] in *; lia | constructor].
      * constructor; [exact Hline |].
        apply IH; [cbn [List.length]; lia | constructor].
    + apply IH; [lia |].
      apply Forall_app. split; [exact Hline |].
      constructor; [exact Ec | constructor].
Qed.

(** No line of [splitlines] holds a line boundary. *)
Lemma splitlines_no_linebreak (s : str) :
  Forall (Forall (fun c => is_linebreak c = false)) (splitlines s).
Proof.
  destruct s as [|c r]; [constructor |].
  apply (splitlines_from_no_linebreak (List.length (c :: r)));
    [apply Nat.le_refl | constructor].
Qed.

Lemma count_newline_line (l : str) :
  Forall (fun c => is_linebreak c = false) l ->
  count_occ N.eq_dec l newline = 0%nat.
Proof.
  intros H. apply count_occ_not_In. intros Hin.
  rewrite Forall_forall in H. specialize (H _ Hin). discriminate.
Qed.

Lemma count_newline_join (ls : list str) :
  Forall (Forall (fun c => is_linebreak c = false)) ls ->
  count_occ N.eq_dec (join nl ls) newline = (List.length ls - 1)%nat.
Proof.
  induction ls as [|l ls IH]; intros H; [reflexivity |].
  inversion H as [|? ? Hl Hls]; subst.
  destruct ls as [|l2 ls].
  - cbn [join List.length]. rewrite (count_newline_line l Hl). reflexivity.
  - rewrite join_cons by discriminate.
    rewrite !count_occ_app, (count_newline_line l Hl), (IH Hls).
    cbn. lia.
Qed.

Lemma join_lines_linebreaks (ls : list str) :
  Forall (Forall (fun c => is_linebreak c = false)) ls ->
  Forall (fun c => is_linebreak c = true -> c = newline) (join nl ls).
Proof.
  induction ls as [|l ls IH]; intros H; [constructor |].
  inversion H as [|? ? Hl Hls]; subst.
  assert (Hl' : Forall (fun c => is_linebreak c = true -> c = newline) l).
  { eapply Forall_impl; [| exact Hl]. cbn. intros c E E'. congruence. }
  destruct ls as [|l2 ls]; [exact Hl' |].
  rewrite join_cons by discriminate.
  apply Forall_app. split; [exact Hl' |].
  apply Forall_app. split; [| exact (IH Hls)].
  constructor; [reflexivity | constructor].
Qed.

Lemma Forall_firstn {A : Type} (P : A -> Prop) (k : nat) (l : list A) :
  Forall P l -> Forall P (firstn k l).
Proof.
  intros H. revert k. induction H as [|x l Hx Hl IH]; intros [|k];
    cbn [firstn]; constructor; auto.
Qed.

(** X8.  For [n_lines >= 0], what [load_local_context] returns has at
    most [n_lines] lines: it holds fewer than [n_lines] newline
    characters, no other line boundary (no carriage return, form feed,
    ...), and it is empty when [n_lines] is 0. *)
Theorem load_local_context_line_bound :
  forall (n_lines : Z) (en : env) (s : str),
    (0 <= n_lines)%Z ->
    snd (load_local_context n_lines en) = Ok s ->
    (count_occ N.eq_dec s newline <= Z.to_nat n_lines - 1)%nat
    /\ Forall (fun c => is_linebreak c = true -> c = newline) s
    /\ (n_lines = 0%Z -> s = []).
Proof.
  intros n_lines en s Hn Hs.
  destruct (stories_exists en) eqn:Ex.
  - rewrite load_local_context_present in Hs by assumption. cbn [snd] in Hs.
    destruct (stories_read en) as [content | e]; [| discriminate].
    unfold slice_to in Hs.
    replace (n_lines <? 0)%Z with false in Hs
      by (symmetry; apply Z.ltb_ge; lia).
    assert (Hlines : Forall (Forall (fun c => is_linebreak c = false))
                       (firstn (Z.to_nat n_lines) (splitlines (strip content))))
      by (apply Forall_firstn, splitlines_no_linebreak).
    replace s with (join nl (firstn (Z.to_nat n_lines)
                                    (splitlines (strip content))))
      by congruence.
    split; [| split].
    + rewrite (count_newline_join _ Hlines).
      pose proof (firstn_le_length (Z.to_nat n_lines)
                    (splitlines (strip content))). lia.
    + apply join_lines_linebreaks, Hlines.
    + intros ->. reflexivity.
  - rewrite load_local_context_missing in Hs by assumption.
    replace s with (@nil N) by (cbn [snd] in Hs; congruence).
    repeat split; [cbn; lia | constructor].
Qed.

Lemma load_local_context_line_bound_witness :
  exists s,
    snd (load_local_context 2
           (env_stories (py "one" ++ [13; 10] ++ py "two" ++ nl ++ py "three")))
      = Ok s
    /\ (count_occ N.eq_dec s newline <= 1)%nat.
Proof.
  exists (py "one" ++ nl ++ py "two").
  split; [reflexivity |].
  exact (proj1 (load_local_context_line_bound 2
                  (env_stories (py "one" ++ [13; 10] ++ py "two" ++ nl ++ py "three"))
                  (py "one" ++ nl ++ py "two")
                  (proj1 (Z.leb_le 0 2) eq_refl) eq_refl)).
Defined.


(* ================================================================== *)
(** * Further properties of the normalized fields *)

Lemma dropwhile_idem (p : N -> bool) (s : str) :
  dropwhile p (dropwhile p s) = dropwhile p s.
Proof.
  induction s as [|c s IH]; [reflexivity |].
  cbn [dropwhile]. destruct (p c) eqn:E; [exact IH |].
  cbn [dropwhile]. rewrite E. reflexivity.
Qed.

Lemma dropwhile_In (p : N -> bool) (s : str) (c : N) :
  In c (dropwhile p s) -> In c s.
Proof.
  induction s as [|x s IH]; [intros [] |].
  cbn [dropwhile]. destruct (p x); [intros H; right; exact (IH H) | auto].
Qed.

Lemma strip_In (s : str) (c : N) : In c (strip s) -> In c s.
Proof.
  unfold strip, rstrip, lstrip. intros H.
  apply in_rev, dropwhile_In in H. apply in_rev in H.
  exact (dropwhile_In _ _ _ H).
Qed.

(** Trimming twice is trimming once. *)
Lemma strip_idem (s : str) : strip (strip s) = strip s.
Proof.
  unfold strip at 1. unfold lstrip.
  assert (Hl : dropwhile isspace (strip s) = strip s).
  { destruct (strip_ends s) as [-> | (c & m & d & [E Hc] & _)];
      [reflexivity |].
    rewrite E. cbn [dropwhile]. rewrite Hc. reflexivity. }
  rewrite Hl. unfold strip, rstrip.
  rewrite rev_involutive, dropwhile_idem. reflexivity.
Qed.

(** The fields the handler reads are stable: reading them again from a
    form that carries them gives them back. *)
Lemma normalize_lower_strip_idem (s : str) :
  lower (strip (lower (strip s))) = lower (strip s).
Proof.
  rewrite strip_lower, strip_idem, lower_idem. reflexivity.
Qed.

(** X9.  The response of [generate] depends on the form only through the
    three fields as the handler reads them, and those are stable: a form
    that carries the [business_type], [tools] and [concerns] echoed on
    the result page is answered, in the same environment, as the form
    that produced them. *)
Theorem generate_stable_under_resubmission :
  forall (form form' : list (str * str)) (en : env),
    dict_get form' (py "business_type") [] = form_business_type form ->
    dict_get form' (py "tools") [] = form_tools form ->
    dict_get form' (py "concerns") [] = form_concerns form ->
    (form_business_type form' = form_business_type form
     /\ form_tools form' = form_tools form
     /\ form_concerns form' = form_concerns form)
    /\ generate form' en = generate form en.
Proof.
  intros form form' en Hb Ht Hc.
  assert (Eb : form_business_type form' = form_business_type form).
  { unfold form_business_type at 1. rewrite Hb. unfold form_business_type.
    apply normalize_lower_strip_idem. }
  assert (Et : form_tools form' = form_tools form).
  { unfold form_tools at 1. rewrite Ht. unfold form_tools.
    apply normalize_lower_strip_idem. }
  assert (Ec : form_concerns form' = form_concerns form).
  { unfold form_concerns at 1. rewrite Hc. unfold form_concerns.
    apply strip_idem. }
  split; [repeat split; assumption |].
  unfold generate. rewrite Eb, Et, Ec. reflexivity.
Qed.

Lemma generate_stable_under_resubmission_witness :
  generate [ (py "business_type", py "whatsapp vendor");
             (py "tools", py "pos, my till");
             (py "concerns", py "fake alerts") ] env_no_key
  = generate (form_vendor (py " POS, My Till ") (py "  fake alerts ")) env_no_key.
Proof.
  exact (proj2 (generate_stable_under_resubmission
                  (form_vendor (py " POS, My Till ") (py "  fake alerts "))
                  [ (py "business_type", py "whatsapp vendor");
                    (py "tools", py "pos, my till");
                    (py "concerns", py "fake alerts") ] env_no_key
                  eq_refl eq_refl eq_refl)).
Defined.

(* ================================================================== *)
(** * Further properties of the tool entries *)

Lemma split_on_pieces (sep : N) (s piece : str) :
  In piece (split_on sep s) -> ~ In sep piece.
Proof.
  revert piece. induction s as [|c s IH]; intros piece; cbn [split_on].
  - intros [<- | []] [].
  - pose proof (split_on_not_nil sep s) as Hs.
    destruct (N.eqb_spec c sep) as [-> | Hc].
    + intros [<- | H]; [intros [] | exact (IH _ H)].
    + destruct (split_on sep s) as [|p ps]; [congruence |].
      intros [<- | H].
      * intros [E | Hin]; [congruence |].
        exact (IH p (or_introl eq_refl) Hin).
      * exact (IH _ (or_intror H)).
Qed.

(** X10.  Every entry of the tool list is not empty, holds no comma,
    and is trimmed: trimming it again changes nothing, so it neither
    begins nor ends with whitespace. *)
Theorem tool_list_entries :
  forall (tools entry : str),
    In entry (tool_list tools) ->
    entry <> []
    /\ ~ In 44 entry
    /\ strip entry = entry
    /\ (exists c rest, entry = c :: rest /\ isspace c = false)
    /\ (exists rest d, entry = rest ++ [d] /\ isspace d = false).
Proof.
  intros tools entry H. apply tool_list_spec in H.
  destruct H as (piece & Hpiece & -> & Hne).
  split; [exact Hne |].
  split; [intros Hin; apply strip_In in Hin;
          exact (split_on_pieces 44 tools piece Hpiece Hin) |].
  split; [apply strip_idem |].
  destruct (strip_ends piece) as [E | (c & m & d & [E Hc] & Hlast & Hd)];
    [congruence |].
  split.
  - exists c, m. split; assumption.
  - destruct Hlast as [E' | [m' E']].
    + exists m, d. split; assumption.
    + exists m', d. split; assumption.
Qed.

Lemma tool_list_entries_witness :
  strip (py "bank transfer") = py "bank transfer" /\ ~ In 44 (py "bank transfer").
Proof.
  destruct (tool_list_entries (py " pos,, bank transfer ,") (py "bank transfer"))
    as (_ & Hcomma & Hstrip & _).
  - vm_compute. tauto.
  - split; assumption.
Defined.

Lemma split_on_blank_pieces (s : str) :
  forallb (fun c => isspace c || (c =? 44)) s = true ->
  Forall (fun piece => forallb isspace piece = true) (split_on 44 s).
Proof.
  induction s as [|c s IH]; cbn [forallb split_on]; intros H.
  - constructor; [reflexivity | constructor].
  - apply andb_true_iff in H. destruct H as [Hc Hs]. specialize (IH Hs).
    destruct (c =? 44) eqn:E.
    + constructor; [reflexivity | exact IH].
    + rewrite orb_false_r in Hc.
      destruct (split_on 44 s) as [|p ps]; [constructor; [| constructor] |].
      * cbn. rewrite Hc. reflexivity.
      * inversion IH; subst. constructor; [| assumption].
        cbn [forallb]. rewrite Hc. assumption.
Qed.

(** X11.  A tools field made of commas and whitespace only (the empty
    field among them) has no entry, and the prompt of the request does
    not end with the advisory clause. *)
Theorem no_tools_no_advisory :
  forall (form : list (str * str)) (context : str),
    forallb (fun c => isspace c || (c =? 44))
            (dict_get form (py "tools") []) = true ->
    tool_list (form_tools form) = []
    /\ endswith (request_prompt form context) extra_note = false.
Proof.
  intros form context H.
  assert (Hraw : tool_list (strip (dict_get form (py "tools") [])) = []).
  { unfold tool_list.
    assert (Hs : forallb (fun c => isspace c || (c =? 44))
                   (strip (dict_get form (py "tools") [])) = true).
    { apply forallb_forall. intros c Hc. apply strip_In in Hc.
      rewrite forallb_forall in H. exact (H c Hc). }
    pose proof (split_on_blank_pieces _ Hs) as Hp.
    induction Hp as [|p ps Hblank _ IH]; [reflexivity |].
    cbn [filter]. rewrite (strip_blank p Hblank). exact IH. }
  assert (Hlist : tool_list (form_tools form) = []).
  { unfold form_tools. rewrite tool_list_lower, Hraw. reflexivity. }
  split; [exact Hlist |].
  destruct (endswith (request_prompt form context) extra_note) eqn:E;
    [| reflexivity].
  apply advisory_clause_iff_unrecognized in E.
  unfold unrecognized in E. rewrite Hlist in E. cbn in E. congruence.
Qed.

Lemma no_tools_no_advisory_witness :
  endswith (request_prompt (form_vendor (py " , ,") (py "theft")) [])
           extra_note = false
  /\ endswith (request_prompt
                 [ (py "business_type", py "street trader") ] [])
              extra_note = false.
Proof.
  split.
  - exact (proj2 (no_tools_no_advisory
                    (form_vendor (py " , ,") (py "theft")) [] eq_refl)).
  - exact (proj2 (no_tools_no_advisory
                    [ (py "business_type", py "street trader") ] [] eq_refl)).
Defined.

(* ================================================================== *)
(** * Further properties of the generation flow *)

(** X12.  [generate] raises exactly when the business type is allowed,
    the stories file exists and reading it raises; the exception is the
    one of the read, and by then nothing but the read has happened: no
    message is flashed and no request is sent. *)
Theorem generate_raises_iff_stories_unreadable :
  forall (form : list (str * str)) (en : env) (e : exn),
    snd (generate form en) = Raise e
    <-> (In (form_business_type form) allowed_types
         /\ stories_exists en = true
         /\ stories_read en = Raise e
         /\ fst (generate form en) = [ReadStories]).
Proof.
  intros form en e. split.
  - intros H.
    destruct (mem (form_business_type form) allowed_types) eqn:Hbt.
    + destruct (stories_exists en) eqn:Ex.
      * pose proof (load_local_context_present 20 en Ex) as Hl.
        destruct (stories_read en) as [content | e'] eqn:Er.
        -- destruct (generate_completes form en _ Hbt
                       (f_equal snd Hl)) as (policy & _ & E).
           rewrite E in H. discriminate.
        -- pose proof (generate_context_failure form en e' Hbt
                         (f_equal snd Hl)) as E.
           rewrite E in H. injection H as <-.
           repeat split; [apply mem_In; exact Hbt |].
           unfold generate. rewrite Hbt. cbn [negb]. unfold bind at 1.
           rewrite Hl. reflexivity.
      * pose proof (load_local_context_missing 20 en Ex) as Hl.
        destruct (generate_completes form en _ Hbt (f_equal snd Hl))
          as (policy & _ & E).
        rewrite E in H. discriminate.
    + rewrite (generate_rejected form en Hbt) in H. discriminate.
  - intros (Hbt & Ex & Er & _). apply mem_In in Hbt.
    apply generate_context_failure; [exact Hbt |].
    rewrite load_local_context_present by assumption. rewrite Er.
    reflexivity.
Qed.

Lemma generate_raises_iff_stories_unreadable_witness :
  snd (generate (form_vendor (py "pos") []) env_unreadable)
  = Raise permission_denied.
Proof.
  apply (proj2 (generate_raises_iff_stories_unreadable
                  (form_vendor (py "pos") []) env_unreadable permission_denied)).
  repeat split; try reflexivity. left. reflexivity.
Defined.

(** X13.  With an allowed business type, a context that loads and no
    key configured, [generate] still renders the result page: the policy
    it shows is the [[ERROR]] string of the client, the three fields are
    echoed as the handler read them, and no request is sent. *)
Theorem generate_without_key :
  forall (form : list (str * str)) (en : env) (context : str),
    In (form_business_type form) allowed_types ->
    snd (load_local_context 20 en) = Ok context ->
    GEMINI_API_KEY en = [] ->
    snd (generate form en)
    = Ok (RenderTemplate (py "result.html")
            [ ("policy",
               PyStr (py "[ERROR] Gemini API key not found. Please check your .env file."));
              ("filename",
               PyStr (policy_filename (form_business_type form) (utcnow en)));
              ("business_type", PyStr (form_business_type form));
              ("tools", PyStr (form_tools form));
              ("concerns", PyStr (form_concerns form)) ]%string)
    /\ existsb is_http_post (fst (generate form en)) = false.
Proof.
  intros form en context Hbt Hctx Hkey. apply mem_In in Hbt.
  destruct (generate_completes form en context Hbt Hctx)
    as (policy & Hpolicy & E).
  rewrite call_gemini_api_no_key in Hpolicy by assumption.
  cbn [snd] in Hpolicy. injection Hpolicy as <-.
  rewrite E. split; [reflexivity |].
  cbn [fst]. rewrite call_gemini_api_no_key by assumption. cbn [fst].
  rewrite app_nil_r.
  destruct (stories_exists en) eqn:Ex.
  - rewrite load_local_context_present by assumption. reflexivity.
  - rewrite load_local_context_missing by assumption. reflexivity.
Qed.

Lemma generate_without_key_witness :
  existsb is_http_post (fst (generate (form_vendor (py "pos") []) env_no_key))
  = false.
Proof.
  exact (proj2 (generate_without_key (form_vendor (py "pos") []) env_no_key []
                  (or_introl eq_refl) eq_refl eq_refl)).
Defined.

(** X14.  With an allowed business type, a context that loads and a key
    configured, [generate] sends one request, which carries the prompt
    of the request.  When that request fails, the result page is still
    rendered, and the policy it shows is the error string of the
    client. *)
Theorem generate_with_failing_service :
  forall (form : list (str * str)) (en : env) (context : str) (e : exn),
    In (form_business_type form) allowed_types ->
    snd (load_local_context 20 en) = Ok context ->
    GEMINI_API_KEY en <> [] ->
    filter is_http_post (fst (generate form en))
      = [HttpPost (gemini_request en (request_prompt form context))]
    /\ (http_post en (gemini_request en (request_prompt form context)) = Raise e ->
        exists ctx,
          snd (generate form en) = Ok (RenderTemplate (py "result.html") ctx)
          /\ context_get "policy" ctx
             = Some (PyStr ((if is_request_exception e
                             then py "[Error calling AI service] "
                             else py "[Unexpected error] ") ++ exn_str e))).
Proof.
  intros form en context e Hbt Hctx Hkey. apply mem_In in Hbt.
  split.
  - rewrite (generate_sends_request_prompt form en context Hbt Hctx Hkey).
    rewrite filter_app. cbn [filter is_http_post].
    destruct (stories_exists en) eqn:Ex.
    + rewrite load_local_context_present by assumption. reflexivity.
    + rewrite load_local_context_missing by assumption. reflexivity.
  - intros Hpost.
    destruct (generate_completes form en context Hbt Hctx)
      as (policy & Hpolicy & E).
    rewrite call_gemini_api_unfold in Hpolicy by assumption.
    cbn [snd] in Hpolicy. unfold answer_value in Hpolicy.
    rewrite Hpost in Hpolicy. injection Hpolicy as <-.
    eexists. rewrite E. split; [reflexivity |].
    unfold error_string. destruct (is_request_exception e); reflexivity.
Qed.

Lemma generate_with_failing_service_witness :
  exists ctx,
    snd (generate (form_vendor (py "pos") [])
           (sample_env (py "secret") false (Ok [])
              (Raise (Exn RequestException (py "timed out")))))
      = Ok (RenderTemplate (py "result.html") ctx)
    /\ context_get "policy" ctx
       = Some (PyStr (py "[Error calling AI service] timed out")).
Proof.
  refine (proj2 (generate_with_failing_service (form_vendor (py "pos") [])
            (sample_env (py "secret") false (Ok [])
               (Raise (Exn RequestException (py "timed out"))))
            [] (Exn RequestException (py "timed out"))
            (or_introl eq_refl) eq_refl _) eq_refl).
  vm_compute. discriminate.
Defined.

(** A string whose lower-case form begins and ends with characters that
    are not whitespace begins and ends with such characters. *)
Lemma lower_ends (v t0 t1 : str) (c0 d0 : N) :
  lower v = c0 :: t0 -> lower v = t1 ++ [d0] ->
  isspace c0 = false -> isspace d0 = false ->
  exists c m d m',
    v = c :: m /\ c :: m = m' ++ [d]
    /\ isspace c = false /\ isspace d = false.
Proof.
  intros Hhead Hlast Hc0 Hd0.
  destruct v as [|c m]; [discriminate |].
  destruct (exists_last (l := c :: m)) as (m' & d & E); [discriminate |].
  exists c, m, d, m'. split; [reflexivity |]. split; [exact E |].
  split.
  - destruct (isspace c) eqn:Hc; [| reflexivity].
    destruct (lower_head c m) as (x & r & Ex & _ & Hx).
    rewrite Ex in Hhead. specialize (Hx Hc). congruence.
  - destruct (isspace d) eqn:Hd; [| reflexivity].
    destruct (lower_last m' d) as (r & x & Ex & _ & Hx).
    rewrite E, Ex in Hlast. apply app_inj_tail in Hlast.
    specialize (Hx Hd). destruct Hlast as [_ Hlast]. congruence.
Qed.

(** With an allowed business type, [generate] stops at a failed read of
    the stories file or runs to the end; it flashes nothing. *)
Lemma generate_accepted (form : list (str * str)) (en : env) :
  mem (form_business_type form) allowed_types = true ->
  (forall location, snd (generate form en) <> Ok (Redirect location))
  /\ (forall message category,
        ~ In (Flash message category) (fst (generate form en))).
Proof.
  intros Hmem.
  destruct (snd (load_local_context 20 en)) as [context | e] eqn:Hctx.
  - destruct (generate_completes form en context Hmem Hctx)
      as (policy & _ & E).
    rewrite E. cbn [fst snd]. split; [intros location; discriminate |].
    intros message category Hin. apply in_app_or in Hin.
    destruct Hin as [Hin | Hin].
    + destruct (stories_exists en) eqn:Ex.
      * rewrite load_local_context_present in Hin by assumption.
        destruct Hin as [Hin | []]; discriminate.
      * rewrite load_local_context_missing in Hin by assumption.
        destruct Hin.
    + destruct (GEMINI_API_KEY en) as [|k key] eqn:Ek.
      * rewrite call_gemini_api_no_key in Hin by assumption. destruct Hin.
      * rewrite call_gemini_api_unfold in Hin by congruence.
        destruct Hin as [Hin | []]; discriminate.
  - pose proof (generate_context_failure form en e Hmem Hctx) as Hr.
    split; [intros location; rewrite Hr; discriminate |].
    intros message category Hin.
    unfold generate in Hin. rewrite Hmem in Hin. cbn [negb] in Hin.
    unfold bind at 1 in Hin.
    destruct (stories_exists en) eqn:Ex.
    + rewrite load_local_context_present in Hin, Hctx by assumption.
      cbn [snd] in Hctx. destruct (stories_read en); [discriminate |].
      destruct Hin as [Hin | []]; discriminate.
    + rewrite load_local_context_missing in Hctx by assumption.
      discriminate.
Qed.

(** X15.  A business type that is one of the two allowed values in any
    letter case, with any whitespace before and after it, passes the
    check: the handler reads it as the allowed value, does not answer
    with the redirect and flashes no warning. *)
Theorem generate_accepts_padded_case_variants :
  forall (form : list (str * str)) (en : env) (pre v post : str),
    dict_get form (py "business_type") [] = pre ++ v ++ post ->
    forallb isspace pre = true -> forallb isspace post = true ->
    In (lower v) allowed_types ->
    form_business_type form = lower v
    /\ (forall location, snd (generate form en) <> Ok (Redirect location))
    /\ (forall message category,
          ~ In (Flash message category) (fst (generate form en))).
Proof.
  intros form en pre v post Hfield Hpre Hpost Hv.
  assert (Hends : exists c m d m',
             v = c :: m /\ c :: m = m' ++ [d]
             /\ isspace c = false /\ isspace d = false).
  { destruct Hv as [H | [H | []]].
    - apply (lower_ends v (py "hatsapp vendor") (py "whatsapp vendo") 119 114);
        [symmetry; exact H | symmetry; exact H | reflexivity | reflexivity].
    - apply (lower_ends v (py "treet trader") (py "street trade") 115 114);
        [symmetry; exact H | symmetry; exact H | reflexivity | reflexivity]. }
  destruct Hends as (c & m & d & m' & -> & E & Hc & Hd).
  assert (Hbt : form_business_type form = lower (c :: m)).
  { unfold form_business_type.
    rewrite Hfield, (strip_padded pre post m c d m' Hpre Hpost Hc Hd E).
    reflexivity. }
  split; [exact Hbt |].
  apply generate_accepted. rewrite Hbt. apply mem_In. exact Hv.
Qed.

Lemma generate_accepts_padded_case_variants_witness :
  form_business_type [ (py "business_type", [9; 32] ++ py "Street TRADER" ++ [160; 10]) ]
  = py "street trader".
Proof.
  exact (proj1 (generate_accepts_padded_case_variants
                  [ (py "business_type", [9; 32] ++ py "Street TRADER" ++ [160; 10]) ]
                  env_no_key [9; 32] (py "Street TRADER") [160; 10]
                  eq_refl eq_refl eq_refl (or_intror (or_introl eq_refl)))).
Defined.

(* ================================================================== *)
(** * Further properties of the diagnostic endpoint and of the download *)

(** X16.  [test_api] never raises: it answers with a JSON object whose
    only key, [response], holds what [call_gemini_api] returned for the
    canned prompt, and it sends that prompt, once, only when a key is
    configured. *)
Theorem test_api_always_answers :
  forall en : env,
    exists v : pyval,
      snd (call_gemini_api (py "Say hello from Gemini API.") 800 en) = Ok v
      /\ test_api en
         = (match GEMINI_API_KEY en with
            | [] => []
            | _ :: _ =>
                [HttpPost (gemini_request en (py "Say hello from Gemini API."))]
            end,
            Ok (Jsonify (PyDict [ (py "response", v) ]))).
Proof.
  intros en.
  destruct (call_gemini_api_returns (py "Say hello from Gemini API.") 800 en)
    as [v Hv].
  exists v. split; [exact Hv |].
  unfold test_api, bind.
  destruct (call_gemini_api (py "Say hello from Gemini API.") 800 en)
    as [t r] eqn:E.
  cbn [snd] in Hv. subst r. unfold ret. rewrite app_nil_r.
  f_equal. change t with (fst (t, @Ok pyval v)). rewrite <- E.
  destruct (GEMINI_API_KEY en) as [|k key] eqn:Ek.
  - rewrite call_gemini_api_no_key by assumption. reflexivity.
  - rewrite call_gemini_api_unfold by congruence. reflexivity.
Qed.

Lemma utf8_char_length (c : N) :
  match utf8_char c with
  | Ok bytes => (1 <= List.length bytes <= 4)%nat
                /\ ((c <? 128) = true -> bytes = [c])
  | Raise _ => True
  end.
Proof.
  unfold utf8_char.
  destruct (c <? 128); [cbn; split; [lia | reflexivity] |].
  destruct (c <? 2048); [cbn; split; [lia | discriminate] |].
  destruct ((55296 <=? c) && (c <=? 57343)); [exact I |].
  destruct (c <? 65536); cbn; (split; [lia | discriminate]).
Qed.

Lemma encode_utf8_length (s : str) :
  match encode_utf8 s with
  | Ok bytes =>
      (List.length s <= List.length bytes <= 4 * List.length s)%nat
      /\ (forallb (fun c => c <? 128) s = true -> bytes = s)
  | Raise _ => True
  end.
Proof.
  induction s as [|c s IH]; cbn [encode_utf8].
  - cbn. split; [lia | reflexivity].
  - pose proof (utf8_char_length c) as Hc.
    destruct (utf8_char c) as [bs | e]; [| exact I].
    destruct (encode_utf8 s) as [rest | e]; [| exact I].
    destruct Hc as [Hlen Hascii]. destruct IH as [IHlen IHascii].
    split.
    + rewrite length_app. cbn [List.length]. lia.
    + cbn [forallb]. intros H. apply andb_true_iff in H.
      destruct H as [H1 H2].
      rewrite (Hascii H1), (IHascii H2). reflexivity.
Qed.

(** X17.  The body [download] sends has at least as many bytes as
    [policy_text] has characters and at most four times as many; for a
    text of ASCII characters the body is the text, byte for
    character. *)
Theorem download_body_length :
  forall (form : list (str * str)) (en : env) (body : list N)
         (attachment : bool) (name mimetype : str),
    snd (download form en) = Ok (SendFile body attachment name mimetype) ->
    (List.length (dict_get form (py "policy_text") []) <= List.length body
     <= 4 * List.length (dict_get form (py "policy_text") []))%nat
    /\ (forallb (fun c => c <? 128) (dict_get form (py "policy_text") []) = true ->
        body = dict_get form (py "policy_text") []).
Proof.
  intros form en body attachment name mimetype H.
  pose proof (encode_utf8_length (dict_get form (py "policy_text") [])) as Hl.
  rewrite download_unfold in H.
  destruct (encode_utf8 (dict_get form (py "policy_text") [])) as [b | e];
    cbn [snd] in H; [| discriminate].
  apply send_file_sends in H.
  replace body with b by congruence. exact Hl.
Qed.

Lemma download_body_length_witness :
  (List.length (py "Lock it") <= 7 <= 4 * List.length (py "Lock it"))%nat.
Proof.
  exact (proj1 (download_body_length
                  [ (py "policy_text", py "Lock it") ] env_no_key
                  (py "Lock it") true (py "policy_20240309070500.txt")
                  (py "text/plain") eq_refl)).
Defined.

(* ================================================================== *)
(** * Further properties of the prompt builder *)

Lemma construct_prompt_unfold (user_input : list (str * str)) (context : str) :
  construct_prompt user_input context
  = dedent (prompt_text
              (dict_get user_input (py "business_type") (py "Informal vendor"))
              (dict_get user_input (py "tools") (py "WhatsApp / Mobile money"))
              context
              (stated_concerns (dict_get user_input (py "concerns") []))).
Proof.
  unfold construct_prompt, stated_concerns.
  destruct (dict_get user_input (py "concerns") []); reflexivity.
Qed.

(** X18.  For any dictionary of user input, [construct_prompt] writes
    into the prompt the business type, the tools and the concerns it
    finds there, and for a key that is missing the default of the code
    ([Informal vendor], [WhatsApp / Mobile money], the default concerns);
    the values are found verbatim when the business type is on one line
    and no later line of the tools or of the concerns begins with
    whitespace. *)
Theorem construct_prompt_contains_values :
  forall (user_input : list (str * str)) (context : str),
    let business :=
      dict_get user_input (py "business_type") (py "Informal vendor") in
    let tools :=
      dict_get user_input (py "tools") (py "WhatsApp / Mobile money") in
    let concerns :=
      stated_concerns (dict_get user_input (py "concerns") []) in
    (one_line business ->
       contains (construct_prompt user_input context) business = true)
    /\ (one_line business -> flush tools = true ->
        contains (construct_prompt user_input context) tools = true)
    /\ (flush concerns = true ->
        contains (construct_prompt user_input context) concerns = true).
Proof.
  intros user_input context business tools concerns.
  rewrite construct_prompt_unfold. fold business tools concerns.
  split; [| split].
  - intros Hb. apply contains_spec, dedent_keeps_business, Hb.
  - intros Hb Ht. apply contains_spec, dedent_keeps_tools; assumption.
  - intros Hc. apply contains_spec, dedent_keeps_concerns, Hc.
Qed.

Lemma construct_prompt_contains_values_witness :
  contains (construct_prompt [ (py "tools", py "pos") ] (py "A buyer sent a fake alert."))
           (py "Informal vendor") = true
  /\ contains (construct_prompt [] [])
              (py "WhatsApp / Mobile money") = true
  /\ contains (construct_prompt [ (py "concerns", []) ] [])
              (py "general protection against scams and fraud") = true.
Proof.
  split; [| split].
  - apply (proj1 (construct_prompt_contains_values [ (py "tools", py "pos") ]
                    (py "A buyer sent a fake alert."))).
    apply one_line_check. reflexivity.
  - apply (proj1 (proj2 (construct_prompt_contains_values [] []))).
    + apply one_line_check. reflexivity.
    + reflexivity.
  - apply (proj2 (proj2 (construct_prompt_contains_values [ (py "concerns", []) ] []))).
    reflexivity.
Defined.

Lemma next_margin_empty (margin : option str) : next_margin margin [] = Some [].
Proof.
  destruct margin as [[|c m]|]; reflexivity.
Qed.

Lemma fold_margin_from_empty (l : list str) :
  fold_left next_margin l (Some []) = Some [].
Proof.
  induction l as [|i l IH]; [reflexivity |]. cbn [fold_left next_margin startswith].
  exact IH.
Qed.

Lemma fold_margin_empty (l : list str) :
  forall acc, In [] l -> fold_left next_margin l acc = Some [].
Proof.
  induction l as [|i l IH]; intros acc H; [destruct H |].
  cbn [fold_left]. destruct H as [-> | H].
  - rewrite next_margin_empty. apply fold_margin_from_empty.
  - apply IH, H.
Qed.

Lemma indents_In (lines : list str) (l i : str) :
  In l lines -> leading_whitespace l = Some i -> In i (indents lines).
Proof.
  induction lines as [|x lines IH]; intros Hin Hl; [destruct Hin |].
  cbn [indents]. destruct Hin as [-> | Hin].
  - rewrite Hl. left. reflexivity.
  - destruct (leading_whitespace x); [right |]; apply IH; assumption.
Qed.

(** A line that starts with text leaves no margin to remove. *)
Lemma dedent_without_margin (text : str) (c : N) (rest : str) :
  is_blank c = false ->
  In (c :: rest) (split_on newline text) ->
  dedent text = join nl (map normalize_line (split_on newline text)).
Proof.
  intros Hc Hin. unfold dedent.
  assert (Hm : find_margin (map normalize_line (split_on newline text)) = Some []).
  { unfold find_margin. apply fold_margin_empty.
    apply (indents_In _ (c :: rest)).
    - apply in_map_iff. exists (c :: rest). split; [| exact Hin].
      exact (normalize_line_text [] rest c Hc).
    - unfold leading_whitespace. cbn [existsb takewhile]. rewrite Hc.
      reflexivity. }
  rewrite Hm. reflexivity.
Qed.

(** The text of the prompt, cut around the context. *)
Lemma prompt_text_context (business tools context concerns : str) :
  prompt_text business tools context concerns
  = (prompt_head ++ nl
       ++ py "    Target user: " ++ business
       ++ py ". Digital tools used: " ++ tools ++ py "." ++ nl
       ++ py "    Local context examples (do not reveal personally identifying info): "
       ++ nl ++ py "    ")
      ++ context
      ++ (nl ++ nl ++ py "    User-stated concerns: " ++ concerns ++ nl
            ++ prompt_tail).
Proof.
  unfold prompt_text, prompt_head, prompt_tail.
  rewrite <- !app_assoc. reflexivity.
Qed.

(** With a context of several lines, one of which after the first begins
    with a character that is not whitespace, the text of the prompt has
    a line without indentation. *)
Lemma prompt_text_flush_line (business tools concerns a r : str) (c : N) :
  isspace c = false ->
  exists rest,
    In (c :: rest)
       (split_on newline
          (prompt_text business tools (a ++ nl ++ c :: r) concerns)).
Proof.
  intros Hc. rewrite prompt_text_context.
  set (P := prompt_head ++ _). set (Q := nl ++ nl ++ _).
  replace (P ++ (a ++ nl ++ c :: r) ++ Q)
    with ((P ++ a) ++ newline :: c :: (r ++ Q))
    by (rewrite <- !app_assoc; reflexivity).
  rewrite split_on_app_sep.
  assert (Hne : c <> newline) by (intros ->; discriminate Hc).
  cbn [split_on]. destruct (N.eqb_spec c newline) as [? | _]; [contradiction |].
  pose proof (split_on_not_nil newline (r ++ Q)) as Hy.
  destruct (split_on newline (r ++ Q)) as [|p ps]; [congruence |].
  exists p. apply in_or_app. right. left. reflexivity.
Qed.

Lemma prompt_text_format_line (business tools context concerns : str) :
  exists x,
    prompt_text business tools context concerns
    = x ++ newline
        :: py "    Format output as plain text with clear sections."
        ++ newline :: py "    ".
Proof.
  unfold prompt_text. rewrite !app_assoc. do 3 rewrite <- app_assoc.
  eexists. reflexivity.
Qed.

(** X19.  When the context has several lines and one of them after the
    first begins with a character that is not whitespace, [dedent]
    finds no common margin and [construct_prompt] returns the text of
    the template with its indentation: the prompt begins with a newline
    and the first line of the template behind its four spaces, and ends
    with the last line of the template behind its four spaces and a
    newline. *)
Theorem construct_prompt_keeps_indentation :
  forall (user_input : list (str * str)) (a r : str) (c : N),
    isspace c = false ->
    startswith (construct_prompt user_input (a ++ nl ++ c :: r))
      (nl ++ py "    You are an AI assistant that writes short, clear, actionable cybersecurity policies for informal microbusinesses." ++ nl)
      = true
    /\ endswith (construct_prompt user_input (a ++ nl ++ c :: r))
         (nl ++ py "    Format output as plain text with clear sections." ++ nl)
         = true.
Proof.
  intros user_input a r c Hc.
  rewrite construct_prompt_unfold.
  set (business := dict_get user_input (py "business_type") _).
  set (tools := dict_get user_input (py "tools") _).
  set (concerns := stated_concerns _).
  destruct (prompt_text_flush_line business tools concerns a r c Hc)
    as [rest Hin].
  rewrite (dedent_without_margin _ c rest (not_isspace_not_blank c Hc) Hin).
  split.
  - rewrite prompt_text_target_line.
    set (rest2 := (py "    " ++ _) ++ nl ++ _).
    change (prompt_head ++ nl ++ rest2)
      with ([] ++ newline
              :: py "    You are an AI assistant that writes short, clear, actionable cybersecurity policies for informal microbusinesses."
              ++ newline :: rest2).
    rewrite split_on_app_sep, split_on_app_sep.
    rewrite (split_on_no_sep newline (py "    You are an AI assistant that writes short, clear, actionable cybersecurity policies for informal microbusinesses."))
      by (apply one_line_check; reflexivity).
    cbn [split_on app map].
    change (normalize_line []) with (@nil N).
    change (normalize_line (py "    You are an AI assistant that writes short, clear, actionable cybersecurity policies for informal microbusinesses."))
      with (py "    You are an AI assistant that writes short, clear, actionable cybersecurity policies for informal microbusinesses.").
    pose proof (split_on_not_nil newline rest2) as Hne.
    destruct (split_on newline rest2) as [|l ls]; [congruence |].
    cbn [map]. rewrite join_cons by discriminate.
    rewrite join_cons by discriminate.
    cbn [app]. rewrite app_assoc.
    change (newline :: ?x) with (nl ++ x).
    rewrite !app_assoc. apply startswith_app.
  - destruct (prompt_text_format_line business tools
                (a ++ nl ++ c :: r) concerns) as [x ->].
    rewrite split_on_app_sep, split_on_app_sep.
    rewrite (split_on_no_sep newline (py "    Format output as plain text with clear sections."))
      by (apply one_line_check; reflexivity).
    rewrite (split_on_no_sep newline (py "    "))
      by (apply one_line_check; reflexivity).
    rewrite !map_app. cbn [map].
    change (normalize_line (py "    Format output as plain text with clear sections."))
      with (py "    Format output as plain text with clear sections.").
    change (normalize_line (py "    ")) with (@nil N).
    rewrite join_app;
      [| intros E; apply map_eq_nil in E;
         exact (split_on_not_nil newline x E)
       | discriminate].
    change (join nl ([py "    Format output as plain text with clear sections."]
                       ++ [[]]))
      with (py "    Format output as plain text with clear sections." ++ nl).
    apply endswith_app.
Qed.

Lemma construct_prompt_keeps_indentation_witness :
  startswith (construct_prompt [ (py "tools", py "pos") ]
                (py "A buyer sent a fake alert." ++ nl
                   ++ py "A caller asked for the PIN."))
    (nl ++ py "    You are an AI assistant that writes short, clear, actionable cybersecurity policies for informal microbusinesses." ++ nl)
  = true.
Proof.
  exact (proj1 (construct_prompt_keeps_indentation [ (py "tools", py "pos") ]
                  (py "A buyer sent a fake alert.")
                  (py " caller asked for the PIN.") 65 eq_refl)).
Defined.

Lemma split_on_join (ls : list str) :
  ls <> [] -> Forall one_line ls -> split_on newline (join nl ls) = ls.
Proof.
  intros Hne H. induction H as [|l ls Hl Hls IH]; [congruence |].
  destruct ls as [|l2 ls].
  - cbn [join]. apply split_on_no_sep, Hl.
  - rewrite join_cons by discriminate.
    change (l ++ nl ++ join nl (l2 :: ls))
      with (l ++ newline :: join nl (l2 :: ls)).
    rewrite split_on_app_sep, (split_on_no_sep _ _ Hl), IH by discriminate.
    reflexivity.
Qed.

(** X20.  With an empty context (no stories file) and a business type,
    tools and concerns on one line each, [construct_prompt] returns the
    template without its indentation, line for line: an empty first
    line, the instruction, the line of the business type and the tools,
    the heading of the examples followed by two empty lines, the line of
    the concerns, an empty line, the six lines of the output format, and
    a final newline. *)
Theorem construct_prompt_without_context :
  forall (user_input : list (str * str)),
    let business :=
      dict_get user_input (py "business_type") (py "Informal vendor") in
    let tools :=
      dict_get user_input (py "tools") (py "WhatsApp / Mobile money") in
    let concerns :=
      stated_concerns (dict_get user_input (py "concerns") []) in
    one_line business -> one_line tools -> one_line concerns ->
    construct_prompt user_input []
    = join nl
        [ [];
          py "You are an AI assistant that writes short, clear, actionable cybersecurity policies for informal microbusinesses.";
          py "Target user: " ++ business ++ py ". Digital tools used: "
            ++ tools ++ py ".";
          py "Local context examples (do not reveal personally identifying info): ";
          [];
          [];
          py "User-stated concerns: " ++ concerns;
          [];
          py "Produce:";
          py "1) A short policy title (one line).";
          py "2) A 6-12 point actionable policy list (each item one sentence; no jargon).";
          py "3) A short 'Why this matters' paragraph (1-2 sentences).";
          py "4) Simple implementation checklist (3 items).";
          py "Keep language simple and concise for low-literacy users. Use imperative tone: 'Do this', 'Avoid that'.";
          py "Format output as plain text with clear sections.";
          [] ].
Proof.
  intros user_input business tools concerns Hb Ht Hc.
  rewrite construct_prompt_unfold. fold business tools concerns.
  clearbody business tools concerns.
  assert (Hlines :
    prompt_text business tools [] concerns
    = join nl
        [ [];
          py "    You are an AI assistant that writes short, clear, actionable cybersecurity policies for informal microbusinesses.";
          py "    Target user: " ++ business ++ py ". Digital tools used: "
            ++ tools ++ py ".";
          py "    Local context examples (do not reveal personally identifying info): ";
          py "    ";
          [];
          py "    User-stated concerns: " ++ concerns;
          [];
          py "    Produce:";
          py "    1) A short policy title (one line).";
          py "    2) A 6-12 point actionable policy list (each item one sentence; no jargon).";
          py "    3) A short 'Why this matters' paragraph (1-2 sentences).";
          py "    4) Simple implementation checklist (3 items).";
          py "    Keep language simple and concise for low-literacy users. Use imperative tone: 'Do this', 'Avoid that'.";
          py "    Format output as plain text with clear sections.";
          py "    " ]).
  { unfold prompt_text. cbn [join]. rewrite <- !app_assoc. reflexivity. }
  unfold dedent. rewrite Hlines. rewrite split_on_join.
  - vm_compute. reflexivity.
  - discriminate.
  - repeat (apply Forall_cons;
            [first [ apply one_line_check; reflexivity
                   | repeat first [ assumption
                                  | apply one_line_check; reflexivity
                                  | apply one_line_app ] ] |]).
    apply Forall_nil.
Qed.

Lemma construct_prompt_without_context_witness :
  startswith (construct_prompt [ (py "business_type", py "Street Trader");
                                 (py "tools", py "pos") ] [])
             (nl ++ py "You are an AI assistant") = true
  /\ contains (construct_prompt [ (py "business_type", py "Street Trader");
                                  (py "tools", py "pos") ] [])
              (nl ++ py "Target user: Street Trader. Digital tools used: pos." ++ nl)
     = true.
Proof.
  rewrite (construct_prompt_without_context
             [ (py "business_type", py "Street Trader"); (py "tools", py "pos") ]).
  - split; vm_compute; reflexivity.
  - apply one_line_check. reflexivity.
  - apply one_line_check. reflexivity.
  - apply one_line_check. reflexivity.
Defined.
